(** * icmpenguin: the probe engine of [ProbeManager.cpp]

    A shallow embedding of the C++ probe engine (class [ProbeManager] and the
    JNI result marshalling of [trigger_callback]) together with the
    properties of its packet builder, probe table, receiver and
    completion sweep.

    Conventions of the embedding.
    - A C [int] is a [Z]; where the source narrows a value (to [uint16_t]
      in [htons], to [int] after [long] arithmetic) the wrap-around is
      written out.  [long] is the 64-bit type of the LP64 Android ABIs.
    - A [std::vector<uint8_t>] is a [list Z] of bytes.
    - [std::unordered_map<int, ProbeContext>] is a [gmap Z ProbeContext].
    - Every region run under [probes_mutex] is one atomic function on the
      engine state; what the kernel answers to a system call is an
      argument of the function that makes the call.
    - The injected [trigger_callback] is recorded in [callback_log]:
      one entry, a snapshot of the probe record, per invocation. *)

From stdpp Require Import gmap strings list fin_maps.
From Stdlib Require Import ZArith Lia.

Open Scope Z_scope.

(** ** Constants of [ProbeManager.h] and of the Linux headers *)

Definition SEND_PROBE_ERROR : Z := -1.
Definition SEND_PROBE_SUCCESS : Z := 0.
Definition ICMP_HEADER_SIZE : Z := 8.
Definition INCOMING_BUFFER_SIZE : Z := 2048.
Definition DEFAULT_SEND_TIMEOUT : Z := 1000.
Definition IPV4_OVERHEAD : Z := 20.
Definition IPV6_OVERHEAD : Z := 40.
Definition UDP_OVERHEAD : Z := 8.

Definition AF_INET : Z := 2.
Definition AF_INET6 : Z := 10.
Definition IPPROTO_ICMP : Z := 1.
Definition IPPROTO_UDP : Z := 17.
Definition IPPROTO_ICMPV6 : Z := 58.
Definition ICMP_ECHO : Z := 8.
Definition ICMPV6_ECHO_REQUEST : Z := 128.
Definition EMSGSIZE : Z := 90.
Definition ECONNREFUSED : Z := 111.
Definition EHOSTUNREACH : Z := 113.
Definition ENETUNREACH : Z := 101.
Definition MSG_ERRQUEUE : Z := 8192.
Definition SOL_IP : Z := 0.
Definition SOL_IPV6 : Z := 41.
Definition IP_TTL : Z := 2.
Definition IP_RECVERR : Z := 11.
Definition IPV6_RECVERR : Z := 25.
Definition IPV6_HOPLIMIT : Z := 52.

(** [enum class ProbeType { ICMP = 1, UDP = 2 }].  The JNI entry point
    builds it with [static_cast<ProbeType>(jint)], and the engine only ever
    compares it with the two enumerators, so it is kept as its underlying
    integer. *)
Definition ProbeType : Type := Z.
Definition ICMP : ProbeType := 1.
Definition UDP : ProbeType := 2.

Inductive ProbeStatus : Type :=
| WAITING | SUCCESS | TIMEOUT | ERROR | FATAL_ERROR.

#[global] Instance ProbeStatus_eq_dec : EqDecision ProbeStatus.
Proof. solve_decision. Defined.

(** ** Time values *)

Record timeval : Type := { tv_sec : Z; tv_usec : Z }.

(** The [timersub] macro of <sys/time.h>. *)
Definition timersub (a b : timeval) : timeval :=
  let sec := tv_sec a - tv_sec b in
  let usec := tv_usec a - tv_usec b in
  if usec <? 0
  then {| tv_sec := sec - 1; tv_usec := usec + 1000000 |}
  else {| tv_sec := sec; tv_usec := usec |}.

(** [#define TIMEVAL_TO_MS(x) ((x.tv_sec*1000)+(x.tv_usec/1000))]; C
    division truncates. *)
Definition TIMEVAL_TO_MS (x : timeval) : Z :=
  tv_sec x * 1000 + Z.quot (tv_usec x) 1000.

Definition TIMEVAL_TO_USEC (x : timeval) : Z :=
  tv_sec x * 1000000 + tv_usec x.

(** Conversion of a [long] to [int]: reduction modulo 2^32 into the signed
    range. *)
Definition to_int (x : Z) : Z := (x + 2147483648) mod 4294967296 - 2147483648.

(** ** Probe records *)

Record ProbeContext : Type := {
  id : Z;
  remote_ip : string;
  offender : string;
  packet_data : list Z;
  reply_data : list Z;
  ttl : Z;
  reply_ttl : Z;
  timeout : Z;
  overhead : Z;
  probe_type : ProbeType;
  tv_sent : timeval;
  tv_received : timeval;
  tv_diff : timeval;
  sequence : Z;
  error_msg : string;
  err_no : Z;
  err_code : Z;
  err_type : Z;
  err_info : Z;
  status : ProbeStatus
}.

Definition tv_zero : timeval := {| tv_sec := 0; tv_usec := 0 |}.

(** A value-initialised record, as [probes[fd]] creates for a missing key
    and as the designated initialiser of [send_probe] leaves the fields it
    does not name. *)
Definition ProbeContext_zero : ProbeContext :=
  {| id := 0; remote_ip := ""; offender := ""; packet_data := [];
     reply_data := []; ttl := 0; reply_ttl := 0; timeout := 0;
     overhead := 0; probe_type := 0; tv_sent := tv_zero;
     tv_received := tv_zero; tv_diff := tv_zero; sequence := 0;
     error_msg := ""; err_no := 0; err_code := 0; err_type := 0;
     err_info := 0; status := WAITING |}.

(** Field assignments [probe.f = v]. *)
Definition set_status (v : ProbeStatus) (p : ProbeContext) : ProbeContext :=
  {| id := id p; remote_ip := remote_ip p; offender := offender p;
     packet_data := packet_data p; reply_data := reply_data p; ttl := ttl p;
     reply_ttl := reply_ttl p; timeout := timeout p; overhead := overhead p;
     probe_type := probe_type p; tv_sent := tv_sent p;
     tv_received := tv_received p; tv_diff := tv_diff p;
     sequence := sequence p; error_msg := error_msg p; err_no := err_no p;
     err_code := err_code p; err_type := err_type p; err_info := err_info p;
     status := v |}.

Definition set_packet_data (v : list Z) (p : ProbeContext) : ProbeContext :=
  {| id := id p; remote_ip := remote_ip p; offender := offender p;
     packet_data := v; reply_data := reply_data p; ttl := ttl p;
     reply_ttl := reply_ttl p; timeout := timeout p; overhead := overhead p;
     probe_type := probe_type p; tv_sent := tv_sent p;
     tv_received := tv_received p; tv_diff := tv_diff p;
     sequence := sequence p; error_msg := error_msg p; err_no := err_no p;
     err_code := err_code p; err_type := err_type p; err_info := err_info p;
     status := status p |}.

Definition set_reply_data (v : list Z) (p : ProbeContext) : ProbeContext :=
  {| id := id p; remote_ip := remote_ip p; offender := offender p;
     packet_data := packet_data p; reply_data := v; ttl := ttl p;
     reply_ttl := reply_ttl p; timeout := timeout p; overhead := overhead p;
     probe_type := probe_type p; tv_sent := tv_sent p;
     tv_received := tv_received p; tv_diff := tv_diff p;
     sequence := sequence p; error_msg := error_msg p; err_no := err_no p;
     err_code := err_code p; err_type := err_type p; err_info := err_info p;
     status := status p |}.

Definition set_reply_ttl (v : Z) (p : ProbeContext) : ProbeContext :=
  {| id := id p; remote_ip := remote_ip p; offender := offender p;
     packet_data := packet_data p; reply_data := reply_data p; ttl := ttl p;
     reply_ttl := v; timeout := timeout p; overhead := overhead p;
     probe_type := probe_type p; tv_sent := tv_sent p;
     tv_received := tv_received p; tv_diff := tv_diff p;
     sequence := sequence p; error_msg := error_msg p; err_no := err_no p;
     err_code := err_code p; err_type := err_type p; err_info := err_info p;
     status := status p |}.

Definition set_tv_sent (v : timeval) (p : ProbeContext) : ProbeContext :=
  {| id := id p; remote_ip := remote_ip p; offender := offender p;
     packet_data := packet_data p; reply_data := reply_data p; ttl := ttl p;
     reply_ttl := reply_ttl p; timeout := timeout p; overhead := overhead p;
     probe_type := probe_type p; tv_sent := v;
     tv_received := tv_received p; tv_diff := tv_diff p;
     sequence := sequence p; error_msg := error_msg p; err_no := err_no p;
     err_code := err_code p; err_type := err_type p; err_info := err_info p;
     status := status p |}.

Definition set_tv_received (v : timeval) (p : ProbeContext) : ProbeContext :=
  {| id := id p; remote_ip := remote_ip p; offender := offender p;
     packet_data := packet_data p; reply_data := reply_data p; ttl := ttl p;
     reply_ttl := reply_ttl p; timeout := timeout p; overhead := overhead p;
     probe_type := probe_type p; tv_sent := tv_sent p;
     tv_received := v; tv_diff := tv_diff p;
     sequence := sequence p; error_msg := error_msg p; err_no := err_no p;
     err_code := err_code p; err_type := err_type p; err_info := err_info p;
     status := status p |}.

Definition set_tv_diff (v : timeval) (p : ProbeContext) : ProbeContext :=
  {| id := id p; remote_ip := remote_ip p; offender := offender p;
     packet_data := packet_data p; reply_data := reply_data p; ttl := ttl p;
     reply_ttl := reply_ttl p; timeout := timeout p; overhead := overhead p;
     probe_type := probe_type p; tv_sent := tv_sent p;
     tv_received := tv_received p; tv_diff := v;
     sequence := sequence p; error_msg := error_msg p; err_no := err_no p;
     err_code := err_code p; err_type := err_type p; err_info := err_info p;
     status := status p |}.

Definition set_error_msg (v : string) (p : ProbeContext) : ProbeContext :=
  {| id := id p; remote_ip := remote_ip p; offender := offender p;
     packet_data := packet_data p; reply_data := reply_data p; ttl := ttl p;
     reply_ttl := reply_ttl p; timeout := timeout p; overhead := overhead p;
     probe_type := probe_type p; tv_sent := tv_sent p;
     tv_received := tv_received p; tv_diff := tv_diff p;
     sequence := sequence p; error_msg := v; err_no := err_no p;
     err_code := err_code p; err_type := err_type p; err_info := err_info p;
     status := status p |}.

(** The five assignments made for an extended-error control message. *)
Definition set_error (off : string) (eno ecode etype einfo : Z)
    (p : ProbeContext) : ProbeContext :=
  {| id := id p; remote_ip := remote_ip p; offender := off;
     packet_data := packet_data p; reply_data := reply_data p; ttl := ttl p;
     reply_ttl := reply_ttl p; timeout := timeout p; overhead := overhead p;
     probe_type := probe_type p; tv_sent := tv_sent p;
     tv_received := tv_received p; tv_diff := tv_diff p;
     sequence := sequence p; error_msg := error_msg p; err_no := eno;
     err_code := ecode; err_type := etype; err_info := einfo;
     status := status p |}.

(** ** Packet builder *)

(** [htons] on a little-endian host: narrow to 16 bits, swap the bytes. *)
Definition htons (x : Z) : Z :=
  let v := x mod 65536 in
  Z.lor (Z.shiftl (Z.land v 255) 8) (Z.shiftr v 8).

(** Store of a [uint16_t] at byte offset [off] of little-endian memory. *)
Definition store16 (off : nat) (v : Z) (mem : list Z) : list Z :=
  <[S off := Z.land (Z.shiftr v 8) 255]> (<[off := Z.land v 255]> mem).

(** [memcpy(dst + off, src, n)], for [n] bytes that [src] has and [dst]
    has room for, as in every call the engine makes. *)
Definition memcpy (dst : list Z) (off : nat) (src : list Z) (n : nat) : list Z :=
  take off dst ++ take n src ++ drop (off + n) dst.

(** The pattern loop
    [for (int i = data_offset; i < packet_size; i += pattern_len)].
    [fuel] bounds the number of iterations; [None] means the bound was
    reached with the loop condition still true. *)
Fixpoint fill_pattern (fuel : nat) (data : list Z) (i packet_size : Z)
    (pattern : list Z) (pattern_len : Z) : option (list Z) :=
  if i <? packet_size then
    match fuel with
    | O => None
    | S fuel' =>
        let chunk_size := packet_size - i in
        let chunk_size :=
          if chunk_size >? pattern_len then pattern_len else chunk_size in
        fill_pattern fuel'
          (memcpy data (Z.to_nat i) pattern (Z.to_nat chunk_size))
          (i + pattern_len) packet_size pattern pattern_len
    end
  else Some data.

(** The two header layouts: [struct icmphdr] and [struct icmp6hdr] both have
    type at byte 0, code at byte 1, the checksum at bytes 2-3, and the echo
    identifier and sequence at bytes 4-5 and 6-7. *)
Definition write_echo_header (type : Z) (ident seq : Z) (data : list Z) : list Z :=
  store16 6 (htons seq) (store16 4 (htons ident) (<[1%nat := 0]> (<[0%nat := type]> data))).

(** [ProbeManager::init_packet_data].  [ident] and [family] are the members
    [ident] and [remote_addr.ss_family] it reads.  [None]: [resize] was
    given a negative size (converted to a [size_t] above [max_size], it
    throws [std::length_error]), or the pattern loop did not finish. *)
Definition init_packet_data (ident family : Z) (probe : ProbeContext)
    (size : Z) (pattern : list Z) (pattern_len : Z) : option ProbeContext :=
  let data_offset := if decide (probe_type probe = ICMP) then ICMP_HEADER_SIZE else 0 in
  let packet_size :=
    if decide (probe_type probe = ICMP) then
      if size <? ICMP_HEADER_SIZE then ICMP_HEADER_SIZE else size
    else size in
  if packet_size <? 0 then None else
  let data := replicate (Z.to_nat packet_size) 0 in
  let data :=
    if decide (probe_type probe = ICMP) then
      if decide (family = AF_INET)
      then write_echo_header ICMP_ECHO ident (sequence probe) data
      else write_echo_header ICMPV6_ECHO_REQUEST ident (sequence probe) data
    else data in
  if pattern_len >? 0 then
    match fill_pattern (Z.to_nat packet_size) data data_offset packet_size
            pattern pattern_len with
    | Some data' => Some (set_packet_data data' probe)
    | None => None
    end
  else Some (set_packet_data data probe).

(** ** Engine state *)

(** The part of a [sockaddr_storage] the engine touches, seen through
    [sockaddr_in] / [sockaddr_in6]: family, port (network byte order) and
    address bytes. *)
Record sockaddr_storage : Type := {
  ss_family : Z;
  sin_port : Z;
  sin_addr : list Z
}.

Definition set_sin_port (v : Z) (a : sockaddr_storage) : sockaddr_storage :=
  {| ss_family := ss_family a; sin_port := v; sin_addr := sin_addr a |}.

(** One [sendto] call: descriptor, destination, payload. *)
Record datagram_sent : Type := {
  sent_fd : Z;
  sent_to : sockaddr_storage;
  sent_payload : list Z
}.

(** The members of [class ProbeManager] ([this_remote_ip] is the member
    [remote_ip]), followed by the effects the engine has on its
    surroundings: the invocations of [trigger_callback], the interest list
    of the epoll instance, the counter of the eventfd, the descriptors
    closed and the datagrams handed to [sendto]. *)
Record ProbeManager : Type := {
  probes : gmap Z ProbeContext;
  ident : Z;
  remote_addr : sockaddr_storage;
  source_addr : sockaddr_storage;
  this_remote_ip : string;
  source_ip : string;
  running : bool;
  epoll_fd : Z;
  wakeup_fd : Z;
  callback_log : list ProbeContext;
  epoll_interest : gset Z;
  wakeup_counter : Z;
  closed_fds : list Z;
  sendto_log : list datagram_sent
}.

Definition set_probes (v : gmap Z ProbeContext) (m : ProbeManager) : ProbeManager :=
  {| probes := v; ident := ident m; remote_addr := remote_addr m;
     source_addr := source_addr m; this_remote_ip := this_remote_ip m;
     source_ip := source_ip m; running := running m; epoll_fd := epoll_fd m;
     wakeup_fd := wakeup_fd m; callback_log := callback_log m;
     epoll_interest := epoll_interest m; wakeup_counter := wakeup_counter m;
     closed_fds := closed_fds m; sendto_log := sendto_log m |}.

Definition set_running (v : bool) (m : ProbeManager) : ProbeManager :=
  {| probes := probes m; ident := ident m; remote_addr := remote_addr m;
     source_addr := source_addr m; this_remote_ip := this_remote_ip m;
     source_ip := source_ip m; running := v; epoll_fd := epoll_fd m;
     wakeup_fd := wakeup_fd m; callback_log := callback_log m;
     epoll_interest := epoll_interest m; wakeup_counter := wakeup_counter m;
     closed_fds := closed_fds m; sendto_log := sendto_log m |}.

Definition set_callback_log (v : list ProbeContext) (m : ProbeManager) : ProbeManager :=
  {| probes := probes m; ident := ident m; remote_addr := remote_addr m;
     source_addr := source_addr m; this_remote_ip := this_remote_ip m;
     source_ip := source_ip m; running := running m; epoll_fd := epoll_fd m;
     wakeup_fd := wakeup_fd m; callback_log := v;
     epoll_interest := epoll_interest m; wakeup_counter := wakeup_counter m;
     closed_fds := closed_fds m; sendto_log := sendto_log m |}.

Definition set_epoll_interest (v : gset Z) (m : ProbeManager) : ProbeManager :=
  {| probes := probes m; ident := ident m; remote_addr := remote_addr m;
     source_addr := source_addr m; this_remote_ip := this_remote_ip m;
     source_ip := source_ip m; running := running m; epoll_fd := epoll_fd m;
     wakeup_fd := wakeup_fd m; callback_log := callback_log m;
     epoll_interest := v; wakeup_counter := wakeup_counter m;
     closed_fds := closed_fds m; sendto_log := sendto_log m |}.

Definition set_wakeup_counter (v : Z) (m : ProbeManager) : ProbeManager :=
  {| probes := probes m; ident := ident m; remote_addr := remote_addr m;
     source_addr := source_addr m; this_remote_ip := this_remote_ip m;
     source_ip := source_ip m; running := running m; epoll_fd := epoll_fd m;
     wakeup_fd := wakeup_fd m; callback_log := callback_log m;
     epoll_interest := epoll_interest m; wakeup_counter := v;
     closed_fds := closed_fds m; sendto_log := sendto_log m |}.

Definition set_closed_fds (v : list Z) (m : ProbeManager) : ProbeManager :=
  {| probes := probes m; ident := ident m; remote_addr := remote_addr m;
     source_addr := source_addr m; this_remote_ip := this_remote_ip m;
     source_ip := source_ip m; running := running m; epoll_fd := epoll_fd m;
     wakeup_fd := wakeup_fd m; callback_log := callback_log m;
     epoll_interest := epoll_interest m; wakeup_counter := wakeup_counter m;
     closed_fds := v; sendto_log := sendto_log m |}.

Definition set_sendto_log (v : list datagram_sent) (m : ProbeManager) : ProbeManager :=
  {| probes := probes m; ident := ident m; remote_addr := remote_addr m;
     source_addr := source_addr m; this_remote_ip := this_remote_ip m;
     source_ip := source_ip m; running := running m; epoll_fd := epoll_fd m;
     wakeup_fd := wakeup_fd m; callback_log := callback_log m;
     epoll_interest := epoll_interest m; wakeup_counter := wakeup_counter m;
     closed_fds := closed_fds m; sendto_log := v |}.

(** *** Effects *)

(** [trigger_callback(callback_obj, probe)]. *)
Definition trigger_callback (probe : ProbeContext) (m : ProbeManager) : ProbeManager :=
  set_callback_log (callback_log m ++ [probe]) m.

(** [close(fd)]. *)
Definition close (fd : Z) (m : ProbeManager) : ProbeManager :=
  set_closed_fds (closed_fds m ++ [fd]) m.

(** [ProbeManager::wakeup_event]: add one to the eventfd counter.  The
    write is taken to succeed, as it does on the notifier [handler] has
    created; before a successful start [wakeup_fd] is -1, the write fails
    and nothing is counted, which this definition does not describe. *)
Definition wakeup_event (m : ProbeManager) : ProbeManager :=
  set_wakeup_counter (wakeup_counter m + 1) m.

(** What a system call answers: its non-negative return value, or -1 with
    [errno] and the text [strerror(errno)]. *)
Inductive sysret : Type :=
| Ret (v : Z)
| Err (errno : Z) (text : string).

(** The kernel's answers during one [send_probe]. *)
Record send_env : Type := {
  socket_result : sysret;
  bind_result : sysret;
  sendto_result : sysret;
  gettimeofday_sent : timeval
}.

(** ** Sending *)

(** [ProbeManager::add_socket].  [epoll_ctl] is taken to succeed, as it
    does on the multiplexor [handler] has created, so for an engine that
    satisfies [worker_in_loop] the interest list is what the multiplexor
    watches; before a successful start [epoll_fd] is -1, the call fails
    and the descriptor is in the table without being watched, which this
    definition does not describe. *)
Definition add_socket (fd : Z) (probe : ProbeContext) (m : ProbeManager) : ProbeManager :=
  let m := set_probes (<[fd := probe]> (probes m)) m in
  let m := set_epoll_interest ({[fd]} ∪ epoll_interest m) m in
  wakeup_event m.

(** [ProbeManager::send_probe].  [init_socket] only issues [setsockopt]
    calls, whose failures are logged and otherwise ignored; it changes
    nothing in the record or the engine and is left out.  The result is the
    engine afterwards and the value returned; [None] when
    [init_packet_data] does not return. *)
Definition send_probe (id' : Z) (probe_type' : ProbeType)
    (port sequence' ttl' timeout' size : Z) (detect_mtu : bool)
    (pattern : list Z) (pattern_len : Z)
    (env : send_env) (m : ProbeManager) : option (ProbeManager * Z) :=
  let probe :=
    {| id := id'; remote_ip := this_remote_ip m; offender := "";
       packet_data := []; reply_data := []; ttl := ttl'; reply_ttl := 0;
       timeout := timeout';
       overhead :=
         (if decide (probe_type' = UDP) then UDP_OVERHEAD else 0) +
         (if decide (ss_family (remote_addr m) = AF_INET)
          then IPV4_OVERHEAD else IPV6_OVERHEAD);
       probe_type := probe_type'; tv_sent := tv_zero;
       tv_received := tv_zero; tv_diff := tv_zero;
       sequence := Z.rem sequence' 65535;
       error_msg := ""; err_no := 0; err_code := 0; err_type := 0;
       err_info := 0; status := WAITING |} in
  match socket_result env with
  | Err _ text =>
      let probe := set_error_msg ("Error creating socket: " +:+ text) probe in
      let probe := set_status FATAL_ERROR probe in
      Some (trigger_callback probe m, SEND_PROBE_ERROR)
  | Ret sock =>
      let bind_failure :=
        if decide (source_ip m = "") then None
        else match bind_result env with
             | Err _ text => Some text
             | Ret _ => None
             end in
      match bind_failure with
      | Some text =>
          let probe := set_error_msg ("Error binding socket: " +:+ text) probe in
          let probe := set_status FATAL_ERROR probe in
          let m := close sock m in
          Some (trigger_callback probe m, SEND_PROBE_ERROR)
      | None =>
          match init_packet_data (ident m) (ss_family (remote_addr m)) probe
                  size pattern pattern_len with
          | None => None
          | Some probe =>
              let local_remote_addr := remote_addr m in
              let local_remote_addr :=
                if decide (probe_type' = UDP ∧ port > 0)
                then set_sin_port (htons port) local_remote_addr
                else local_remote_addr in
              let probe := set_tv_sent (gettimeofday_sent env) probe in
              let m :=
                set_sendto_log
                  (sendto_log m ++
                   [{| sent_fd := sock; sent_to := local_remote_addr;
                       sent_payload := packet_data probe |}]) m in
              let fatal :=
                match sendto_result env with
                | Err errno text =>
                    if decide (errno ≠ EMSGSIZE) then Some text else None
                | Ret _ => None
                end in
              match fatal with
              | Some text =>
                  let m := close sock m in
                  let probe :=
                    set_error_msg ("Error sending probe: " +:+ text) probe in
                  let probe := set_status FATAL_ERROR probe in
                  Some (trigger_callback probe m, SEND_PROBE_ERROR)
              | None => Some (add_socket sock probe m, SEND_PROBE_SUCCESS)
              end
          end
      end
  end.

(** ** Completion sweep *)

(** [ProbeManager::force_timeouts]. *)
Definition force_timeouts (m : ProbeManager) : ProbeManager :=
  set_probes
    ((λ probe, if decide (status probe = WAITING)
               then set_status TIMEOUT probe else probe) <$> probes m) m.

(** [ProbeManager::clean_probes]: every entry that is not WAITING is taken
    off the interest list, its descriptor closed, and erased. *)
Definition clean_probes (m : ProbeManager) : ProbeManager :=
  let done := filter (λ kv, status kv.2 ≠ WAITING) (probes m) in
  let m := set_epoll_interest (epoll_interest m ∖ dom done) m in
  let m := set_closed_fds (closed_fds m ++ (map_to_list done).*1) m in
  set_probes (filter (λ kv, status kv.2 = WAITING) (probes m)) m.

(** [ProbeManager::check_timeouts]; [tv_now] is what [gettimeofday]
    answers. *)
Definition check_timeouts (tv_now : timeval) (m : ProbeManager) : ProbeManager :=
  set_probes
    ((λ probe,
        if decide (status probe = WAITING) then
          let tv_diff := timersub tv_now (tv_sent probe) in
          if TIMEVAL_TO_MS tv_diff >? timeout probe
          then set_status TIMEOUT probe else probe
        else probe) <$> probes m) m.

(** [ProbeManager::send_callbacks]: one invocation per entry that is not
    WAITING, in the iteration order of the table. *)
Definition send_callbacks (m : ProbeManager) : ProbeManager :=
  foldl (λ m probe,
           if decide (status probe ≠ WAITING) then trigger_callback probe m
           else m)
        m (map_to_list (probes m)).*2.

(** One iteration of the loop of [get_min_wait_time]. *)
Definition min_wait_step (tv_now : timeval) (min_wait_time : Z)
    (probe : ProbeContext) : Z :=
  if decide (status probe = WAITING) then
    let tv_diff := timersub tv_now (tv_sent probe) in
    let timeout' := to_int (timeout probe - TIMEVAL_TO_MS tv_diff) in
    if decide (min_wait_time = -1 ∨ timeout' < min_wait_time) then
      let min_wait_time := timeout' in
      if min_wait_time <? 0 then 0 else min_wait_time
    else min_wait_time
  else min_wait_time.

(** [ProbeManager::get_min_wait_time]. *)
Definition get_min_wait_time (tv_now : timeval) (m : ProbeManager) : Z :=
  foldl (min_wait_step tv_now) (-1) (map_to_list (probes m)).*2.

(** [ProbeManager::get_queue_size]. *)
Definition get_queue_size (m : ProbeManager) : Z := Z.of_nat (size (probes m)).

(** ** Receiver *)

(** A control message.  [CMSG_DATA] is read either as a
    [sock_extended_err] followed by the offender's address (given here as
    [inet_ntop] prints it) or as an [int]. *)
Record cmsghdr : Type := {
  cmsg_level : Z;
  cmsg_type : Z;
  ee_errno : Z;
  ee_code : Z;
  ee_origin : Z;
  ee_info : Z;
  ee_offender : string;
  cmsg_int : Z
}.

(** What a successful [recvmsg] found: the queued datagram and the control
    messages. *)
Record msghdr : Type := {
  msg_data : list Z;
  msg_control : list cmsghdr
}.

(** The kernel's answers during one [read_data]: the clock, the two
    [recvmsg] calls ([None]: the call returned -1) and the [SIOCGSTAMP]
    ioctl ([None]: it failed and left its argument alone). *)
Record read_env : Type := {
  gettimeofday_received : timeval;
  recvmsg_errqueue : option msghdr;
  recvmsg_data : option msghdr;
  siocgstamp : option timeval
}.

Definition ioctl_SIOCGSTAMP (stamp : option timeval) (probe : ProbeContext) : ProbeContext :=
  match stamp with
  | Some tv => set_tv_received tv probe
  | None => probe
  end.

(** The body of the loop over the control messages.  The record's
    [offender] is the text [inet_ntop] wrote, up to its terminator: the
    C string [offender.c_str()] that [trigger_callback] hands on.  (The
    [std::string] itself is resized to the longest address text and keeps
    the bytes behind the terminator.) *)
Definition handle_cmsg (stamp : option timeval) (probe : ProbeContext)
    (cmsg : cmsghdr) : ProbeContext :=
  if decide ((cmsg_level cmsg = SOL_IP ∧ cmsg_type cmsg = IP_RECVERR) ∨
             (cmsg_level cmsg = SOL_IPV6 ∧ cmsg_type cmsg = IPV6_RECVERR)) then
    let probe :=
      set_error (ee_offender cmsg) (ee_errno cmsg) (ee_code cmsg)
        (ee_origin cmsg) (ee_info cmsg) probe in
    let probe := set_status ERROR probe in
    ioctl_SIOCGSTAMP stamp probe
  else if decide ((cmsg_level cmsg = SOL_IP ∧ cmsg_type cmsg = IP_TTL) ∨
                  (cmsg_level cmsg = SOL_IPV6 ∧ cmsg_type cmsg = IPV6_HOPLIMIT)) then
    set_reply_ttl (cmsg_int cmsg) probe
  else probe.

(** One iteration of [for (int i = 0; i < 2; i++)] up to the test for
    ERROR: a [recvmsg] into [reply_data] with the given flag.  The kernel
    copies at most the buffer's length and returns the number of bytes
    copied. *)
Definition recv_pass (flag : Z) (answer : option msghdr)
    (stamp : option timeval) (probe : ProbeContext) : ProbeContext :=
  match answer with
  | None => probe
  | Some msg =>
      let buffer := reply_data probe in
      let copied := take (length buffer) (msg_data msg) in
      let data_len := length copied in
      let probe := set_reply_data (copied ++ drop data_len buffer) probe in
      let probe := foldl (handle_cmsg stamp) probe (msg_control msg) in
      if decide (flag = 0) then
        let probe := set_status SUCCESS probe in
        let probe := ioctl_SIOCGSTAMP stamp probe in
        set_reply_data (resize data_len 0 (reply_data probe)) probe
      else probe
  end.

(** [ProbeManager::read_data].  [probes[fd]] inserts a value-initialised
    record when [fd] is not a key.  The two iterations of the loop are
    written out: the error queue first, then, unless the status became
    ERROR, the data. *)
Definition read_data (fd : Z) (env : read_env) (m : ProbeManager) : ProbeManager :=
  let probe := default ProbeContext_zero (probes m !! fd) in
  let probe := set_tv_received (gettimeofday_received env) probe in
  let probe := set_status TIMEOUT probe in
  let probe :=
    set_reply_data
      (resize (Z.to_nat INCOMING_BUFFER_SIZE) 0 (reply_data probe)) probe in
  let probe := recv_pass MSG_ERRQUEUE (recvmsg_errqueue env) (siocgstamp env) probe in
  let probe :=
    if decide (status probe = ERROR) then probe
    else recv_pass 0 (recvmsg_data env) (siocgstamp env) probe in
  let probe := set_tv_diff (timersub (tv_received probe) (tv_sent probe)) probe in
  set_probes (<[fd := probe]> (probes m)) m.

(** ** Worker *)

(** One return of [epoll_wait]: the ready descriptors in order, the
    kernel's answers for the receiver on each of them, and the clock read
    by [check_timeouts]. *)
Record wake : Type := {
  events : list Z;
  answers : Z → read_env;
  sweep_time : timeval
}.

(** The body of [for (int i = 0; i < n; i++)] in [handler]: the notifier is
    drained, any other descriptor goes to the receiver. *)
Definition handle_event (w : wake) (m : ProbeManager) (fd : Z) : ProbeManager :=
  if decide (fd = wakeup_fd m) then set_wakeup_counter 0 m
  else read_data fd (answers w fd) m.

(** The body of [while (running.load())]. *)
Definition handler_body (w : wake) (m : ProbeManager) : ProbeManager :=
  let m := foldl (handle_event w) m (events w) in
  let m := check_timeouts (sweep_time w) m in
  let m := send_callbacks m in
  clean_probes m.

(** What [handler] does after the loop. *)
Definition handler_exit (m : ProbeManager) : ProbeManager :=
  let m := force_timeouts m in
  let m := clean_probes m in
  let m := close (wakeup_fd m) m in
  close (epoll_fd m) m.

(** The loop of [handler] on a given sequence of wake-ups, for as long as
    no caller interferes: while [running] holds the worker takes the next
    wake-up; once it does not, the worker leaves the loop.  With no wake-up
    left the worker stays blocked in [epoll_wait]. *)
Fixpoint handler_loop (wakes : list wake) (m : ProbeManager) : ProbeManager :=
  if running m then
    match wakes with
    | [] => m
    | w :: wakes' => handler_loop wakes' (handler_body w m)
    end
  else handler_exit m.

(** The caller's half of [ProbeManager::stop]: clear [running] and wake the
    worker; [stop] then joins the worker. *)
Definition stop_request (m : ProbeManager) : ProbeManager :=
  wakeup_event (set_running false m).

(** The worker between the stop request and its next test of [running]:
    it is either about to make that test ([None]) or inside an iteration,
    typically blocked in [epoll_wait], which it completes on the wake-up
    [w] ([Some w]). *)
Definition until_loop_exit (in_flight : option wake) (m : ProbeManager) : ProbeManager :=
  match in_flight with
  | Some w => handler_body w m
  | None => m
  end.

(** [ProbeManager::stop] as a whole, called while the worker is in its
    loop: the request, the worker reaching the test of [running] and
    leaving [handler], and [join] returning.  When [handler] has already
    returned because the set-up failed, the real [stop] has no worker to
    wait for and nothing is reaped or closed; that call is not what this
    definition describes. *)
Definition stop (in_flight : option wake) (m : ProbeManager) : ProbeManager :=
  handler_loop [] (until_loop_exit in_flight (stop_request m)).

(** ** Result records handed to the host application *)

(** The classes [ProbeResult$...] whose constructors are listed in
    [jni_methods.h], with the arguments [trigger_callback] passes. *)
Inductive ProbeResult : Type :=
| Success (sequence : Z) (remote_ip : string) (sent_size overhead rtt_us reply_ttl : Z)
    (reply_bytes : list Z)
| Timeout (sequence : Z) (remote_ip : string) (sent_size overhead : Z)
| ConnectionRefused (sequence : Z) (remote_ip : string) (sent_size overhead : Z)
    (offender : string) (rtt_us : Z)
| HostUnreachable (sequence : Z) (remote_ip : string) (sent_size overhead : Z)
    (offender : string) (rtt_us : Z)
| NetUnreachable (sequence : Z) (remote_ip : string) (sent_size overhead : Z)
    (offender : string) (rtt_us : Z)
| NetError (sequence : Z) (remote_ip : string) (sent_size overhead : Z)
    (offender : string) (err_no err_code err_type err_info : Z)
| Unknown (sequence : Z) (remote_ip : string) (sent_size overhead : Z)
    (error_msg : string).

(** The [switch (probe.status)] of the JNI [trigger_callback], with the JNI
    environment set up: the object it builds, [None] where it builds none.
    The sizes, the microsecond counts and the two [unsigned int] fields
    [err_no] and [err_info] are read by the constructors as [jint], so
    each reaches the host narrowed to 32 bits, two's complement. *)
Definition make_result (probe : ProbeContext) : option ProbeResult :=
  let sent_size := to_int (Z.of_nat (length (packet_data probe))) in
  let rtt_us := to_int (TIMEVAL_TO_USEC (tv_diff probe)) in
  match status probe with
  | FATAL_ERROR =>
      Some (Unknown (sequence probe) (remote_ip probe) sent_size
              (overhead probe) (error_msg probe))
  | SUCCESS =>
      Some (Success (sequence probe) (remote_ip probe) sent_size
              (overhead probe) rtt_us (reply_ttl probe) (reply_data probe))
  | TIMEOUT =>
      Some (Timeout (sequence probe) (remote_ip probe) sent_size (overhead probe))
  | ERROR =>
      if decide (err_no probe = ECONNREFUSED) then
        Some (ConnectionRefused (sequence probe) (remote_ip probe) sent_size
                (overhead probe) (offender probe) rtt_us)
      else if decide (err_no probe = EHOSTUNREACH) then
        Some (HostUnreachable (sequence probe) (remote_ip probe) sent_size
                (overhead probe) (offender probe) rtt_us)
      else if decide (err_no probe = ENETUNREACH) then
        Some (NetUnreachable (sequence probe) (remote_ip probe) sent_size
                (overhead probe) (offender probe) rtt_us)
      else
        Some (NetError (sequence probe) (remote_ip probe) sent_size
                (overhead probe) (offender probe) (to_int (err_no probe))
                (err_code probe) (err_type probe) (to_int (err_info probe)))
  | WAITING => None
  end.

Definition result_overhead (r : ProbeResult) : Z :=
  match r with
  | Success _ _ _ o _ _ _ | Timeout _ _ _ o | ConnectionRefused _ _ _ o _ _
  | HostUnreachable _ _ _ o _ _ | NetUnreachable _ _ _ o _ _
  | NetError _ _ _ o _ _ _ _ _ | Unknown _ _ _ o _ => o
  end.


(** ** Runs of the engine *)

(** The atomic steps of an engine whose worker is set up: a caller's
    [send_probe] or stop request, and the worker's regions.  The receiver
    runs only on a descriptor [epoll_wait] can report, one on the interest
    list, and not on the notifier. *)
Inductive engine_step : ProbeManager → ProbeManager → Prop :=
| step_send_probe id' probe_type' port sequence' ttl' timeout' size detect_mtu
    pattern pattern_len env m m' r :
    send_probe id' probe_type' port sequence' ttl' timeout' size detect_mtu
      pattern pattern_len env m = Some (m', r) →
    engine_step m m'
| step_stop_request m : engine_step m (stop_request m)
| step_drain_notifier m : engine_step m (set_wakeup_counter 0 m)
| step_read_data fd env m :
    fd ∈ epoll_interest m → fd ≠ wakeup_fd m →
    engine_step m (read_data fd env m)
| step_check_timeouts tv_now m : engine_step m (check_timeouts tv_now m)
| step_send_callbacks m : engine_step m (send_callbacks m)
| step_clean_probes m : engine_step m (clean_probes m)
| step_force_timeouts m : engine_step m (force_timeouts m).

(** An engine as [handler] has it on entering the loop: nothing in flight,
    nothing delivered, at most the notifier on the interest list. *)
Definition fresh_engine (m : ProbeManager) : Prop :=
  probes m = ∅ ∧ epoll_interest m ⊆ {[wakeup_fd m]} ∧ callback_log m = [].

(** The value the specification gives for [overhead]. *)
Definition expected_overhead (probe_type' : ProbeType) (family : Z) : Z :=
  (if decide (probe_type' = UDP) then 8 else 0) +
  (if decide (family = AF_INET) then 20 else 40).

(** ** Notions used in the statements *)

(** What the record built by [send_probe] keeps from the call, whichever
    way the call ends. *)
Definition built_by (m : ProbeManager) (id' : Z) (probe_type' : ProbeType)
    (sequence' timeout' : Z) (probe : ProbeContext) : Prop :=
  id probe = id' ∧ probe_type probe = probe_type' ∧
  overhead probe =
    (if decide (probe_type' = UDP) then UDP_OVERHEAD else 0) +
    (if decide (ss_family (remote_addr m) = AF_INET)
     then IPV4_OVERHEAD else IPV6_OVERHEAD) ∧
  sequence probe = Z.rem sequence' 65535 ∧ timeout probe = timeout' ∧
  reply_data probe = [].

(** The fields fixed when the probe is sent. *)
Definition request_fields (probe : ProbeContext) :=
  (id probe, probe_type probe, overhead probe, sequence probe,
   timeout probe, packet_data probe, tv_sent probe).

(** The milliseconds since the probe was sent, as [get_min_wait_time] and
    [check_timeouts] compute them. *)
Definition elapsed_ms (tv_now : timeval) (probe : ProbeContext) : Z :=
  TIMEVAL_TO_MS (timersub tv_now (tv_sent probe)).

(** The specification's [max(0, timeout_ms − (now − tv_sent))]. *)
Definition remaining_ms (tv_now : timeval) (probe : ProbeContext) : Z :=
  Z.max 0 (timeout probe - elapsed_ms tv_now probe).

(** The values of an [int]. *)
Definition fits_int (x : Z) : Prop := -2147483648 ≤ x < 2147483648.

Definition overhead_ok (family : Z) (probe : ProbeContext) : Prop :=
  overhead probe = expected_overhead (probe_type probe) family.

(** What every run keeps true: the destination family and the notifier are
    fixed, the multiplexor watches only the notifier and table keys, and
    every record in the table or handed to the callback has the overhead
    of its type and of the destination family. *)
Definition engine_inv (family notifier : Z) (m : ProbeManager) : Prop :=
  ss_family (remote_addr m) = family ∧
  wakeup_fd m = notifier ∧
  (∀ fd, fd ∈ epoll_interest m → fd = notifier ∨ is_Some (probes m !! fd)) ∧
  (∀ fd probe, probes m !! fd = Some probe → overhead_ok family probe) ∧
  (∀ probe, probe ∈ callback_log m → overhead_ok family probe).

(** ** Sample engines, records and kernel answers *)

Definition probe_icmp_example : ProbeContext :=
  {| id := 7; remote_ip := "192.0.2.1"; offender := ""; packet_data := [];
     reply_data := []; ttl := 64; reply_ttl := 0; timeout := 1000;
     overhead := 20; probe_type := ICMP; tv_sent := tv_zero;
     tv_received := tv_zero; tv_diff := tv_zero; sequence := 258;
     error_msg := ""; err_no := 0; err_code := 0; err_type := 0;
     err_info := 0; status := WAITING |}.

Definition addr_example : sockaddr_storage :=
  {| ss_family := AF_INET; sin_port := 0; sin_addr := [192; 0; 2; 1] |}.

Definition addr_unset : sockaddr_storage :=
  {| ss_family := 0; sin_port := 0; sin_addr := [] |}.

(** An engine for 192.0.2.1 with no source address, its worker inside the
    loop. *)
Definition engine_example : ProbeManager :=
  {| probes := ∅; ident := 4660; remote_addr := addr_example;
     source_addr := addr_unset; this_remote_ip := "192.0.2.1";
     source_ip := ""; running := true; epoll_fd := 3; wakeup_fd := 4;
     callback_log := []; epoll_interest := {[4]}; wakeup_counter := 0;
     closed_fds := []; sendto_log := [] |}.

Definition send_env_ok : send_env :=
  {| socket_result := Ret 5; bind_result := Ret 0; sendto_result := Ret 13;
     gettimeofday_sent := {| tv_sec := 100; tv_usec := 250000 |} |}.

Definition read_env_nothing : read_env :=
  {| gettimeofday_received := {| tv_sec := 100; tv_usec := 300000 |};
     recvmsg_errqueue := None; recvmsg_data := None; siocgstamp := None |}.

(** The wake-up caused by [stop]: only the notifier is ready, 60 ms after
    the probe of [send_env_ok] was sent. *)
Definition wake_notifier : wake :=
  {| events := [4]; answers := λ _, read_env_nothing;
     sweep_time := {| tv_sec := 100; tv_usec := 310000 |} |}.

Definition send_env_emsgsize : send_env :=
  {| socket_result := Ret 5; bind_result := Ret 0;
     sendto_result := Err EMSGSIZE "Message too long";
     gettimeofday_sent := {| tv_sec := 100; tv_usec := 250000 |} |}.

Definition send_env_enetunreach : send_env :=
  {| socket_result := Ret 5; bind_result := Ret 0;
     sendto_result := Err ENETUNREACH "Network is unreachable";
     gettimeofday_sent := {| tv_sec := 100; tv_usec := 250000 |} |}.

Definition probe_waiting_example : ProbeContext :=
  {| id := 7; remote_ip := "192.0.2.1"; offender := "";
     packet_data := [8; 0; 0; 0; 18; 52; 0; 1; 170; 187; 204; 170; 187];
     reply_data := []; ttl := 64; reply_ttl := 0; timeout := 1000;
     overhead := 20; probe_type := ICMP;
     tv_sent := {| tv_sec := 100; tv_usec := 250000 |};
     tv_received := tv_zero; tv_diff := tv_zero; sequence := 1;
     error_msg := ""; err_no := 0; err_code := 0; err_type := 0;
     err_info := 0; status := WAITING |}.

(** [engine_example] with one probe in flight on descriptor 5. *)
Definition engine_waiting : ProbeManager :=
  set_epoll_interest {[4; 5]}
    (set_probes {[5 := probe_waiting_example]} engine_example).

(** A router at 198.51.100.1 answered "time exceeded": the error queue
    holds the extended error (origin ICMP, type 11, code 0) and the payload
    of the probe. *)
Definition read_env_time_exceeded : read_env :=
  {| gettimeofday_received := {| tv_sec := 100; tv_usec := 300000 |};
     recvmsg_errqueue :=
       Some {| msg_data := [170; 187; 204; 170; 187];
               msg_control :=
                 [{| cmsg_level := SOL_IP; cmsg_type := IP_RECVERR;
                     ee_errno := EHOSTUNREACH; ee_code := 0; ee_origin := 2;
                     ee_info := 0; ee_offender := "198.51.100.1";
                     cmsg_int := 0 |}] |};
     recvmsg_data := None;
     siocgstamp := Some {| tv_sec := 100; tv_usec := 290000 |} |}.

Definition probe_udp_example : ProbeContext :=
  {| id := 8; remote_ip := "192.0.2.1"; offender := "";
     packet_data := [1; 2; 3; 1]; reply_data := []; ttl := 3; reply_ttl := 0;
     timeout := 200; overhead := 28; probe_type := UDP;
     tv_sent := {| tv_sec := 100; tv_usec := 200000 |};
     tv_received := tv_zero; tv_diff := tv_zero; sequence := 2;
     error_msg := ""; err_no := 0; err_code := 0; err_type := 0;
     err_info := 0; status := WAITING |}.

(** Two probes in flight and one that has already timed out. *)
Definition engine_three_probes : ProbeManager :=
  set_probes
    {[5 := probe_waiting_example; 6 := probe_udp_example;
      9 := set_status TIMEOUT probe_udp_example]} engine_example.

Definition tv_sweep_example : timeval := {| tv_sec := 100; tv_usec := 310000 |}.

(** The engine after a UDP probe to port 33434 was sent. *)
Definition engine_udp_sent : ProbeManager :=
  match send_probe 8 UDP 33434 2 3 200 4 false [1; 2; 3] 3
          send_env_ok engine_example with
  | Some (m, _) => m
  | None => engine_example
  end.

(** That probe has timed out and a delivery pass has run. *)
Definition engine_udp_delivered : ProbeManager :=
  send_callbacks
    (check_timeouts {| tv_sec := 102; tv_usec := 0 |} engine_udp_sent).

(** ** Socket options *)

Definition SOL_SOCKET : Z := 1.
Definition SO_RCVTIMEO : Z := 20.
Definition SO_SNDTIMEO : Z := 21.
Definition IPPROTO_IP : Z := 0.
Definition IPPROTO_IPV6 : Z := 41.
Definition IPV6_UNICAST_HOPS : Z := 16.
Definition IP_RECVTTL : Z := 12.
Definition IPV6_RECVHOPLIMIT : Z := 51.
Definition IP_MTU_DISCOVER : Z := 10.
Definition IPV6_MTU_DISCOVER : Z := 23.
Definition IP_PMTUDISC_PROBE : Z := 3.
Definition IPV6_PMTUDISC_PROBE : Z := 3.
Definition IP_TOS : Z := 1.
Definition IPV6_TCLASS : Z := 67.
Definition IPTOS_LOWDELAY : Z := 16.

(** [#define MS_TO_SEC(x) (x/1000)] and
    [#define MS_TO_USEC(x) ((x%1000)*1000)], with C's truncating division
    and remainder. *)
Definition MS_TO_SEC (x : Z) : Z := Z.quot x 1000.
Definition MS_TO_USEC (x : Z) : Z := Z.rem x 1000 * 1000.

(** The value handed to [setsockopt]: an [int] or a [timeval]. *)
Inductive optval : Type :=
| OptInt (v : Z)
| OptTimeval (tv : timeval).

(** One [setsockopt(sock, level, name, &value, sizeof value)]. *)
Record sockopt_call : Type := {
  opt_sock : Z;
  opt_level : Z;
  opt_name : Z;
  opt_value : optval
}.

(** [ProbeManager::init_socket]: the [setsockopt] calls it makes, in
    order.  A call that fails is logged and the function goes on, so the
    sequence of calls does not depend on their results. *)
Definition init_socket (sock : Z) (probe : ProbeContext) (detect_mtu : bool)
    (m : ProbeManager) : list sockopt_call :=
  let v4 := bool_decide (ss_family (remote_addr m) = AF_INET) in
  let call level name value :=
    {| opt_sock := sock; opt_level := level; opt_name := name;
       opt_value := value |} in
  (if ttl probe >? 0 then
     [if v4 then call IPPROTO_IP IP_TTL (OptInt (ttl probe))
      else call IPPROTO_IPV6 IPV6_UNICAST_HOPS (OptInt (ttl probe))]
   else []) ++
  (if timeout probe >? 0 then
     [call SOL_SOCKET SO_RCVTIMEO
        (OptTimeval {| tv_sec := MS_TO_SEC (timeout probe);
                       tv_usec := MS_TO_USEC (timeout probe) |})]
   else []) ++
  [call SOL_SOCKET SO_SNDTIMEO
     (OptTimeval {| tv_sec := MS_TO_SEC DEFAULT_SEND_TIMEOUT;
                    tv_usec := MS_TO_USEC DEFAULT_SEND_TIMEOUT |})] ++
  [if v4 then call SOL_IP IP_RECVERR (OptInt 1)
   else call SOL_IPV6 IPV6_RECVERR (OptInt 1)] ++
  [if v4 then call SOL_IP IP_RECVTTL (OptInt 1)
   else call SOL_IPV6 IPV6_RECVHOPLIMIT (OptInt 1)] ++
  (if detect_mtu then
     [if v4 then call SOL_IP IP_MTU_DISCOVER (OptInt IP_PMTUDISC_PROBE)
      else call SOL_IPV6 IPV6_MTU_DISCOVER (OptInt IPV6_PMTUDISC_PROBE)]
   else []) ++
  [if v4 then call IPPROTO_IP IP_TOS (OptInt IPTOS_LOWDELAY)
   else call IPPROTO_IPV6 IPV6_TCLASS (OptInt IPTOS_LOWDELAY)].

(** ** Construction and start-up *)

Definition set_sin_addr (v : list Z) (a : sockaddr_storage) : sockaddr_storage :=
  {| ss_family := ss_family a; sin_port := sin_port a; sin_addr := v |}.

Definition set_epoll_fd (v : Z) (m : ProbeManager) : ProbeManager :=
  {| probes := probes m; ident := ident m; remote_addr := remote_addr m;
     source_addr := source_addr m; this_remote_ip := this_remote_ip m;
     source_ip := source_ip m; running := running m; epoll_fd := v;
     wakeup_fd := wakeup_fd m; callback_log := callback_log m;
     epoll_interest := epoll_interest m; wakeup_counter := wakeup_counter m;
     closed_fds := closed_fds m; sendto_log := sendto_log m |}.

Definition set_wakeup_fd (v : Z) (m : ProbeManager) : ProbeManager :=
  {| probes := probes m; ident := ident m; remote_addr := remote_addr m;
     source_addr := source_addr m; this_remote_ip := this_remote_ip m;
     source_ip := source_ip m; running := running m; epoll_fd := epoll_fd m;
     wakeup_fd := v; callback_log := callback_log m;
     epoll_interest := epoll_interest m; wakeup_counter := wakeup_counter m;
     closed_fds := closed_fds m; sendto_log := sendto_log m |}.

(** A value-initialised [sockaddr_storage], as the members [remote_addr{}]
    and [source_addr{}] start out: no family, hence no address seen
    through it. *)
Definition sockaddr_zero : sockaddr_storage :=
  {| ss_family := 0; sin_port := 0; sin_addr := [] |}.

(** [ProbeManager::try_init_addr]: the storage is zeroed, its family set
    (anything but [AF_INET] counts as [AF_INET6]), and [inet_pton] parses
    into it.  [inet_pton family text] is the libc function: [Some] of the
    address bytes when it returns 1, [None] when it returns 0 and writes
    nothing.  The result is the return value and the storage. *)
Definition try_init_addr (inet_pton : Z → string → option (list Z))
    (family : Z) (addr : string) : Z * sockaddr_storage :=
  let addr_storage :=
    if decide (family = AF_INET)
    then {| ss_family := AF_INET; sin_port := 0; sin_addr := replicate 4 0 |}
    else {| ss_family := AF_INET6; sin_port := 0; sin_addr := replicate 16 0 |} in
  match inet_pton family addr with
  | Some bytes => (1, set_sin_addr bytes addr_storage)
  | None => (0, addr_storage)
  end.

(** The constructor [ProbeManager::ProbeManager].  [random_ident] is the
    draw [dis(gen)].  [None]: neither parse of the destination succeeded
    and the constructor returned before setting the callback and [ident];
    what such an object does is not modelled. *)
Definition ProbeManager_new (inet_pton : Z → string → option (list Z))
    (random_ident : Z) (remote_ip' source_ip' : string) : option ProbeManager :=
  let '(ret4, addr4) := try_init_addr inet_pton AF_INET remote_ip' in
  let resolved :=
    if ret4 <=? 0 then
      let '(ret6, addr6) := try_init_addr inet_pton AF_INET6 remote_ip' in
      if ret6 <=? 0 then None else Some addr6
    else Some addr4 in
  match resolved with
  | None => None
  | Some remote_addr' =>
      let '(source_ip', source_addr') :=
        if decide (source_ip' ≠ "") then
          let '(ret4, addr4) := try_init_addr inet_pton AF_INET source_ip' in
          if ret4 <=? 0 then
            let '(ret6, addr6) := try_init_addr inet_pton AF_INET6 source_ip' in
            if ret6 <=? 0 then ("", addr6) else (source_ip', addr6)
          else (source_ip', addr4)
        else (source_ip', sockaddr_zero) in
      Some {| probes := ∅; ident := random_ident;
              remote_addr := remote_addr'; source_addr := source_addr';
              this_remote_ip := remote_ip'; source_ip := source_ip';
              running := false; epoll_fd := -1; wakeup_fd := -1;
              callback_log := []; epoll_interest := ∅; wakeup_counter := 0;
              closed_fds := []; sendto_log := [] |}
  end.

(** What [epoll_create1] and [eventfd] return in [setup_epoll]. *)
Record setup_env : Type := {
  epoll_create1_ret : Z;
  eventfd_ret : Z
}.

(** [ProbeManager::setup_epoll]. *)
Definition setup_epoll (env : setup_env) (m : ProbeManager) : ProbeManager :=
  let m := set_epoll_fd (epoll_create1_ret env) m in
  if epoll_fd m <? 0 then m else
  let m := set_wakeup_fd (eventfd_ret env) m in
  if wakeup_fd m <? 0 then m else
  set_epoll_interest ({[wakeup_fd m]} ∪ epoll_interest m) m.

(** How [start_promise] is fulfilled. *)
Inductive start_signal : Type :=
| start_value
| start_exception.

(** [ProbeManager::handler] up to the loop. *)
Definition handler_start (env : setup_env) (m : ProbeManager) : ProbeManager * start_signal :=
  let m := setup_epoll env m in
  if (epoll_fd m <? 0) || (wakeup_fd m <? 0) then (m, start_exception)
  else (set_running true m, start_value).

(** [ProbeManager::handler] as a whole, for a worker no caller interferes
    with. *)
Definition handler (env : setup_env) (wakes : list wake) (m : ProbeManager) : ProbeManager :=
  match handler_start env m with
  | (m, start_exception) => m
  | (m, start_value) => handler_loop wakes m
  end.

(** ** Notions used in the further statements *)

(** The record [send_probe] starts from. *)
Definition new_probe (m : ProbeManager) (id' : Z) (probe_type' : ProbeType)
    (sequence' ttl' timeout' : Z) : ProbeContext :=
  {| id := id'; remote_ip := this_remote_ip m; offender := "";
     packet_data := []; reply_data := []; ttl := ttl'; reply_ttl := 0;
     timeout := timeout';
     overhead :=
       (if decide (probe_type' = UDP) then UDP_OVERHEAD else 0) +
       (if decide (ss_family (remote_addr m) = AF_INET)
        then IPV4_OVERHEAD else IPV6_OVERHEAD);
     probe_type := probe_type'; tv_sent := tv_zero;
     tv_received := tv_zero; tv_diff := tv_zero;
     sequence := Z.rem sequence' 65535;
     error_msg := ""; err_no := 0; err_code := 0; err_type := 0;
     err_info := 0; status := WAITING |}.

(** The record as it is when [send_probe] calls [sendto]. *)
Definition probe_at_sendto (m : ProbeManager) (id' : Z) (probe_type' : ProbeType)
    (sequence' ttl' timeout' : Z) (packet : list Z) (env : send_env) : ProbeContext :=
  set_tv_sent (gettimeofday_sent env)
    (set_packet_data packet (new_probe m id' probe_type' sequence' ttl' timeout')).

(** The engine right after that [sendto]. *)
Definition after_sendto (m : ProbeManager) (sock : Z) (probe_type' : ProbeType)
    (port : Z) (packet : list Z) : ProbeManager :=
  set_sendto_log
    (sendto_log m ++
     [{| sent_fd := sock;
         sent_to := if decide (probe_type' = UDP ∧ port > 0)
                    then set_sin_port (htons port) (remote_addr m)
                    else remote_addr m;
         sent_payload := packet |}]) m.

(** The FATAL_ERROR record of a failed [send_probe]. *)
Definition fatal_probe (text : string) (probe : ProbeContext) : ProbeContext :=
  set_status FATAL_ERROR (set_error_msg text probe).

(** A time value as the kernel gives it. *)
Definition normalized (tv : timeval) : Prop := 0 ≤ tv_usec tv < 1000000.

(** A control message the receiver takes for an extended error. *)
Definition is_recverr (cmsg : cmsghdr) : Prop :=
  (cmsg_level cmsg = SOL_IP ∧ cmsg_type cmsg = IP_RECVERR) ∨
  (cmsg_level cmsg = SOL_IPV6 ∧ cmsg_type cmsg = IPV6_RECVERR).

#[global] Instance is_recverr_dec cmsg : Decision (is_recverr cmsg).
Proof. unfold is_recverr. apply _. Defined.

(** A control message the receiver takes for the reply's hop limit. *)
Definition is_ttl (cmsg : cmsghdr) : Prop :=
  (cmsg_level cmsg = SOL_IP ∧ cmsg_type cmsg = IP_TTL) ∨
  (cmsg_level cmsg = SOL_IPV6 ∧ cmsg_type cmsg = IPV6_HOPLIMIT).

#[global] Instance is_ttl_dec cmsg : Decision (is_ttl cmsg).
Proof. unfold is_ttl. apply _. Defined.

(** The engine between a successful start and the stop request: [handler]
    has created the multiplexor and the notifier and has set [running], so
    the worker is in its loop and [epoll_ctl] and the notifier write act on
    open descriptors. *)
Definition worker_in_loop (m : ProbeManager) : Prop :=
  running m = true ∧ 0 ≤ epoll_fd m ∧ 0 ≤ wakeup_fd m.



(** The error-queue pass of the receiver found an extended error. *)
Definition errqueue_has_error (env : read_env) : Prop :=
  ∃ msg cmsg, recvmsg_errqueue env = Some msg ∧
              cmsg ∈ msg_control msg ∧ is_recverr cmsg.

(** An ICMP record either has no packet yet or starts with the echo header
    of this engine and of its own sequence number. *)
Definition echo_header_ok (ident' family : Z) (probe : ProbeContext) : Prop :=
  probe_type probe = ICMP →
  packet_data probe = [] ∨
  take 8 (packet_data probe) =
    [if decide (family = AF_INET) then 8 else 128; 0; 0; 0;
     (ident' mod 65536) / 256; ident' mod 256;
     (sequence probe mod 65536) / 256; sequence probe mod 256].

(** What every run keeps true of the records: the identifier, the
    destination family and the notifier are fixed, the multiplexor watches
    only the notifier and table keys, every record has a well-formed echo
    header, and every record handed to the callback is terminal. *)
Definition records_inv (ident' family notifier : Z) (m : ProbeManager) : Prop :=
  ident m = ident' ∧
  ss_family (remote_addr m) = family ∧
  wakeup_fd m = notifier ∧
  (∀ fd, fd ∈ epoll_interest m → fd = notifier ∨ is_Some (probes m !! fd)) ∧
  (∀ fd probe, probes m !! fd = Some probe →
     echo_header_ok ident' family probe) ∧
  (∀ probe, probe ∈ callback_log m →
     echo_header_ok ident' family probe ∧ status probe ≠ WAITING).

(** The engine after an ICMP probe was sent, and after that probe has timed
    out and a delivery pass has run. *)
Definition engine_icmp_sent : ProbeManager :=
  match send_probe 7 ICMP 0 1 64 1000 13 false [170; 187; 204] 3
          send_env_ok engine_example with
  | Some (m, _) => m
  | None => engine_example
  end.

Definition engine_icmp_delivered : ProbeManager :=
  send_callbacks
    (check_timeouts {| tv_sec := 102; tv_usec := 0 |} engine_icmp_sent).

(** An [inet_pton] that knows two addresses. *)
Definition inet_pton_example (family : Z) (text : string) : option (list Z) :=
  if decide (family = AF_INET ∧ text = "192.0.2.1") then Some [192; 0; 2; 1]
  else if decide (family = AF_INET6 ∧ text = "2001:db8::1")
  then Some [32; 1; 13; 184; 0; 0; 0; 0; 0; 0; 0; 0; 0; 0; 0; 1]
  else None.

Definition setup_env_ok : setup_env :=
  {| epoll_create1_ret := 3; eventfd_ret := 4 |}.

(** An echo reply of five bytes, with the hop limit it arrived with. *)
Definition cmsg_ttl_example : cmsghdr :=
  {| cmsg_level := SOL_IP; cmsg_type := IP_TTL; ee_errno := 0; ee_code := 0;
     ee_origin := 0; ee_info := 0; ee_offender := ""; cmsg_int := 57 |}.

Definition msg_echo_reply : msghdr :=
  {| msg_data := [170; 187; 204; 170; 187];
     msg_control := [cmsg_ttl_example] |}.

Definition read_env_echo_reply : read_env :=
  {| gettimeofday_received := {| tv_sec := 100; tv_usec := 300000 |};
     recvmsg_errqueue := None;
     recvmsg_data := Some msg_echo_reply;
     siocgstamp := Some {| tv_sec := 100; tv_usec := 290000 |} |}.


(** A spurious wake-up 50 ms after the probe of [engine_waiting] was sent:
    descriptor 5 is reported ready and both receives find nothing. *)
Definition wake_spurious : wake :=
  {| events := [5]; answers := λ _, read_env_nothing;
     sweep_time := {| tv_sec := 100; tv_usec := 300000 |} |}.

(** An error-queue message with two extended errors and hop limits around
    them: a port-unreachable from the destination, then a host-unreachable
    from a router. *)
Definition cmsg_refused_example : cmsghdr :=
  {| cmsg_level := SOL_IP; cmsg_type := IP_RECVERR;
     ee_errno := ECONNREFUSED; ee_code := 3; ee_origin := 2; ee_info := 0;
     ee_offender := "192.0.2.1"; cmsg_int := 0 |}.

Definition cmsg_unreachable_example : cmsghdr :=
  {| cmsg_level := SOL_IP; cmsg_type := IP_RECVERR;
     ee_errno := EHOSTUNREACH; ee_code := 1; ee_origin := 2; ee_info := 0;
     ee_offender := "198.51.100.1"; cmsg_int := 0 |}.

Definition msg_two_errors : msghdr :=
  {| msg_data := [170; 187; 204];
     msg_control :=
       [cmsg_ttl_example; cmsg_refused_example; cmsg_ttl_example;
        cmsg_unreachable_example; cmsg_ttl_example] |}.

Definition read_env_two_errors : read_env :=
  {| gettimeofday_received := {| tv_sec := 100; tv_usec := 300000 |};
     recvmsg_errqueue := Some msg_two_errors;
     recvmsg_data := Some msg_echo_reply;
     siocgstamp := Some {| tv_sec := 100; tv_usec := 290000 |} |}.

(** An error-queue message with an errno that has no result class of its
    own and an info word with the top bit set. *)
Definition cmsg_net_error_example : cmsghdr :=
  {| cmsg_level := SOL_IP; cmsg_type := IP_RECVERR;
     ee_errno := EMSGSIZE; ee_code := 4; ee_origin := 2;
     ee_info := 4294967295; ee_offender := "198.51.100.1"; cmsg_int := 0 |}.

Definition msg_net_error : msghdr :=
  {| msg_data := []; msg_control := [cmsg_net_error_example] |}.

Definition read_env_net_error : read_env :=
  {| gettimeofday_received := {| tv_sec := 100; tv_usec := 300000 |};
     recvmsg_errqueue := Some msg_net_error;
     recvmsg_data := None;
     siocgstamp := Some {| tv_sec := 100; tv_usec := 290000 |} |}.

(** * Properties *)

(** ** Packet builder *)

Lemma htons_low_byte x :
  Z.land (htons x) 255 = (x mod 65536) / 256.
Proof.
  unfold htons.
  assert (Hr : 0 ≤ x mod 65536 < 65536) by (apply Z.mod_pos_bound; lia).
  set (v := x mod 65536) in *.
  change 255 with (Z.ones 8).
  rewrite Z.land_ones by lia.
  rewrite Z.shiftl_mul_pow2, Z.shiftr_div_pow2, Z.land_ones by lia.
  change (2 ^ 8) with 256.
  assert (Hq : 0 ≤ v / 256 < 256)
    by (split; [apply Z.div_pos; lia | apply Z.div_lt_upper_bound; lia]).
  rewrite <- Z.add_nocarry_lor.
  - rewrite (Z.add_comm (v mod 256 * 256)), Z.mod_add by lia.
    apply Z.mod_small; lia.
  - apply Z.bits_inj'. intros n Hn.
    rewrite Z.land_spec, Z.bits_0.
    destruct (decide (n < 8)) as [Hlt|Hge].
    + replace (v mod 256 * 256) with (v mod 256 * 2 ^ 8) by reflexivity.
      rewrite Z.mul_pow2_bits_low by lia. reflexivity.
    + rewrite (Z.bits_above_log2 (v / 256) n), andb_false_r; [done|lia|].
      destruct (decide (v / 256 = 0)) as [->|Hnz]; [simpl; lia|].
      apply Z.log2_lt_pow2; [lia|].
      apply Z.lt_le_trans with (2 ^ 8); [change (2 ^ 8) with 256; lia|].
      apply Z.pow_le_mono_r; lia.
Qed.

Lemma htons_high_byte x :
  Z.land (Z.shiftr (htons x) 8) 255 = x mod 256.
Proof.
  unfold htons.
  assert (Hr : 0 ≤ x mod 65536 < 65536) by (apply Z.mod_pos_bound; lia).
  set (v := x mod 65536) in *.
  assert (Hq : 0 ≤ v / 256 < 256)
    by (split; [apply Z.div_pos; lia | apply Z.div_lt_upper_bound; lia]).
  change 255 with (Z.ones 8).
  rewrite Z.shiftr_lor, Z.shiftr_shiftl_l by lia.
  rewrite Z.sub_diag, Z.shiftl_0_r, (Z.shiftr_div_pow2 (Z.shiftr v 8)) by lia.
  rewrite (Z.shiftr_div_pow2 v) by lia.
  change (2 ^ 8) with 256.
  rewrite (Z.div_small (v / 256) 256), Z.lor_0_r by lia.
  rewrite !Z.land_ones by lia. change (2 ^ 8) with 256.
  rewrite Z.mod_mod by lia.
  subst v. replace 65536 with (256 * 256) by reflexivity.
  rewrite Z.rem_mul_r by lia.
  rewrite (Z.mul_comm 256), Z.mod_add by lia.
  apply Z.mod_mod; lia.
Qed.

Lemma store16_htons off x mem :
  store16 off (htons x) mem =
  <[S off := x mod 256]> (<[off := (x mod 65536) / 256]> mem).
Proof. unfold store16. by rewrite htons_low_byte, htons_high_byte. Qed.

Lemma memcpy_length dst off src n :
  (off + n ≤ length dst)%nat → (n ≤ length src)%nat →
  length (memcpy dst off src n) = length dst.
Proof.
  intros Hd Hs. unfold memcpy.
  rewrite !length_app, !length_take, length_drop. lia.
Qed.

Lemma memcpy_lookup dst off src n k :
  (off + n ≤ length dst)%nat → (n ≤ length src)%nat →
  memcpy dst off src n !! k =
  if decide (k < off)%nat then dst !! k
  else if decide (k < off + n)%nat then src !! (k - off)%nat
  else dst !! k.
Proof.
  intros Hd Hs. unfold memcpy.
  assert (Hlt : length (take off dst) = off) by (rewrite length_take; lia).
  assert (Hln : length (take n src) = n) by (rewrite length_take; lia).
  repeat case_decide.
  - rewrite lookup_app_l by lia. by rewrite lookup_take_lt.
  - rewrite lookup_app_r by lia. rewrite Hlt.
    rewrite lookup_app_l by lia. by rewrite lookup_take_lt by lia.
  - rewrite lookup_app_r by lia. rewrite Hlt.
    rewrite lookup_app_r by lia. rewrite Hln, lookup_drop.
    f_equal. lia.
Qed.

(** The pattern loop ends within the bound it is given in
    [init_packet_data], changes nothing below its start offset and lays
    the pattern end to end from there on. *)
Lemma fill_pattern_spec pattern packet_size :
  let L := Z.of_nat (length pattern) in
  0 < L →
  ∀ fuel data i,
    0 ≤ i →
    length data = Z.to_nat packet_size →
    (Z.to_nat (packet_size - i) ≤ fuel)%nat →
    ∃ data',
      fill_pattern fuel data i packet_size pattern L = Some data' ∧
      length data' = length data ∧
      (∀ k : nat, Z.of_nat k < i → data' !! k = data !! k) ∧
      (∀ k : nat, i ≤ Z.of_nat k < packet_size →
         data' !! k = pattern !! Z.to_nat ((Z.of_nat k - i) mod L)).
Proof.
  intros L HL fuel.
  induction fuel as [|fuel IH]; intros data i Hi Hlen Hfuel; simpl.
  - destruct (Z.ltb_spec i packet_size); [lia|].
    exists data. split_and!; [done..|]. intros k Hk. lia.
  - destruct (Z.ltb_spec i packet_size) as [Hlt|Hge];
      [|exists data; split_and!; [done..|]; intros k Hk; lia].
    set (chunk := if packet_size - i >? L then L else packet_size - i).
    assert (Hchunk : 0 < chunk ∧ chunk ≤ L ∧ chunk ≤ packet_size - i
                     ∧ (chunk = L ∨ chunk = packet_size - i)).
    { subst chunk. destruct (Z.gtb_spec (packet_size - i) L); lia. }
    set (data1 := memcpy data (Z.to_nat i) pattern (Z.to_nat chunk)).
    assert (Hd : (Z.to_nat i + Z.to_nat chunk ≤ length data)%nat) by lia.
    assert (Hs : (Z.to_nat chunk ≤ length pattern)%nat) by lia.
    destruct (IH data1 (i + L)) as (data' & Hrun & Hlen' & Hlow & Hhigh).
    { lia. }
    { subst data1. rewrite memcpy_length; done. }
    { lia. }
    exists data'. split; [exact Hrun|].
    split; [subst data1; rewrite Hlen', memcpy_length; done|].
    split.
    + intros k Hk. rewrite Hlow by lia. subst data1.
      rewrite memcpy_lookup by done. case_decide; [done|lia].
    + intros k Hk.
      destruct (decide (Z.of_nat k < i + L)) as [Hin|Hout].
      * rewrite Hlow by lia. subst data1.
        rewrite memcpy_lookup by done.
        case_decide; [lia|]. case_decide; [|lia].
        f_equal. rewrite Z.mod_small by lia. lia.
      * rewrite Hhigh by lia. f_equal. f_equal.
        replace (Z.of_nat k - i) with (Z.of_nat k - (i + L) + 1 * L) by lia.
        rewrite Z.mod_add by lia. reflexivity.
Qed.


Lemma write_echo_header_zero type ident' seq n :
  (8 ≤ n)%nat →
  write_echo_header type ident' seq (replicate n 0) =
  [type; 0; 0; 0; (ident' mod 65536) / 256; ident' mod 256;
   (seq mod 65536) / 256; seq mod 256] ++ replicate (n - 8) 0.
Proof.
  intros Hn. replace n with (8 + (n - 8))%nat at 1 by lia.
  rewrite replicate_add. unfold write_echo_header.
  by rewrite !store16_htons.
Qed.

(** [init_packet_data] returns, and touches only [packet_data], whenever
    [resize] is given a size it accepts. *)
Lemma init_packet_data_returns ident' family probe size pattern :
  probe_type probe = ICMP ∨ 0 ≤ size →
  ∃ packet,
    init_packet_data ident' family probe size pattern
      (Z.of_nat (length pattern)) = Some (set_packet_data packet probe).
Proof.
  intros Hsize. unfold init_packet_data.
  set (packet_size := if decide (probe_type probe = ICMP) then _ else _).
  set (data := if decide (probe_type probe = ICMP) then _ else _).
  set (data_offset := if decide (probe_type probe = ICMP) then _ else _).
  assert (Hps : 0 ≤ packet_size ∧ 0 ≤ data_offset).
  { subst packet_size data_offset. unfold ICMP_HEADER_SIZE.
    case_decide; [|lia]. destruct (Z.ltb_spec size 8); lia. }
  destruct (Z.ltb_spec packet_size 0); [lia|].
  assert (Hlen : length data = Z.to_nat packet_size).
  { subst data. unfold write_echo_header, store16.
    repeat case_decide; rewrite ?length_insert, length_replicate; done. }
  destruct (Z.gtb_spec (Z.of_nat (length pattern)) 0) as [Hpos|Hnil];
    [|by eexists].
  destruct (fill_pattern_spec pattern packet_size Hpos
              (Z.to_nat packet_size) data data_offset)
    as (data' & -> & _); [lia..|].
  by eexists.
Qed.



Example init_packet_data_icmp_v4 :
  packet_data <$>
    init_packet_data 4660 AF_INET probe_icmp_example 13 [170; 187; 204] 3 =
  Some [8; 0; 0; 0; 18; 52; 1; 2; 170; 187; 204; 170; 187].
Proof. reflexivity. Qed.

Example init_packet_data_udp_no_pattern :
  packet_data <$>
    init_packet_data 4660 AF_INET6 probe_udp_example 4 [] 0 =
  Some [0; 0; 0; 0].
Proof. reflexivity. Qed.

(** ** Shutdown *)

Lemma clean_probes_after_force m :
  probes (clean_probes (force_timeouts m)) = ∅.
Proof.
  apply map_empty. intros fd. simpl.
  apply map_lookup_filter_None. right. intros probe Hprobe.
  rewrite lookup_fmap in Hprobe.
  destruct (probes m !! fd) as [probe0|]; simplify_eq/=.
  case_decide; simpl; congruence.
Qed.

Lemma handle_events_running w (fds : list Z) : ∀ m,
  running (foldl (handle_event w) m fds) = running m.
Proof.
  induction fds as [|fd fds IH]; intros m; simpl; [done|].
  rewrite IH. unfold handle_event. by case_decide.
Qed.

Lemma send_callbacks_running m : running (send_callbacks m) = running m.
Proof.
  unfold send_callbacks. generalize (map_to_list (probes m)).*2. intros l.
  revert m. induction l as [|probe l IH]; intros m; simpl; [done|].
  rewrite IH. by case_decide.
Qed.

Lemma handler_body_running w m : running (handler_body w m) = running m.
Proof.
  unfold handler_body. simpl.
  by rewrite send_callbacks_running; simpl; rewrite handle_events_running.
Qed.

(** C1 (what the code does instead).  After the stop request the worker
    reaches the test of [running], finds it false and runs the exit path of
    [handler]: every probe still WAITING at that point is forced to TIMEOUT
    and reaped at once.  When [stop] returns the table is empty and the
    descriptors of those probes are closed, but the callback log is exactly
    what it was at loop exit: the callback is invoked for none of them. *)
Theorem stop_reaps_without_delivery in_flight m :
  let at_exit := until_loop_exit in_flight (stop_request m) in
  stop in_flight m = handler_exit at_exit ∧
  callback_log (stop in_flight m) = callback_log at_exit ∧
  probes (stop in_flight m) = ∅ ∧
  (∀ fd probe, probes at_exit !! fd = Some probe → status probe = WAITING →
     fd ∈ closed_fds (stop in_flight m)).
Proof.
  intros at_exit.
  assert (Hstop : stop in_flight m = handler_exit at_exit).
  { unfold stop. fold at_exit. simpl.
    replace (running at_exit) with false; [done|].
    subst at_exit. destruct in_flight as [w|]; [|done].
    change (false = running (handler_body w (stop_request m))).
    by rewrite handler_body_running. }
  rewrite Hstop. split_and!.
  - done.
  - done.
  - apply (clean_probes_after_force at_exit).
  - intros fd probe Hfd Hwaiting. unfold handler_exit. simpl.
    rewrite !elem_of_app. left. left. right.
    apply list_elem_of_fmap. exists (fd, set_status TIMEOUT probe).
    split; [done|].
    apply elem_of_map_to_list, map_lookup_filter_Some.
    rewrite lookup_fmap, Hfd. simpl. by rewrite decide_True.
Qed.

(** C3 (the run on which delivery fails).  A probe is sent and
    [send_probe] returns 0; [stop] is called 60 ms later, well inside the
    probe's timeout of 1000 ms.  Whether the worker was about to test
    [running] or was blocked in [epoll_wait], [stop] returns with the table
    empty and the callback never invoked: the probe is delivered zero
    times, not once. *)
Theorem send_then_stop_never_delivers :
  ∃ m1,
    send_probe 7 ICMP 0 1 64 1000 13 false [170; 187; 204] 3
      send_env_ok engine_example = Some (m1, SEND_PROBE_SUCCESS) ∧
    (status <$> probes m1 !! 5) = Some WAITING ∧
    callback_log (stop None m1) = [] ∧
    get_queue_size (stop None m1) = 0 ∧
    callback_log (stop (Some wake_notifier) m1) = [] ∧
    get_queue_size (stop (Some wake_notifier) m1) = 0.
Proof. eexists. split; [reflexivity|]. vm_compute. done. Qed.

(** ** Sending *)

Lemma init_packet_data_inv ident' family probe size pattern pattern_len probe' :
  init_packet_data ident' family probe size pattern pattern_len = Some probe' →
  ∃ packet, probe' = set_packet_data packet probe.
Proof.
  unfold init_packet_data. intros Hinit.
  destruct (_ <? 0); [done|].
  destruct (pattern_len >? 0); [|simplify_eq; by eexists].
  destruct (fill_pattern _ _ _ _ _ _); simplify_eq. by eexists.
Qed.

(** The two ways [send_probe] returns: with -1 after one synchronous
    FATAL_ERROR callback and nothing registered, or with 0 after
    registering a WAITING record under the new descriptor and no callback.
    Either way the resolved addresses are as before. *)
Lemma send_probe_inv id' probe_type' port sequence' ttl' timeout' size
    detect_mtu pattern pattern_len env m m' r :
  send_probe id' probe_type' port sequence' ttl' timeout' size detect_mtu
    pattern pattern_len env m = Some (m', r) →
  remote_addr m' = remote_addr m ∧ source_addr m' = source_addr m ∧
  wakeup_fd m' = wakeup_fd m ∧
  ((r = SEND_PROBE_ERROR ∧ probes m' = probes m ∧
    epoll_interest m' = epoll_interest m ∧
    ∃ probe, callback_log m' = callback_log m ++ [probe] ∧
             status probe = FATAL_ERROR ∧
             built_by m id' probe_type' sequence' timeout' probe) ∨
   (r = SEND_PROBE_SUCCESS ∧ callback_log m' = callback_log m ∧
    closed_fds m' = closed_fds m ∧
    ∃ sock probe, socket_result env = Ret sock ∧
                  probes m' = <[sock := probe]> (probes m) ∧
                  epoll_interest m' = {[sock]} ∪ epoll_interest m ∧
                  status probe = WAITING ∧
                  built_by m id' probe_type' sequence' timeout' probe)).
Proof.
  unfold send_probe. intros Hsend.
  destruct (socket_result env) as [sock|errno text] eqn:Hsock.
  2:{ simplify_eq. split_and!; [done..|]. left. split_and!; [done..|].
      eexists. split_and!; [reflexivity|done|]. by repeat split. }
  set (bind_failure := if decide (source_ip m = "") then _ else _) in Hsend.
  destruct bind_failure as [text|].
  { simplify_eq. split_and!; [done..|]. left. split_and!; [done..|].
    eexists. split_and!; [reflexivity|done|]. by repeat split. }
  destruct (init_packet_data _ _ _ _ _ _) as [probe1|] eqn:Hinit; [|done].
  apply init_packet_data_inv in Hinit as [packet ->].
  set (fatal := match sendto_result env with Ret _ => _ | Err _ _ => _ end) in Hsend.
  destruct fatal as [text|]; simplify_eq.
  - split_and!; [done..|]. left. split_and!; [done..|].
    eexists. split_and!; [reflexivity|done|]. by repeat split.
  - split_and!; [done..|]. right. split_and!; [done..|].
    eexists _, _. split_and!; [done|reflexivity|done|done|]. by repeat split.
Qed.

(** C2 (the input on which the sequence is wrong).  For [sequence = 65535]
    [send_probe] succeeds, the record it registers has sequence 0 and the
    echo header it sent carries the bytes 0, 0 in the sequence field, where
    [65535 mod 65536] is 65535, bytes 255, 255: the source reduces by
    [% 0xffff], one less than the modulus. *)
Theorem send_probe_sequence_65535 :
  ∃ m1 probe,
    send_probe 7 ICMP 0 65535 64 1000 8 false [] 0
      send_env_ok engine_example = Some (m1, SEND_PROBE_SUCCESS) ∧
    probes m1 !! 5 = Some probe ∧
    sequence probe = 0 ∧
    packet_data probe = [8; 0; 0; 0; 18; 52; 0; 0] ∧
    sent_payload <$> sendto_log m1 = [[8; 0; 0; 0; 18; 52; 0; 0]] ∧
    65535 mod 65536 = 65535.
Proof. eexists _, _. vm_compute. done. Qed.

(** C4.  The socket was created, bound where a source address is set, and
    the packet built; [sendto] then fails.  With [errno = EMSGSIZE]
    [send_probe] returns 0 and the probe is in the table under its
    descriptor, WAITING, watched by the multiplexor, its socket open and no
    callback made.  With any other [errno] it returns -1: the table is as
    before, the socket is closed, and the callback was invoked once, inside
    the call, with status FATAL_ERROR. *)
Theorem send_probe_sendto_failure id' probe_type' port sequence' ttl' timeout'
    size detect_mtu pattern env m sock errno text :
  socket_result env = Ret sock →
  (source_ip m = "" ∨ ∃ v, bind_result env = Ret v) →
  (probe_type' = ICMP ∨ 0 ≤ size) →
  sendto_result env = Err errno text →
  ∃ m' probe,
    send_probe id' probe_type' port sequence' ttl' timeout' size detect_mtu
      pattern (Z.of_nat (length pattern)) env m =
      Some (m', if decide (errno = EMSGSIZE)
                then SEND_PROBE_SUCCESS else SEND_PROBE_ERROR) ∧
    id probe = id' ∧
    (errno = EMSGSIZE →
       probes m' = <[sock := probe]> (probes m) ∧
       status probe = WAITING ∧
       sock ∈ epoll_interest m' ∧
       callback_log m' = callback_log m ∧
       closed_fds m' = closed_fds m) ∧
    (errno ≠ EMSGSIZE →
       probes m' = probes m ∧
       epoll_interest m' = epoll_interest m ∧
       status probe = FATAL_ERROR ∧
       callback_log m' = callback_log m ++ [probe] ∧
       closed_fds m' = closed_fds m ++ [sock]).
Proof.
  intros Hsock Hbind Hsize Hsendto. unfold send_probe.
  rewrite Hsock.
  set (bind_failure := if decide (source_ip m = "") then _ else _).
  assert (Hnone : bind_failure = None).
  { subst bind_failure. case_decide; [done|].
    destruct Hbind as [?|[v ->]]; done. }
  rewrite Hnone. clear bind_failure Hnone.
  match goal with
  | |- context [init_packet_data ?i ?f ?p size pattern _] =>
      destruct (init_packet_data_returns i f p size pattern Hsize)
        as [packet ->]
  end.
  rewrite Hsendto.
  destruct (decide (errno = EMSGSIZE)) as [Hsoft|Hhard].
  - rewrite decide_False by (intros Hne; done).
    eexists _, _. split; [reflexivity|]. split_and!; cycle 1.
    + intros _. split_and!; [reflexivity|done| |done|done].
      simpl. apply elem_of_union. left. by apply elem_of_singleton.
    + done.
    + done.
  - rewrite decide_True by done.
    eexists _, _. split; [reflexivity|]. split_and!; cycle 2.
    + intros _. split_and!; [done|done| |reflexivity|done]. done.
    + done.
    + done.
Qed.

Lemma send_probe_sendto_failure_witness :
  (∃ m' probe,
     send_probe 7 ICMP 0 1 64 1000 1600 true [170] 1 send_env_emsgsize
       engine_example = Some (m', SEND_PROBE_SUCCESS) ∧
     probes m' !! 5 = Some probe ∧ status probe = WAITING ∧
     callback_log m' = []) ∧
  (∃ m' probe,
     send_probe 7 ICMP 0 1 64 1000 1600 true [170] 1 send_env_enetunreach
       engine_example = Some (m', SEND_PROBE_ERROR) ∧
     probes m' = ∅ ∧ status probe = FATAL_ERROR ∧
     callback_log m' = [probe] ∧ closed_fds m' = [5]).
Proof.
  split.
  - destruct (send_probe_sendto_failure 7 ICMP 0 1 64 1000 1600 true [170]
                send_env_emsgsize engine_example 5 EMSGSIZE "Message too long")
      as (m' & probe & Hret & _ & Hsoft & _);
      [reflexivity|left; reflexivity|left; reflexivity|reflexivity|].
    destruct (Hsoft eq_refl) as (Htable & Hstatus & _ & Hlog & _).
    exists m', probe. split_and!; [exact Hret| |exact Hstatus|exact Hlog].
    rewrite Htable. apply lookup_insert_eq.
  - destruct (send_probe_sendto_failure 7 ICMP 0 1 64 1000 1600 true [170]
                send_env_enetunreach engine_example 5 ENETUNREACH
                "Network is unreachable")
      as (m' & probe & Hret & _ & _ & Hhard);
      [reflexivity|left; reflexivity|left; reflexivity|reflexivity|].
    destruct Hhard as (Htable & _ & Hstatus & Hlog & Hclosed); [done|].
    exists m', probe. split_and!; done.
Defined.

(** C10.  A [send_probe] that returns leaves the engine's destination and
    source addresses as they were.  The datagram it hands to [sendto], if
    it gets that far, is addressed to a copy of the destination, with the
    port filled in for a UDP probe with [port > 0] and untouched
    otherwise. *)
Theorem send_probe_keeps_addresses id' probe_type' port sequence' ttl' timeout'
    size detect_mtu pattern pattern_len env m m' r :
  send_probe id' probe_type' port sequence' ttl' timeout' size detect_mtu
    pattern pattern_len env m = Some (m', r) →
  remote_addr m' = remote_addr m ∧
  source_addr m' = source_addr m ∧
  (sendto_log m' = sendto_log m ∨
   ∃ datagram,
     sendto_log m' = sendto_log m ++ [datagram] ∧
     sent_to datagram =
       if decide (probe_type' = UDP ∧ port > 0)
       then set_sin_port (htons port) (remote_addr m)
       else remote_addr m).
Proof.
  unfold send_probe. intros Hsend.
  destruct (socket_result env) as [sock|errno text];
    [|simplify_eq; split_and!; [done..|by left]].
  set (bind_failure := if decide (source_ip m = "") then _ else _) in Hsend.
  destruct bind_failure as [text|];
    [simplify_eq; split_and!; [done..|by left]|].
  destruct (init_packet_data _ _ _ _ _ _) as [probe1|]; [|done].
  set (fatal := match sendto_result env with Ret _ => _ | Err _ _ => _ end) in Hsend.
  destruct fatal as [text|]; simplify_eq;
    (split_and!; [done..|right; eexists; split; [reflexivity|done]]).
Qed.

Lemma send_probe_keeps_addresses_witness :
  ∃ m1,
    send_probe 9 UDP 33434 1 0 500 32 false [] 0 send_env_ok engine_example =
      Some (m1, SEND_PROBE_SUCCESS) ∧
    remote_addr m1 = addr_example ∧
    source_addr m1 = addr_unset ∧
    sent_to <$> sendto_log m1 = [set_sin_port 39554 addr_example].
Proof.
  eexists. split; [reflexivity|].
  destruct (send_probe_keeps_addresses 9 UDP 33434 1 0 500 32 false [] 0
              send_env_ok engine_example _ _ eq_refl)
    as (Hremote & Hsource & _).
  split_and!; [exact Hremote|exact Hsource|reflexivity].
Defined.

(** ** Receiver *)

Lemma handle_cmsg_frame stamp probe cmsg :
  request_fields (handle_cmsg stamp probe cmsg) = request_fields probe ∧
  reply_data (handle_cmsg stamp probe cmsg) = reply_data probe ∧
  (status (handle_cmsg stamp probe cmsg) = ERROR ∨
   status (handle_cmsg stamp probe cmsg) = status probe).
Proof.
  unfold handle_cmsg. repeat case_decide; destruct stamp; simpl; auto.
Qed.

Lemma handle_cmsgs_frame stamp cmsgs : ∀ probe,
  request_fields (foldl (handle_cmsg stamp) probe cmsgs) = request_fields probe ∧
  reply_data (foldl (handle_cmsg stamp) probe cmsgs) = reply_data probe ∧
  (status (foldl (handle_cmsg stamp) probe cmsgs) = ERROR ∨
   status (foldl (handle_cmsg stamp) probe cmsgs) = status probe).
Proof.
  induction cmsgs as [|cmsg cmsgs IH]; intros probe; simpl; [auto|].
  destruct (IH (handle_cmsg stamp probe cmsg)) as (-> & -> & Hst).
  destruct (handle_cmsg_frame stamp probe cmsg) as (-> & -> & Hst').
  split_and!; [done..|]. destruct Hst as [?| ->]; auto.
Qed.

(** The error-queue pass keeps the buffer's length and leaves the status
    at ERROR or as it was. *)
Lemma recv_pass_errqueue answer stamp probe :
  let probe' := recv_pass MSG_ERRQUEUE answer stamp probe in
  request_fields probe' = request_fields probe ∧
  length (reply_data probe') = length (reply_data probe) ∧
  (status probe' = ERROR ∨ status probe' = status probe).
Proof.
  destruct answer as [msg|]; simpl; [|auto].
  match goal with
  | |- context [foldl _ ?p _] =>
      destruct (handle_cmsgs_frame stamp (msg_control msg) p)
        as (Hreq & Hrep & Hst);
      set (probe2 := foldl (handle_cmsg stamp) p (msg_control msg)) in *
  end.
  clearbody probe2. unfold request_fields in *. simpl in *.
  split_and!; [exact Hreq| |exact Hst].
  rewrite Hrep, length_app, length_take, length_drop. lia.
Qed.

(** The data pass either receives nothing and changes nothing, or ends in
    SUCCESS with [reply_data] cut down to the bytes copied. *)
Lemma recv_pass_data answer stamp probe :
  let probe' := recv_pass 0 answer stamp probe in
  request_fields probe' = request_fields probe ∧
  match answer with
  | None => probe' = probe
  | Some msg =>
      status probe' = SUCCESS ∧
      reply_data probe' = take (length (reply_data probe)) (msg_data msg)
  end.
Proof.
  destruct answer as [msg|]; simpl; [|done].
  match goal with
  | |- context [foldl _ ?p _] =>
      destruct (handle_cmsgs_frame stamp (msg_control msg) p)
        as (Hreq & Hrep & _);
      set (probe2 := foldl (handle_cmsg stamp) p (msg_control msg)) in *
  end.
  clearbody probe2. unfold request_fields in *. simpl in *.
  destruct stamp; simpl; rewrite Hrep;
    (split_and!; [exact Hreq|done|by apply resize_app]).
Qed.

(** [read_data] replaces the record at [fd] by one that keeps what was
    fixed at sending and is no longer WAITING. *)
Lemma read_data_inv fd env m :
  ∃ probe',
    read_data fd env m = set_probes (<[fd := probe']> (probes m)) m ∧
    request_fields probe' =
      request_fields (default ProbeContext_zero (probes m !! fd)) ∧
    status probe' ≠ WAITING ∧
    (status probe' = SUCCESS →
       ∃ msg, recvmsg_data env = Some msg ∧
              reply_data probe' =
                take (Z.to_nat INCOMING_BUFFER_SIZE) (msg_data msg)) ∧
    (status probe' ≠ SUCCESS →
       length (reply_data probe') = Z.to_nat INCOMING_BUFFER_SIZE) ∧
    (recvmsg_errqueue env = None → recvmsg_data env = None →
       status probe' = TIMEOUT).
Proof.
  unfold read_data.
  set (probe0 := default ProbeContext_zero (probes m !! fd)).
  set (probe1 := set_reply_data _ _).
  assert (Hreq1 : request_fields probe1 = request_fields probe0) by done.
  assert (Hlen1 : length (reply_data probe1) = Z.to_nat INCOMING_BUFFER_SIZE)
    by apply length_resize.
  assert (Hst1 : status probe1 = TIMEOUT) by done.
  destruct (recv_pass_errqueue (recvmsg_errqueue env) (siocgstamp env) probe1)
    as (Hreq2 & Hlen2 & Hst2).
  assert (Hnone : recvmsg_errqueue env = None →
                  recv_pass MSG_ERRQUEUE (recvmsg_errqueue env)
                    (siocgstamp env) probe1 = probe1)
    by (by intros ->).
  set (probe2 := recv_pass MSG_ERRQUEUE _ _ _) in *.
  eexists. split; [reflexivity|].
  destruct (decide (status probe2 = ERROR)) as [Herr|Hnerr]; simpl.
  - split_and!.
    + change (request_fields probe2 = request_fields probe0). congruence.
    + congruence.
    + congruence.
    + intros _. congruence.
    + intros Hq _. rewrite (Hnone Hq) in Herr. congruence.
  - destruct Hst2 as [?|Hst2]; [done|].
    destruct (recv_pass_data (recvmsg_data env) (siocgstamp env) probe2)
      as (Hreq3 & Hdata).
    set (probe3 := recv_pass 0 _ _ _) in *.
    split_and!.
    + change (request_fields probe3 = request_fields probe0). congruence.
    + destruct (recvmsg_data env); [destruct Hdata|]; congruence.
    + intros Hok. destruct (recvmsg_data env) as [msg|].
      * exists msg. destruct Hdata. split; [done|]. congruence.
      * congruence.
    + intros Hnok. destruct (recvmsg_data env); [destruct Hdata|]; congruence.
    + intros _ Hd. rewrite Hd in Hdata. congruence.
Qed.

(** If the receiver runs on a descriptor and neither the error-queue pass
    nor the data pass receives anything, the probe's status is TIMEOUT
    afterwards, whatever it was before: [read_data] sets TIMEOUT before the
    two passes and nothing resets it. *)
Lemma read_data_nothing_received fd env m :
  recvmsg_errqueue env = None →
  recvmsg_data env = None →
  ∃ probe,
    probes (read_data fd env m) !! fd = Some probe ∧
    status probe = TIMEOUT.
Proof.
  intros Herrqueue Hdata.
  destruct (read_data_inv fd env m) as (probe & -> & _ & _ & _ & _ & Hstatus).
  exists probe. split; [apply lookup_insert_eq|by apply Hstatus].
Qed.



(** ** Completion sweep *)

Lemma to_int_fits x : fits_int x → to_int x = x.
Proof.
  unfold fits_int, to_int. intros Hx. rewrite Z.mod_small; lia.
Qed.

Lemma min_wait_step_waiting tv_now acc probe :
  status probe = WAITING →
  fits_int (timeout probe - elapsed_ms tv_now probe) →
  acc = -1 ∨ 0 ≤ acc →
  min_wait_step tv_now acc probe =
    if decide (acc = -1) then remaining_ms tv_now probe
    else Z.min acc (remaining_ms tv_now probe).
Proof.
  intros Hw Hfit Hacc. unfold min_wait_step, remaining_ms.
  rewrite decide_True by done.
  fold (elapsed_ms tv_now probe). rewrite to_int_fits by done.
  set (t := timeout probe - elapsed_ms tv_now probe).
  repeat case_decide; destruct (Z.ltb_spec t 0); lia.
Qed.

Lemma min_wait_step_other tv_now acc probe :
  status probe ≠ WAITING → min_wait_step tv_now acc probe = acc.
Proof. intros Hw. unfold min_wait_step. by rewrite decide_False. Qed.

(** The loop of [get_min_wait_time] from any point on: the running minimum
    stays -1 or non-negative, never rises, is below the remaining time of
    every WAITING probe met and, unless it is left as it was, is the
    remaining time of one of them. *)
Lemma min_wait_loop tv_now (l : list ProbeContext) : ∀ acc,
  acc = -1 ∨ 0 ≤ acc →
  (∀ probe, probe ∈ l → status probe = WAITING →
     fits_int (timeout probe - elapsed_ms tv_now probe)) →
  let r := foldl (min_wait_step tv_now) acc l in
  (r = -1 ∨ 0 ≤ r) ∧
  (acc ≠ -1 → r ≠ -1 ∧ r ≤ acc) ∧
  (∀ probe, probe ∈ l → status probe = WAITING →
     r ≠ -1 ∧ r ≤ remaining_ms tv_now probe) ∧
  (r = acc ∨
   ∃ probe, probe ∈ l ∧ status probe = WAITING ∧ r = remaining_ms tv_now probe).
Proof.
  induction l as [|probe l IH]; intros acc Hacc Hfit; simpl.
  - split_and!; [done|done| |by left]. intros probe Hin. by apply elem_of_nil in Hin.
  - set (acc1 := min_wait_step tv_now acc probe).
    assert (Hstep :
      (status probe ≠ WAITING ∧ acc1 = acc) ∨
      (status probe = WAITING ∧ 0 ≤ acc1 ∧ acc1 ≤ remaining_ms tv_now probe ∧
       (acc ≠ -1 → acc1 ≤ acc) ∧
       (acc1 = acc ∨ acc1 = remaining_ms tv_now probe))).
    { destruct (decide (status probe = WAITING)) as [Hw|Hw].
      - right. subst acc1.
        assert (Hfit1 : fits_int (timeout probe - elapsed_ms tv_now probe))
          by (apply Hfit; [left|done]).
        rewrite min_wait_step_waiting by done.
        unfold remaining_ms. split; [done|]. case_decide; lia.
      - left. split; [done|]. by apply min_wait_step_other. }
    destruct (IH acc1) as (Hr & Hle & Hall & Hatt).
    { destruct Hstep as [[_ ->]|(_ & ? & _)]; [done|by right]. }
    { intros p Hin. apply Hfit. by right. }
    set (r := foldl (min_wait_step tv_now) acc1 l) in *. clearbody r.
    split_and!.
    + done.
    + intros Hne. destruct Hstep as [[_ Heq]|(_ & ? & _ & Hdown & _)].
      * destruct Hle as [? ?]; [lia|]. split; lia.
      * destruct Hle as [? ?]; [lia|]. specialize (Hdown Hne). split; lia.
    + intros p [->|Hin]%elem_of_cons Hw; [|by apply Hall].
      destruct Hstep as [[? _]|(_ & ? & ? & _)]; [done|].
      destruct Hle as [? ?]; [lia|]. split; lia.
    + destruct Hatt as [Heq|(p & Hin & Hw & Heq)].
      * destruct Hstep as [[_ Heq1]|(Hw & _ & _ & _ & [Heq1|Heq1])].
        -- left. lia.
        -- left. lia.
        -- right. exists probe. split_and!; [by left|done|lia].
      * right. exists p. split_and!; [by right|done..].
Qed.

(** C9.  With the differences [timeout − elapsed] of the WAITING probes
    within the range of the [int] they are stored in,
    [get_min_wait_time] returns -1 when no probe in the table is WAITING,
    and otherwise the least [max(0, timeout − elapsed)] among the WAITING
    probes: the value of one of them, and below that of each. *)
Theorem get_min_wait_time_spec tv_now m :
  (∀ fd probe, probes m !! fd = Some probe → status probe = WAITING →
     fits_int (timeout probe - elapsed_ms tv_now probe)) →
  let wait := get_min_wait_time tv_now m in
  ((∀ fd probe, probes m !! fd = Some probe → status probe ≠ WAITING) →
     wait = -1) ∧
  ((∃ fd probe, probes m !! fd = Some probe ∧ status probe = WAITING) →
     (∃ fd probe, probes m !! fd = Some probe ∧ status probe = WAITING ∧
                  wait = remaining_ms tv_now probe) ∧
     (∀ fd probe, probes m !! fd = Some probe → status probe = WAITING →
        wait ≤ remaining_ms tv_now probe)).
Proof.
  intros Hfit wait.
  assert (Hvalues : ∀ probe,
    probe ∈ (map_to_list (probes m)).*2 ↔ ∃ fd, probes m !! fd = Some probe).
  { intros probe. rewrite list_elem_of_fmap. split.
    - intros ([fd p] & -> & Hin). exists fd. by apply elem_of_map_to_list.
    - intros [fd Hfd]. exists (fd, probe). split; [done|].
      by apply elem_of_map_to_list. }
  destruct (min_wait_loop tv_now (map_to_list (probes m)).*2 (-1))
    as (_ & _ & Hall & Hatt); [by left| |].
  { intros probe [fd Hfd]%Hvalues. by apply (Hfit fd). }
  fold (get_min_wait_time tv_now m) in Hall, Hatt. fold wait in Hall, Hatt.
  split.
  - intros Hnone. destruct Hatt as [?|(probe & [fd Hfd]%Hvalues & Hw & _)];
      [done|]. by destruct (Hnone fd probe).
  - intros (fd & probe & Hfd & Hw).
    assert (Hin : probe ∈ (map_to_list (probes m)).*2)
      by (apply Hvalues; by exists fd).
    destruct (Hall probe Hin Hw) as [Hne _].
    split.
    + destruct Hatt as [?|(p & [fd' Hfd']%Hvalues & Hw' & Heq)]; [done|].
      by exists fd', p.
    + intros fd' p Hfd' Hw'. apply Hall; [|done]. apply Hvalues. by exists fd'.
Qed.

Lemma get_min_wait_time_spec_witness :
  get_min_wait_time tv_sweep_example engine_three_probes = 90 ∧
  (∃ fd probe,
     probes engine_three_probes !! fd = Some probe ∧ status probe = WAITING ∧
     get_min_wait_time tv_sweep_example engine_three_probes =
       remaining_ms tv_sweep_example probe) ∧
  (∀ fd probe,
     probes engine_three_probes !! fd = Some probe → status probe = WAITING →
     get_min_wait_time tv_sweep_example engine_three_probes
       ≤ remaining_ms tv_sweep_example probe).
Proof.
  split; [reflexivity|].
  apply (get_min_wait_time_spec tv_sweep_example engine_three_probes).
  - intros fd probe Hfd _. simpl in Hfd.
    apply lookup_insert_Some in Hfd as [[_ <-]|[_ Hfd]];
      [vm_compute; split; [discriminate|reflexivity]|].
    apply lookup_insert_Some in Hfd as [[_ <-]|[_ Hfd]];
      [vm_compute; split; [discriminate|reflexivity]|].
    apply lookup_singleton_Some in Hfd as [_ <-].
    vm_compute; split; [discriminate|reflexivity].
  - exists 5, probe_waiting_example. split; reflexivity.
Defined.

(** ** Overhead *)

Lemma overhead_ok_request family probe probe' :
  request_fields probe' = request_fields probe →
  overhead_ok family probe → overhead_ok family probe'.
Proof. unfold overhead_ok, request_fields. intros [=] ?. congruence. Qed.

Lemma send_callbacks_loop (l : list ProbeContext) : ∀ m,
  let m' :=
    foldl (λ m probe,
             if decide (status probe ≠ WAITING) then trigger_callback probe m
             else m) m l in
  probes m' = probes m ∧ epoll_interest m' = epoll_interest m ∧
  remote_addr m' = remote_addr m ∧ wakeup_fd m' = wakeup_fd m ∧
  callback_log m' =
    callback_log m ++ filter (λ probe, status probe ≠ WAITING) l.
Proof.
  induction l as [|probe l IH]; intros m; simpl.
  - by rewrite app_nil_r.
  - destruct (decide (status probe ≠ WAITING)) as [Hdone|Hwait].
    + destruct (IH (trigger_callback probe m)) as (-> & -> & -> & -> & ->).
      rewrite filter_cons_True by done. simpl. by rewrite <- app_assoc.
    + destruct (IH m) as (-> & -> & -> & -> & ->).
      by rewrite filter_cons_False by done.
Qed.

Lemma send_callbacks_inv m :
  probes (send_callbacks m) = probes m ∧
  epoll_interest (send_callbacks m) = epoll_interest m ∧
  remote_addr (send_callbacks m) = remote_addr m ∧
  wakeup_fd (send_callbacks m) = wakeup_fd m ∧
  callback_log (send_callbacks m) =
    callback_log m ++
    filter (λ probe, status probe ≠ WAITING) (map_to_list (probes m)).*2.
Proof. apply send_callbacks_loop. Qed.

Lemma engine_step_inv family notifier m m' :
  engine_inv family notifier m → engine_step m m' →
  engine_inv family notifier m'.
Proof.
  intros (Hfam & Hnot & Hwatch & Htable & Hlog) Hstep.
  destruct Hstep as
    [id' pt port seq ttl' tmo size mtu pat plen env m m' r Hsend
    | m | m | fd env m Hfd Hnn | tv_now m | m | m | m].
  - apply send_probe_inv in Hsend
      as (Hra & _ & Hwf & [(_ & Hp & Hi & probe & Hl & _ & Hbuilt)
                          |(_ & Hl & _ & sock & probe & _ & Hp & Hi & _ & Hbuilt)]).
    + unfold engine_inv. rewrite Hra, Hwf, Hp, Hi, Hl.
      split_and!; [done..|].
      intros p [?| ->%list_elem_of_singleton]%elem_of_app; [by apply Hlog|].
      destruct Hbuilt as (_ & Hpt & Hov & _).
      unfold overhead_ok, expected_overhead. by rewrite Hov, Hpt, Hfam.
    + unfold engine_inv. rewrite Hra, Hwf, Hp, Hi, Hl.
      split_and!; [done..| | |done].
      * intros fd [->%elem_of_singleton|Hin]%elem_of_union.
        -- right. rewrite lookup_insert_eq. by eexists.
        -- destruct (Hwatch fd Hin) as [?|Hsome]; [by left|right].
           by apply lookup_insert_is_Some'; right.
      * intros fd p [[_ <-]|[_ Hold]]%lookup_insert_Some; [|by eapply Htable].
        destruct Hbuilt as (_ & Hpt & Hov & _).
        unfold overhead_ok, expected_overhead. by rewrite Hov, Hpt, Hfam.
  - done.
  - done.
  - destruct (read_data_inv fd env m) as (probe' & -> & Hreq & _).
    split_and!; [done..| | |done]; simpl.
    + intros fd' Hin. destruct (Hwatch fd' Hin) as [?|Hsome]; [by left|right].
      by apply lookup_insert_is_Some'; right.
    + intros fd' p [[_ <-]|[_ Hold]]%lookup_insert_Some; [|by eapply Htable].
      destruct (Hwatch fd Hfd) as [?|[probe Hprobe]]; [congruence|].
      rewrite Hprobe in Hreq. simpl in Hreq.
      eapply overhead_ok_request; [exact Hreq|by eapply Htable].
  - split_and!; [done..| | |done]; simpl.
    + intros fd Hin. destruct (Hwatch fd Hin) as [?|Hsome]; [by left|right].
      rewrite lookup_fmap. by apply fmap_is_Some.
    + intros fd p. rewrite lookup_fmap.
      destruct (probes m !! fd) as [probe|] eqn:Hprobe; [|done].
      intros [= <-]. specialize (Htable fd probe Hprobe).
      repeat case_decide; try done. by destruct (_ >? _).
  - destruct (send_callbacks_inv m) as (Hp & Hi & Hra & Hwf & Hl).
    unfold engine_inv. rewrite Hp, Hi, Hra, Hwf, Hl.
    split_and!; [done..|].
    intros p [?|Hin]%elem_of_app; [by apply Hlog|].
    apply list_elem_of_filter in Hin as [_ Hin].
    apply list_elem_of_fmap in Hin as ([fd p'] & -> & Hin).
    apply elem_of_map_to_list in Hin. by eapply Htable.
  - split_and!; [done..| | |done]; simpl.
    + intros fd [Hin Hgone]%elem_of_difference.
      destruct (Hwatch fd Hin) as [?|[probe Hprobe]]; [by left|right].
      exists probe. apply map_lookup_filter_Some. split; [done|]. simpl.
      destruct (decide (status probe = WAITING)) as [?|Hdone]; [done|].
      destruct Hgone. apply elem_of_dom. exists probe.
      by apply map_lookup_filter_Some.
    + intros fd p [Hold _]%map_lookup_filter_Some. by eapply Htable.
  - split_and!; [done..| | |done]; simpl.
    + intros fd Hin. destruct (Hwatch fd Hin) as [?|Hsome]; [by left|right].
      rewrite lookup_fmap. by apply fmap_is_Some.
    + intros fd p. rewrite lookup_fmap.
      destruct (probes m !! fd) as [probe|] eqn:Hprobe; [|done].
      intros [= <-]. specialize (Htable fd probe Hprobe).
      by case_decide.
Qed.

Lemma engine_run_inv family notifier m m' :
  engine_inv family notifier m → rtc engine_step m m' →
  engine_inv family notifier m'.
Proof.
  intros Hinv Hrun. induction Hrun as [|m1 m2 m3 Hstep _ IH]; [done|].
  apply IH. by eapply engine_step_inv.
Qed.

Lemma make_result_overhead probe result :
  make_result probe = Some result → result_overhead result = overhead probe.
Proof.
  unfold make_result.
  destruct (status probe); repeat case_decide; by intros [= <-].
Qed.

(** Inside the loop the sweep does deliver before it reaps: the delivery
    pass hands over every entry that is not WAITING, each listed once in
    the table's iteration, and the reaper pass that follows leaves exactly
    the WAITING entries. *)
Lemma sweep_delivers_then_reaps m :
  let m' := clean_probes (send_callbacks m) in
  callback_log m' =
    callback_log m ++
    filter (λ probe, status probe ≠ WAITING) (map_to_list (probes m)).*2 ∧
  (∀ fd probe,
     probes m' !! fd = Some probe ↔
     probes m !! fd = Some probe ∧ status probe = WAITING).
Proof.
  destruct (send_callbacks_inv m) as (Hp & _ & _ & _ & Hl).
  simpl. rewrite Hp, Hl. split; [done|].
  intros fd probe. by rewrite map_lookup_filter_Some.
Qed.

(** C8.  In every run of an engine, from the moment its worker enters the
    loop, each record the callback is invoked with, whether synchronously
    by [send_probe] or by a delivery pass, has
    [overhead = (8 if UDP else 0) + (20 if the destination is IPv4 else 40)],
    and the result built from it for the host carries that value. *)
Theorem delivered_overhead m0 m probe :
  fresh_engine m0 →
  rtc engine_step m0 m →
  probe ∈ callback_log m →
  overhead probe =
    (if decide (probe_type probe = UDP) then 8 else 0) +
    (if decide (ss_family (remote_addr m0) = AF_INET) then 20 else 40) ∧
  ∀ result, make_result probe = Some result →
            result_overhead result = overhead probe.
Proof.
  intros (Hempty & Hwatch & Hlog) Hrun Hin.
  assert (Hinv : engine_inv (ss_family (remote_addr m0)) (wakeup_fd m0) m0).
  { split_and!; [done..| | |].
    - intros fd Hfd. left. apply Hwatch in Hfd.
      by apply elem_of_singleton in Hfd.
    - intros fd p. by rewrite Hempty, lookup_empty.
    - intros p. rewrite Hlog. by intros ?%elem_of_nil. }
  destruct (engine_run_inv _ _ _ _ Hinv Hrun) as (_ & _ & _ & _ & Hdelivered).
  split; [exact (Hdelivered probe Hin)|].
  intros result. apply make_result_overhead.
Qed.

Lemma delivered_overhead_witness :
  ∃ probe,
    callback_log engine_udp_delivered = [probe] ∧
    status probe = TIMEOUT ∧
    overhead probe =
      (if decide (probe_type probe = UDP) then 8 else 0) +
      (if decide (ss_family (remote_addr engine_example) = AF_INET)
       then 20 else 40) ∧
    ∀ result, make_result probe = Some result →
              result_overhead result = overhead probe.
Proof.
  eexists. split; [reflexivity|]. split; [reflexivity|].
  apply (delivered_overhead engine_example engine_udp_delivered).
  - split_and!; [reflexivity| |reflexivity].
    intros fd Hfd. exact Hfd.
  - eapply rtc_l;
      [apply (step_send_probe 8 UDP 33434 2 3 200 4 false [1; 2; 3] 3
                send_env_ok engine_example engine_udp_sent SEND_PROBE_SUCCESS);
       reflexivity|].
    eapply rtc_l; [apply step_check_timeouts|].
    eapply rtc_l; [apply step_send_callbacks|].
    apply rtc_refl.
  - left.
Defined.

(** * Further properties *)

(** ** Socket options *)

Lemma ms_timeval_round_trip x :
  TIMEVAL_TO_MS {| tv_sec := MS_TO_SEC x; tv_usec := MS_TO_USEC x |} = x.
Proof.
  unfold TIMEVAL_TO_MS, MS_TO_SEC, MS_TO_USEC. simpl.
  rewrite Z.quot_mul by lia.
  pose proof (Z.quot_rem' x 1000). lia.
Qed.

Lemma ms_timeval_normalized x :
  0 ≤ x → normalized {| tv_sec := MS_TO_SEC x; tv_usec := MS_TO_USEC x |}.
Proof.
  intros Hx. unfold normalized, MS_TO_USEC. simpl.
  rewrite Z.rem_mod_nonneg by lia.
  pose proof (Z.mod_pos_bound x 1000). lia.
Qed.

(** The timeouts [init_socket] asks for.  Its socket-level requests are,
    in order, a receive timeout when the probe's timeout is positive and
    none otherwise, then always a send timeout of one second, and nothing
    else.  The receive timeout carries a normalized [timeval] that converts
    back to the probe's timeout to the millisecond. *)
Theorem init_socket_timeouts sock probe detect_mtu m :
  ∃ rcv,
    filter (λ call, opt_level call = SOL_SOCKET)
      (init_socket sock probe detect_mtu m) =
      rcv ++ [{| opt_sock := sock; opt_level := SOL_SOCKET;
                 opt_name := SO_SNDTIMEO;
                 opt_value := OptTimeval {| tv_sec := 1; tv_usec := 0 |} |}] ∧
    (timeout probe ≤ 0 → rcv = []) ∧
    (0 < timeout probe →
       ∃ tv, rcv = [{| opt_sock := sock; opt_level := SOL_SOCKET;
                       opt_name := SO_RCVTIMEO; opt_value := OptTimeval tv |}] ∧
             normalized tv ∧ TIMEVAL_TO_MS tv = timeout probe).
Proof.
  exists (if timeout probe >? 0 then
            [{| opt_sock := sock; opt_level := SOL_SOCKET;
                opt_name := SO_RCVTIMEO;
                opt_value :=
                  OptTimeval {| tv_sec := MS_TO_SEC (timeout probe);
                                tv_usec := MS_TO_USEC (timeout probe) |} |}]
          else []).
  split; [|split].
  - unfold init_socket.
    destruct (ttl probe >? 0), (timeout probe >? 0), detect_mtu,
      (bool_decide (ss_family (remote_addr m) = AF_INET)); reflexivity.
  - intros Hle. destruct (Z.gtb_spec (timeout probe) 0); [lia|done].
  - intros Hpos. destruct (Z.gtb_spec (timeout probe) 0); [|lia].
    eexists. split; [reflexivity|]. split.
    + apply ms_timeval_normalized. lia.
    + apply ms_timeval_round_trip.
Qed.

Lemma init_socket_timeouts_witness :
  ∃ tv,
    filter (λ call, opt_level call = SOL_SOCKET)
      (init_socket 5 probe_waiting_example true engine_example) =
      [{| opt_sock := 5; opt_level := SOL_SOCKET; opt_name := SO_RCVTIMEO;
          opt_value := OptTimeval tv |};
       {| opt_sock := 5; opt_level := SOL_SOCKET; opt_name := SO_SNDTIMEO;
          opt_value := OptTimeval {| tv_sec := 1; tv_usec := 0 |} |}] ∧
    normalized tv ∧ TIMEVAL_TO_MS tv = 1000.
Proof.
  destruct (init_socket_timeouts 5 probe_waiting_example true engine_example)
    as (rcv & -> & _ & Hpos).
  destruct Hpos as (tv & -> & Hnorm & Htv); [reflexivity|].
  exists tv. split; [reflexivity|]. split; [exact Hnorm|exact Htv].
Defined.

(** The options [init_socket] asks for go to the socket it was given and
    never mix the two address families: each is a socket-level option or
    an option of the destination's own protocol level.  The hop limit is
    requested exactly when [ttl > 0] and then with that value, and path-MTU
    probing exactly when [detect_mtu] is set. *)
Theorem init_socket_family sock probe detect_mtu m :
  let calls := init_socket sock probe detect_mtu m in
  let v4 := bool_decide (ss_family (remote_addr m) = AF_INET) in
  let ip_level := if v4 then IPPROTO_IP else IPPROTO_IPV6 in
  let hop_name := if v4 then IP_TTL else IPV6_UNICAST_HOPS in
  let mtu_name := if v4 then IP_MTU_DISCOVER else IPV6_MTU_DISCOVER in
  Forall (λ call, opt_sock call = sock ∧
                  (opt_level call = SOL_SOCKET ∨ opt_level call = ip_level))
         calls ∧
  (∀ call, call ∈ calls → opt_level call = ip_level →
           opt_name call = hop_name →
           0 < ttl probe ∧ opt_value call = OptInt (ttl probe)) ∧
  (0 < ttl probe → ∃ call, call ∈ calls ∧ opt_level call = ip_level ∧
                           opt_name call = hop_name) ∧
  ((∃ call, call ∈ calls ∧ opt_level call = ip_level ∧
            opt_name call = mtu_name) ↔ detect_mtu = true).
Proof.
  intros calls v4 ip_level hop_name mtu_name.
  subst calls v4 ip_level hop_name mtu_name. unfold init_socket.
  destruct (Z.gtb_spec (ttl probe) 0) as [Httl|Httl];
    destruct (timeout probe >? 0);
    destruct detect_mtu;
    destruct (bool_decide (ss_family (remote_addr m) = AF_INET));
    simpl; split_and!.
  all: try (repeat (apply List.Forall_cons;
                      [split; [reflexivity
                              |solve [left; reflexivity | right; reflexivity]]|]);
            by apply Forall_nil).
  all: try (intros call Hin Hl Hn;
            repeat (apply elem_of_cons in Hin as [->|Hin]; [by (done || split)|]);
            by apply elem_of_nil in Hin).
  all: try (intros; lia).
  all: try (intros _; eexists; split; [by left|done]).
  all: split.
  all: try (intros (call & Hin & Hl & Hn);
            repeat (apply elem_of_cons in Hin as [->|Hin]; [done|]);
            by apply elem_of_nil in Hin).
  all: try done.
  all: intros _;
         first
           [exists {| opt_sock := sock; opt_level := SOL_IP;
                      opt_name := IP_MTU_DISCOVER;
                      opt_value := OptInt IP_PMTUDISC_PROBE |};
            split; [repeat first [by left | right]|by split]
           |exists {| opt_sock := sock; opt_level := SOL_IPV6;
                      opt_name := IPV6_MTU_DISCOVER;
                      opt_value := OptInt IPV6_PMTUDISC_PROBE |};
            split; [repeat first [by left | right]|by split]].
Qed.

(** ** Deadlines *)

Lemma timersub_usec a b :
  normalized a → normalized b →
  normalized (timersub a b) ∧
  TIMEVAL_TO_USEC (timersub a b) = TIMEVAL_TO_USEC a - TIMEVAL_TO_USEC b.
Proof.
  unfold normalized, timersub, TIMEVAL_TO_USEC. intros Ha Hb.
  destruct (Z.ltb_spec (tv_usec a - tv_usec b) 0); simpl; lia.
Qed.

(** For kernel time stamps the elapsed milliseconds are the elapsed
    microseconds divided by 1000, rounded down. *)
Lemma elapsed_ms_floor tv_now probe :
  normalized tv_now → normalized (tv_sent probe) →
  elapsed_ms tv_now probe =
    (TIMEVAL_TO_USEC tv_now - TIMEVAL_TO_USEC (tv_sent probe)) / 1000.
Proof.
  intros Hnow Hsent. unfold elapsed_ms.
  destruct (timersub_usec tv_now (tv_sent probe) Hnow Hsent) as [Hn <-].
  set (d := timersub tv_now (tv_sent probe)) in *.
  unfold normalized, TIMEVAL_TO_MS, TIMEVAL_TO_USEC in *.
  rewrite Z.quot_div_nonneg by lia.
  replace (tv_sec d * 1000000 + tv_usec d)
    with (tv_usec d + tv_sec d * 1000 * 1000) by lia.
  rewrite Z.div_add by lia. lia.
Qed.

(** [check_timeouts] never reports a probe early.  With kernel time stamps
    it turns an entry into TIMEOUT exactly when the entry is WAITING and at
    least [timeout + 1] whole milliseconds have passed since it was sent;
    every other entry is left as it is. *)
Theorem check_timeouts_deadline tv_now m fd probe :
  probes m !! fd = Some probe →
  normalized tv_now → normalized (tv_sent probe) →
  probes (check_timeouts tv_now m) !! fd =
    Some (if decide (status probe = WAITING ∧
                     (timeout probe + 1) * 1000 ≤
                       TIMEVAL_TO_USEC tv_now - TIMEVAL_TO_USEC (tv_sent probe))
          then set_status TIMEOUT probe else probe).
Proof.
  intros Hfd Hnow Hsent. simpl. rewrite lookup_fmap, Hfd. simpl. f_equal.
  fold (elapsed_ms tv_now probe). rewrite elapsed_ms_floor by done.
  set (d := TIMEVAL_TO_USEC tv_now - TIMEVAL_TO_USEC (tv_sent probe)).
  assert (Hdiv : timeout probe < d / 1000 ↔ (timeout probe + 1) * 1000 ≤ d).
  { split; intros Hlt.
    - pose proof (Z.mul_div_le d 1000). lia.
    - assert (timeout probe + 1 ≤ d / 1000)
        by (apply Z.div_le_lower_bound; lia).
      lia. }
  destruct (decide (status probe = WAITING)) as [Hw|Hw].
  - destruct (Z.gtb_spec (d / 1000) (timeout probe)).
    + rewrite decide_True; [done|]. split; [done|]. by apply Hdiv.
    + rewrite decide_False; [done|]. intros [_ ?%Hdiv]. lia.
  - rewrite decide_False; [done|]. by intros [? _].
Qed.

Lemma check_timeouts_deadline_witness :
  probes (check_timeouts {| tv_sec := 101; tv_usec := 250999 |} engine_waiting)
    !! 5 = Some probe_waiting_example ∧
  probes (check_timeouts {| tv_sec := 101; tv_usec := 251000 |} engine_waiting)
    !! 5 = Some (set_status TIMEOUT probe_waiting_example).
Proof.
  split.
  - rewrite (check_timeouts_deadline _ engine_waiting 5 probe_waiting_example);
      [reflexivity|reflexivity|by vm_compute|by vm_compute].
  - rewrite (check_timeouts_deadline _ engine_waiting 5 probe_waiting_example);
      [reflexivity|reflexivity|by vm_compute|by vm_compute].
Defined.

(** What the loop of [get_min_wait_time] guarantees for the table. *)
Lemma get_min_wait_time_bounds tv_now m :
  (∀ fd probe, probes m !! fd = Some probe → status probe = WAITING →
     fits_int (timeout probe - elapsed_ms tv_now probe)) →
  (get_min_wait_time tv_now m = -1 ∨ 0 ≤ get_min_wait_time tv_now m) ∧
  (∀ fd probe, probes m !! fd = Some probe → status probe = WAITING →
     get_min_wait_time tv_now m ≠ -1 ∧
     get_min_wait_time tv_now m ≤ remaining_ms tv_now probe).
Proof.
  intros Hfit.
  destruct (min_wait_loop tv_now (map_to_list (probes m)).*2 (-1))
    as (Hr & _ & Hall & _); [by left| |].
  { intros probe ([fd p] & -> & Hin)%list_elem_of_fmap.
    apply elem_of_map_to_list in Hin. by apply (Hfit fd). }
  split; [exact Hr|].
  intros fd probe Hfd Hw. apply Hall; [|done].
  apply list_elem_of_fmap. exists (fd, probe). split; [done|].
  by apply elem_of_map_to_list.
Qed.

Lemma set_probes_same m : set_probes (probes m) m = m.
Proof. by destruct m. Qed.

(** The wait handed to [epoll_wait] agrees with the timeout sweep.  If it
    is positive, a sweep at the same instant expires nothing; and if some
    WAITING probe has used up its timeout, the wait is 0, so the worker
    does not block. *)
Theorem min_wait_agrees_with_sweep tv_now m :
  (∀ fd probe, probes m !! fd = Some probe → status probe = WAITING →
     fits_int (timeout probe - elapsed_ms tv_now probe)) →
  (0 < get_min_wait_time tv_now m → check_timeouts tv_now m = m) ∧
  ((∃ fd probe, probes m !! fd = Some probe ∧ status probe = WAITING ∧
                timeout probe ≤ elapsed_ms tv_now probe) →
   get_min_wait_time tv_now m = 0).
Proof.
  intros Hfit. destruct (get_min_wait_time_bounds tv_now m Hfit) as [Hr Hall].
  split.
  - intros Hpos. unfold check_timeouts.
    rewrite <- (set_probes_same m) at 3. f_equal.
    apply map_eq. intros fd. rewrite lookup_fmap.
    destruct (probes m !! fd) as [probe|] eqn:Hfd; [|done]. simpl. f_equal.
    case_decide as Hw; [|done].
    destruct (Hall fd probe Hfd Hw) as [_ Hle].
    unfold remaining_ms, elapsed_ms in Hle.
    destruct (Z.gtb_spec (TIMEVAL_TO_MS (timersub tv_now (tv_sent probe)))
                (timeout probe)); [lia|done].
  - intros (fd & probe & Hfd & Hw & Hdue).
    destruct (Hall fd probe Hfd Hw) as [Hne Hle].
    unfold remaining_ms in Hle. lia.
Qed.

Lemma min_wait_agrees_with_sweep_witness :
  (0 < get_min_wait_time tv_sweep_example engine_three_probes →
   check_timeouts tv_sweep_example engine_three_probes = engine_three_probes) ∧
  ((∃ fd probe,
      probes engine_three_probes !! fd = Some probe ∧ status probe = WAITING ∧
      timeout probe ≤ elapsed_ms tv_sweep_example probe) →
   get_min_wait_time tv_sweep_example engine_three_probes = 0).
Proof.
  apply (min_wait_agrees_with_sweep tv_sweep_example engine_three_probes).
  intros fd probe Hfd _. simpl in Hfd.
  apply lookup_insert_Some in Hfd as [[_ <-]|[_ Hfd]];
    [vm_compute; split; [discriminate|reflexivity]|].
  apply lookup_insert_Some in Hfd as [[_ <-]|[_ Hfd]];
    [vm_compute; split; [discriminate|reflexivity]|].
  apply lookup_singleton_Some in Hfd as [_ <-].
  vm_compute; split; [discriminate|reflexivity].
Defined.

(** ** Reaping *)

(** A reaper pass over a table of WAITING entries is a no-op. *)
Lemma clean_probes_all_waiting m :
  (∀ fd probe, probes m !! fd = Some probe → status probe = WAITING) →
  clean_probes m = m.
Proof.
  intros Hall.
  assert (Hnone : filter (λ kv : Z * ProbeContext, status kv.2 ≠ WAITING)
                    (probes m) = ∅).
  { apply map_empty. intros fd. apply map_lookup_filter_None. right.
    intros probe Hfd. simpl. intros Hdone. by apply Hdone, (Hall fd). }
  assert (Hsame : filter (λ kv : Z * ProbeContext, status kv.2 = WAITING)
                    (probes m) = probes m).
  { apply map_eq. intros fd. apply option_eq. intros probe.
    rewrite map_lookup_filter_Some. simpl. split; [by intros [? _]|].
    intros Hfd. split; [done|]. by apply (Hall fd). }
  destruct m. unfold clean_probes. simpl in *.
  rewrite Hnone, Hsame, map_to_list_empty, dom_empty_L, difference_empty_L.
  simpl. by rewrite app_nil_r.
Qed.

(** [clean_probes] closes the descriptor of every entry that is not
    WAITING, each once and no other, and a second pass right after the
    first changes nothing at all: no descriptor is closed twice. *)
Theorem clean_probes_closes_once m :
  (∃ reaped,
     closed_fds (clean_probes m) = closed_fds m ++ reaped ∧
     NoDup reaped ∧
     ∀ fd, fd ∈ reaped ↔
           ∃ probe, probes m !! fd = Some probe ∧ status probe ≠ WAITING) ∧
  (∀ fd probe, probes (clean_probes m) !! fd = Some probe ↔
               probes m !! fd = Some probe ∧ status probe = WAITING) ∧
  clean_probes (clean_probes m) = clean_probes m.
Proof.
  split_and!.
  - eexists. split; [reflexivity|]. split; [apply NoDup_fst_map_to_list|].
    intros fd. rewrite list_elem_of_fmap. split.
    + intros ([fd' probe] & -> & Hin). exists probe.
      by apply elem_of_map_to_list, map_lookup_filter_Some in Hin.
    + intros (probe & Hfd & Hdone). exists (fd, probe). split; [done|].
      by apply elem_of_map_to_list, map_lookup_filter_Some.
  - intros fd probe. simpl. by rewrite map_lookup_filter_Some.
  - apply clean_probes_all_waiting.
    intros fd probe [_ Hw]%map_lookup_filter_Some. done.
Qed.

Lemma length_filter_fmap_snd (P : ProbeContext → Prop) `{!∀ x, Decision (P x)}
    (l : list (Z * ProbeContext)) :
  length (filter P l.*2) = length (filter (λ kv, P kv.2) l).
Proof.
  induction l as [|kv l IH]; [done|].
  rewrite fmap_cons, !filter_cons.
  destruct (decide (P kv.2)); simpl; by rewrite IH.
Qed.

Lemma length_filter_split (l : list (Z * ProbeContext)) :
  (length (filter (λ kv, status kv.2 = WAITING) l) +
   length (filter (λ kv, status kv.2 ≠ WAITING) l) = length l)%nat.
Proof.
  induction l as [|kv l IH]; [done|].
  rewrite !filter_cons. simpl.
  destruct (decide (status kv.2 = WAITING)), (decide (status kv.2 ≠ WAITING));
    simpl; try lia; done.
Qed.

Lemma size_filter_map_to_list (P : Z * ProbeContext → Prop)
    `{!∀ x, Decision (P x)} (table : gmap Z ProbeContext) :
  size (filter P table) = length (filter P (map_to_list table)).
Proof.
  rewrite map_filter_alt, <- length_map_to_list.
  apply Permutation_length, map_to_list_to_map.
  apply NoDup_fmap_fst.
  - intros fd p1 p2 [_ H1]%list_elem_of_filter [_ H2]%list_elem_of_filter.
    apply elem_of_map_to_list in H1, H2. congruence.
  - apply NoDup_filter, NoDup_map_to_list.
Qed.

Lemma sweep_counts m :
  (size (probes (clean_probes (send_callbacks m))) +
   length (callback_log (clean_probes (send_callbacks m))) =
   size (probes m) + length (callback_log m))%nat.
Proof.
  destruct (sweep_delivers_then_reaps m) as [Hlog _]. simpl in *.
  rewrite Hlog, length_app, length_filter_fmap_snd.
  destruct (send_callbacks_inv m) as (-> & _).
  rewrite size_filter_map_to_list, <- (length_map_to_list (probes m)).
  pose proof (length_filter_split (map_to_list (probes m))). lia.
Qed.

(** The sweep at the end of a loop iteration loses no probe and repeats
    none: a delivery pass followed by a reaper pass leaves exactly the
    WAITING entries in the table and invokes the callback once for each
    entry it removes, so the number of entries plus the number of callbacks
    made is the same before and after, and every record handed over is
    terminal. *)
Theorem sweep_conserves_probes m :
  let m' := clean_probes (send_callbacks m) in
  (∀ fd probe, probes m' !! fd = Some probe → status probe = WAITING) ∧
  (size (probes m') + length (callback_log m') =
   size (probes m) + length (callback_log m))%nat ∧
  ∃ delivered,
    callback_log m' = callback_log m ++ delivered ∧
    (∀ probe, probe ∈ delivered ↔
              ∃ fd, probes m !! fd = Some probe ∧ status probe ≠ WAITING).
Proof.
  destruct (sweep_delivers_then_reaps m) as [Hlog Htable]. simpl in *.
  split_and!.
  - intros fd probe [_ Hw]%map_lookup_filter_Some. done.
  - apply sweep_counts.
  - eexists. split; [exact Hlog|]. intros probe.
    rewrite list_elem_of_filter, list_elem_of_fmap. split.
    + intros (Hdone & [fd p] & -> & Hin). exists fd.
      by apply elem_of_map_to_list in Hin.
    + intros (fd & Hfd & Hdone). split; [done|]. exists (fd, probe).
      split; [done|]. by apply elem_of_map_to_list.
Qed.



(** ** Receiver outcomes *)

Lemma handle_cmsg_recverr stamp probe cmsg :
  is_recverr cmsg →
  status (handle_cmsg stamp probe cmsg) = ERROR ∧
  offender (handle_cmsg stamp probe cmsg) = ee_offender cmsg ∧
  err_no (handle_cmsg stamp probe cmsg) = ee_errno cmsg ∧
  err_code (handle_cmsg stamp probe cmsg) = ee_code cmsg ∧
  err_type (handle_cmsg stamp probe cmsg) = ee_origin cmsg ∧
  err_info (handle_cmsg stamp probe cmsg) = ee_info cmsg ∧
  tv_received (handle_cmsg stamp probe cmsg) =
    default (tv_received probe) stamp.
Proof.
  intros Herr. unfold handle_cmsg, is_recverr in *.
  rewrite decide_True by done. by destruct stamp.
Qed.

Lemma handle_cmsg_other stamp probe cmsg :
  ¬ is_recverr cmsg →
  status (handle_cmsg stamp probe cmsg) = status probe ∧
  offender (handle_cmsg stamp probe cmsg) = offender probe ∧
  err_no (handle_cmsg stamp probe cmsg) = err_no probe ∧
  err_code (handle_cmsg stamp probe cmsg) = err_code probe ∧
  err_type (handle_cmsg stamp probe cmsg) = err_type probe ∧
  err_info (handle_cmsg stamp probe cmsg) = err_info probe ∧
  tv_received (handle_cmsg stamp probe cmsg) = tv_received probe.
Proof.
  intros Herr. unfold handle_cmsg, is_recverr in *.
  rewrite decide_False by done. by case_decide.
Qed.

Lemma handle_cmsgs_other stamp cmsgs : ∀ probe,
  (∀ cmsg, cmsg ∈ cmsgs → ¬ is_recverr cmsg) →
  status (foldl (handle_cmsg stamp) probe cmsgs) = status probe ∧
  offender (foldl (handle_cmsg stamp) probe cmsgs) = offender probe ∧
  err_no (foldl (handle_cmsg stamp) probe cmsgs) = err_no probe ∧
  err_code (foldl (handle_cmsg stamp) probe cmsgs) = err_code probe ∧
  err_type (foldl (handle_cmsg stamp) probe cmsgs) = err_type probe ∧
  err_info (foldl (handle_cmsg stamp) probe cmsgs) = err_info probe ∧
  tv_received (foldl (handle_cmsg stamp) probe cmsgs) = tv_received probe.
Proof.
  induction cmsgs as [|cmsg cmsgs IH]; intros probe Hnone; simpl; [done|].
  destruct (IH (handle_cmsg stamp probe cmsg))
    as (-> & -> & -> & -> & -> & -> & ->).
  { intros c Hc. apply Hnone. by right. }
  apply handle_cmsg_other, Hnone. by left.
Qed.

(** A list of control messages either has no extended error or splits at
    its last one. *)
Lemma last_recverr (cmsgs : list cmsghdr) :
  (∀ cmsg, cmsg ∈ cmsgs → ¬ is_recverr cmsg) ∨
  ∃ before cmsg after,
    cmsgs = before ++ cmsg :: after ∧ is_recverr cmsg ∧
    ∀ c, c ∈ after → ¬ is_recverr c.
Proof.
  induction cmsgs as [|cmsg cmsgs IH].
  - left. by intros c ?%elem_of_nil.
  - destruct IH as [Hnone|(before & c & after & -> & Hc & Hafter)].
    + destruct (decide (is_recverr cmsg)) as [Herr|Hok].
      * right. by exists [], cmsg, cmsgs.
      * left. by intros c [->|?]%elem_of_cons; [|apply Hnone].
    + right. by exists (cmsg :: before), c, after.
Qed.

(** The error-queue pass ends in ERROR exactly when it received a message
    with an extended error; otherwise it leaves the status and the receive
    time alone. *)
Lemma recv_pass_errqueue_status answer stamp probe :
  status probe ≠ ERROR →
  let probe' := recv_pass MSG_ERRQUEUE answer stamp probe in
  ((∃ msg cmsg, answer = Some msg ∧ cmsg ∈ msg_control msg ∧ is_recverr cmsg) →
   status probe' = ERROR ∧
   tv_received probe' = default (tv_received probe) stamp) ∧
  (¬ (∃ msg cmsg, answer = Some msg ∧ cmsg ∈ msg_control msg ∧ is_recverr cmsg) →
   status probe' = status probe ∧ tv_received probe' = tv_received probe).
Proof.
  intros Hstatus. destruct answer as [msg|]; simpl.
  2:{ split; [by intros (? & ? & ? & _)|done]. }
  set (probe1 := set_reply_data _ probe).
  destruct (last_recverr (msg_control msg))
    as [Hnone|(before & cmsg & after & Hsplit & Herr & Hafter)].
  - destruct (handle_cmsgs_other stamp (msg_control msg) probe1 Hnone)
      as (-> & _ & _ & _ & _ & _ & ->).
    split; [|done]. intros (? & c & [= <-] & Hc & Herr). by destruct (Hnone c).
  - split.
    + intros _. rewrite Hsplit, foldl_app. simpl.
      destruct (handle_cmsgs_other stamp after
                  (handle_cmsg stamp (foldl (handle_cmsg stamp) probe1 before) cmsg)
                  Hafter) as (-> & _ & _ & _ & _ & _ & ->).
      destruct (handle_cmsg_recverr stamp
                  (foldl (handle_cmsg stamp) probe1 before) cmsg Herr)
        as (-> & _ & _ & _ & _ & _ & ->).
      split; [done|].
      assert (Hbefore : ∀ cs p,
        tv_received (foldl (handle_cmsg stamp) p cs) = tv_received p ∨
        default (tv_received (foldl (handle_cmsg stamp) p cs)) stamp =
          default (tv_received p) stamp).
      { induction cs as [|c cs IH]; intros p; simpl; [by left|].
        destruct (IH (handle_cmsg stamp p c)) as [->| ->].
        - destruct (decide (is_recverr c)) as [Hc|Hc].
          + right. destruct (handle_cmsg_recverr stamp p c Hc)
              as (_ & _ & _ & _ & _ & _ & ->). by destruct stamp.
          + left. by destruct (handle_cmsg_other stamp p c Hc)
              as (_ & _ & _ & _ & _ & _ & ->).
        - right. destruct (decide (is_recverr c)) as [Hc|Hc].
          + destruct (handle_cmsg_recverr stamp p c Hc)
              as (_ & _ & _ & _ & _ & _ & ->). by destruct stamp.
          + by destruct (handle_cmsg_other stamp p c Hc)
              as (_ & _ & _ & _ & _ & _ & ->). }
      destruct (Hbefore before probe1) as [->| ->]; done.
    + intros Hno. destruct Hno. exists msg, cmsg. split; [done|].
      split; [|done]. rewrite Hsplit. apply elem_of_app. right. by left.
Qed.

(** The record [read_data] leaves under [fd], written out. *)
Lemma read_data_unfold fd env m :
  let probe1 :=
    set_reply_data
      (resize (Z.to_nat INCOMING_BUFFER_SIZE) 0
         (reply_data (default ProbeContext_zero (probes m !! fd))))
      (set_status TIMEOUT
         (set_tv_received (gettimeofday_received env)
            (default ProbeContext_zero (probes m !! fd)))) in
  let probe2 :=
    recv_pass MSG_ERRQUEUE (recvmsg_errqueue env) (siocgstamp env) probe1 in
  let probe3 :=
    if decide (status probe2 = ERROR) then probe2
    else recv_pass 0 (recvmsg_data env) (siocgstamp env) probe2 in
  read_data fd env m =
    set_probes
      (<[fd := set_tv_diff (timersub (tv_received probe3) (tv_sent probe3))
                 probe3]> (probes m)) m.
Proof. reflexivity. Qed.

(** The three outcomes of the receiver.  The record ends in ERROR exactly
    when the error-queue pass received an extended error; failing that, in
    SUCCESS when the data pass received a datagram, and in TIMEOUT when it
    did not. *)
Theorem read_data_outcome fd env m :
  ∃ probe,
    probes (read_data fd env m) !! fd = Some probe ∧
    (errqueue_has_error env → status probe = ERROR) ∧
    (¬ errqueue_has_error env → is_Some (recvmsg_data env) →
       status probe = SUCCESS) ∧
    (¬ errqueue_has_error env → recvmsg_data env = None →
       status probe = TIMEOUT).
Proof.
  rewrite read_data_unfold. simpl.
  set (probe1 := set_reply_data _ _).
  destruct (recv_pass_errqueue_status (recvmsg_errqueue env) (siocgstamp env)
              probe1) as [Herr Hnone]; [done|].
  fold (errqueue_has_error env) in Herr, Hnone.
  set (probe2 := recv_pass MSG_ERRQUEUE _ _ probe1) in *.
  eexists. split; [apply lookup_insert_eq|]. simpl.
  destruct (decide (status probe2 = ERROR)) as [Hst|Hst].
  - split_and!; [done| |].
    + intros Hno. destruct (Hnone Hno) as [Hsame _].
      rewrite Hsame in Hst. done.
    + intros Hno. destruct (Hnone Hno) as [Hsame _].
      rewrite Hsame in Hst. done.
  - assert (Hno : ¬ errqueue_has_error env)
      by (intros Hyes; by destruct (Herr Hyes)).
    destruct (Hnone Hno) as [Hsame _].
    destruct (recv_pass_data (recvmsg_data env) (siocgstamp env) probe2)
      as [_ Hdata].
    split_and!; [done| |].
    + intros _ [msg Hmsg]. destruct (recvmsg_data env); [by destruct Hdata|done].
    + intros _ Hmsg. destruct (recvmsg_data env); [done|].
      by rewrite Hdata, Hsame.
Qed.

(** Once the error queue has given an extended error the receiver makes no
    second pass: whatever datagram is waiting on the socket, the engine
    ends in the same state. *)
Theorem read_data_error_skips_data fd env env' m :
  errqueue_has_error env →
  recvmsg_errqueue env' = recvmsg_errqueue env →
  gettimeofday_received env' = gettimeofday_received env →
  siocgstamp env' = siocgstamp env →
  read_data fd env' m = read_data fd env m.
Proof.
  intros Herror Hq Ht Hs. rewrite !read_data_unfold. simpl.
  rewrite Hq, Ht, Hs.
  set (probe1 := set_reply_data _ _).
  destruct (recv_pass_errqueue_status (recvmsg_errqueue env) (siocgstamp env)
              probe1) as [Herr _]; [done|].
  destruct (Herr Herror) as [Hst _].
  by rewrite !decide_True by done.
Qed.

Lemma read_data_error_skips_data_witness :
  read_data 5
    {| gettimeofday_received := gettimeofday_received read_env_time_exceeded;
       recvmsg_errqueue := recvmsg_errqueue read_env_time_exceeded;
       recvmsg_data := Some {| msg_data := [0; 0; 0; 0]; msg_control := [] |};
       siocgstamp := siocgstamp read_env_time_exceeded |} engine_waiting =
  read_data 5 read_env_time_exceeded engine_waiting.
Proof.
  apply read_data_error_skips_data; [|reflexivity..].
  eexists _, _. split; [reflexivity|]. split; [by left|].
  left. split; reflexivity.
Defined.

Lemma read_data_error_record fd env m msg before cmsg after :
  recvmsg_errqueue env = Some msg →
  msg_control msg = before ++ cmsg :: after →
  is_recverr cmsg →
  (∀ c, c ∈ after → ¬ is_recverr c) →
  ∃ probe,
    probes (read_data fd env m) !! fd = Some probe ∧
    status probe = ERROR ∧
    err_no probe = ee_errno cmsg ∧ err_code probe = ee_code cmsg ∧
    err_type probe = ee_origin cmsg ∧ err_info probe = ee_info cmsg ∧
    offender probe = ee_offender cmsg.
Proof.
  intros Hq Hsplit Herr Hafter. rewrite read_data_unfold. simpl.
  rewrite Hq. simpl. rewrite Hsplit, foldl_app. simpl.
  set (probe1 := foldl (handle_cmsg (siocgstamp env)) _ before).
  destruct (handle_cmsgs_other (siocgstamp env) after
              (handle_cmsg (siocgstamp env) probe1 cmsg) Hafter)
    as (Hst & Hoff & Hno & Hcode & Htype & Hinfo & _).
  destruct (handle_cmsg_recverr (siocgstamp env) probe1 cmsg Herr)
    as (Hst' & Hoff' & Hno' & Hcode' & Htype' & Hinfo' & _).
  set (probe2 := foldl _ (handle_cmsg _ probe1 cmsg) after) in *.
  rewrite decide_True by congruence.
  eexists. split; [apply lookup_insert_eq|]. simpl.
  split_and!; congruence.
Qed.

(** The error the receiver reports is the last extended error in the
    error-queue message: its errno, code, origin, info and offender. *)
Theorem read_data_error_fields fd env m msg before cmsg after :
  recvmsg_errqueue env = Some msg →
  msg_control msg = before ++ cmsg :: after →
  is_recverr cmsg →
  (∀ c, c ∈ after → ¬ is_recverr c) →
  ∃ probe,
    probes (read_data fd env m) !! fd = Some probe ∧
    status probe = ERROR ∧
    err_no probe = ee_errno cmsg ∧ err_code probe = ee_code cmsg ∧
    err_type probe = ee_origin cmsg ∧ err_info probe = ee_info cmsg ∧
    offender probe = ee_offender cmsg.
Proof. apply read_data_error_record. Qed.

Lemma read_data_error_fields_witness :
  ∃ probe,
    probes (read_data 5 read_env_two_errors engine_waiting) !! 5
      = Some probe ∧
    status probe = ERROR ∧
    err_no probe = EHOSTUNREACH ∧ err_code probe = 1 ∧
    err_type probe = 2 ∧ err_info probe = 0 ∧
    offender probe = "198.51.100.1".
Proof.
  apply (read_data_error_fields 5 read_env_two_errors engine_waiting
           msg_two_errors
           [cmsg_ttl_example; cmsg_refused_example; cmsg_ttl_example]
           cmsg_unreachable_example
           [cmsg_ttl_example]).
  - reflexivity.
  - reflexivity.
  - left. split; reflexivity.
  - intros c Hc. apply list_elem_of_singleton in Hc. subst c.
    intros Hr. vm_compute in Hr.
    destruct Hr as [[_ Hr]|[Hr _]]; discriminate Hr.
Defined.

Lemma request_fields_tv_sent probe probe' :
  request_fields probe' = request_fields probe → tv_sent probe' = tv_sent probe.
Proof. unfold request_fields. by intros [=]. Qed.

Lemma errqueue_error_or_not (answer : option msghdr) :
  (∃ msg cmsg, answer = Some msg ∧ cmsg ∈ msg_control msg ∧ is_recverr cmsg) ∨
  ¬ (∃ msg cmsg, answer = Some msg ∧ cmsg ∈ msg_control msg ∧ is_recverr cmsg).
Proof.
  destruct answer as [msg|]; [|right; by intros (? & ? & ? & _)].
  destruct (last_recverr (msg_control msg))
    as [Hnone|(before & cmsg & after & Hsplit & Herr & _)].
  - right. intros (? & c & [= <-] & Hc & Herr). by destruct (Hnone c).
  - left. exists msg, cmsg. split; [done|]. split; [|done].
    rewrite Hsplit. apply elem_of_app. right. by left.
Qed.

Lemma handle_cmsgs_stamp stamp cmsgs : ∀ probe,
  default (tv_received (foldl (handle_cmsg stamp) probe cmsgs)) stamp =
  default (tv_received probe) stamp.
Proof.
  induction cmsgs as [|cmsg cmsgs IH]; intros probe; simpl; [done|].
  rewrite IH. unfold handle_cmsg.
  repeat case_decide; destruct stamp; done.
Qed.

(** The time stamps of the receiver.  The send stamp is kept.  The receive
    stamp of a TIMEOUT is the clock read on entry; that of an ERROR or a
    SUCCESS is the socket's packet stamp when [SIOCGSTAMP] gives one and
    the clock read on entry otherwise.  [tv_diff] is their difference, in
    microseconds exactly the one minus the other for kernel stamps. *)
Theorem read_data_times fd env m :
  ∃ probe,
    probes (read_data fd env m) !! fd = Some probe ∧
    tv_sent probe = tv_sent (default ProbeContext_zero (probes m !! fd)) ∧
    (status probe = TIMEOUT →
       tv_received probe = gettimeofday_received env) ∧
    (status probe ≠ TIMEOUT →
       tv_received probe =
         default (gettimeofday_received env) (siocgstamp env)) ∧
    (normalized (tv_received probe) → normalized (tv_sent probe) →
       TIMEVAL_TO_USEC (tv_diff probe) =
         TIMEVAL_TO_USEC (tv_received probe) - TIMEVAL_TO_USEC (tv_sent probe)).
Proof.
  destruct (read_data_inv fd env m) as (probe0 & _ & Hreq & _).
  rewrite read_data_unfold. simpl.
  set (old := default ProbeContext_zero (probes m !! fd)) in *.
  set (probe1 := set_reply_data _ _).
  destruct (recv_pass_errqueue_status (recvmsg_errqueue env) (siocgstamp env)
              probe1) as [Herr Hnone]; [done|].
  destruct (recv_pass_errqueue (recvmsg_errqueue env) (siocgstamp env) probe1)
    as (Hreq2 & _ & _).
  set (probe2 := recv_pass MSG_ERRQUEUE _ _ probe1) in *.
  assert (Hsent2 : tv_sent probe2 = tv_sent old)
    by (by apply request_fields_tv_sent in Hreq2).
  eexists. split; [apply lookup_insert_eq|]. simpl.
  set (probe3 := if decide (status probe2 = ERROR) then _ else _).
  assert (Hcases :
    tv_sent probe3 = tv_sent old ∧
    (status probe3 = TIMEOUT →
       tv_received probe3 = gettimeofday_received env) ∧
    (status probe3 ≠ TIMEOUT →
       tv_received probe3 =
         default (gettimeofday_received env) (siocgstamp env))).
  { subst probe3. destruct (decide (status probe2 = ERROR)) as [Hst|Hst].
    - split; [done|]. split; [congruence|]. intros _.
      destruct (errqueue_error_or_not (recvmsg_errqueue env)) as [Hyes|Hno].
      + by destruct (Herr Hyes) as [_ ->].
      + destruct (Hnone Hno) as [Hsame _]. by rewrite Hsame in Hst.
    - assert (Hno : ¬ ∃ msg cmsg, recvmsg_errqueue env = Some msg ∧
                        cmsg ∈ msg_control msg ∧ is_recverr cmsg)
        by (intros Hyes; by destruct (Herr Hyes)).
      destruct (Hnone Hno) as [Hst2 Hrecv2].
      destruct (recv_pass_data (recvmsg_data env) (siocgstamp env) probe2)
        as [Hreq3 Hdata].
      apply request_fields_tv_sent in Hreq3.
      split; [congruence|].
      destruct (recvmsg_data env) as [msg|].
      + destruct Hdata as [Hst3 _]. split; [congruence|]. intros _.
        simpl.
        match goal with
        | |- context [foldl _ ?p _] =>
            pose proof (handle_cmsgs_stamp (siocgstamp env) (msg_control msg) p)
              as Hstamp;
            set (probe4 := foldl (handle_cmsg (siocgstamp env)) p
                             (msg_control msg)) in *
        end.
        simpl in Hstamp. rewrite Hrecv2 in Hstamp. simpl in Hstamp.
        destruct (siocgstamp env); simpl in *; done.
      + simpl. split; [intros _; by rewrite Hrecv2|].
        intros Hne. by rewrite Hst2 in Hne. }
  destruct Hcases as (Hsent & Htimeout & Hother).
  split_and!; [done..|].
  intros Hn1 Hn2. by destruct (timersub_usec _ _ Hn1 Hn2).
Qed.

(** [read_data] touches one entry.  Every other entry, the callback log and
    the descriptors stay as they were; an entry present under [fd] keeps
    what was fixed when it was sent and the table its size.  For a
    descriptor that is not a key, [probes[fd]] makes one: the table grows
    by a record with id 0 and no packet that is no longer WAITING, which
    the next delivery pass will report. *)
Theorem read_data_touches_one_entry fd env m :
  (∀ fd', fd' ≠ fd → probes (read_data fd env m) !! fd' = probes m !! fd') ∧
  callback_log (read_data fd env m) = callback_log m ∧
  closed_fds (read_data fd env m) = closed_fds m ∧
  epoll_interest (read_data fd env m) = epoll_interest m ∧
  ∃ probe',
    probes (read_data fd env m) !! fd = Some probe' ∧
    status probe' ≠ WAITING ∧
    (∀ probe, probes m !! fd = Some probe →
       request_fields probe' = request_fields probe ∧
       get_queue_size (read_data fd env m) = get_queue_size m) ∧
    (probes m !! fd = None →
       id probe' = 0 ∧ packet_data probe' = [] ∧
       get_queue_size (read_data fd env m) = get_queue_size m + 1).
Proof.
  destruct (read_data_inv fd env m) as (probe' & -> & Hreq & Hdone & _).
  simpl. split_and!; [|done..|].
  - intros fd' Hne. by rewrite lookup_insert_ne.
  - exists probe'. split_and!; [apply lookup_insert_eq|done| |].
    + intros probe Hfd. rewrite Hfd in Hreq. split; [done|].
      unfold get_queue_size. simpl.
      by rewrite map_size_insert_Some.
    + intros Hfd. rewrite Hfd in Hreq. simpl in Hreq.
      unfold request_fields in Hreq. simplify_eq.
      split_and!; [done..|].
      unfold get_queue_size. simpl.
      rewrite map_size_insert_None by done. lia.
Qed.

(** ** Sending, path by path *)

(** The four ways [send_probe] returns, each with the engine it leaves. *)
Lemma send_probe_cases id' probe_type' port sequence' ttl' timeout' size
    detect_mtu pattern pattern_len env m m' r :
  send_probe id' probe_type' port sequence' ttl' timeout' size detect_mtu
    pattern pattern_len env m = Some (m', r) →
  let probe0 := new_probe m id' probe_type' sequence' ttl' timeout' in
  (∃ errno text,
     socket_result env = Err errno text ∧ r = SEND_PROBE_ERROR ∧
     m' = trigger_callback
            (fatal_probe ("Error creating socket: " +:+ text) probe0) m) ∨
  (∃ sock errno text,
     socket_result env = Ret sock ∧ source_ip m ≠ "" ∧
     bind_result env = Err errno text ∧ r = SEND_PROBE_ERROR ∧
     m' = trigger_callback
            (fatal_probe ("Error binding socket: " +:+ text) probe0)
            (close sock m)) ∨
  (∃ sock packet,
     socket_result env = Ret sock ∧
     init_packet_data (ident m) (ss_family (remote_addr m)) probe0 size
       pattern pattern_len = Some (set_packet_data packet probe0) ∧
     let probe1 :=
       probe_at_sendto m id' probe_type' sequence' ttl' timeout' packet env in
     let m1 := after_sendto m sock probe_type' port packet in
     ((∃ errno text,
         sendto_result env = Err errno text ∧ errno ≠ EMSGSIZE ∧
         r = SEND_PROBE_ERROR ∧
         m' = trigger_callback
                (fatal_probe ("Error sending probe: " +:+ text) probe1)
                (close sock m1)) ∨
      (r = SEND_PROBE_SUCCESS ∧ m' = add_socket sock probe1 m1))).
Proof.
  intros Hsend probe0. unfold send_probe in Hsend.
  change (new_probe m id' probe_type' sequence' ttl' timeout') with probe0
    in Hsend.
  destruct (socket_result env) as [sock|errno text] eqn:Hsock.
  2:{ left. simplify_eq. by eexists _, _. }
  right.
  destruct (decide (source_ip m = "")) as [Hsrc|Hsrc].
  - right.
    destruct (init_packet_data _ _ _ _ _ _) as [probe1|] eqn:Hinit; [|done].
    destruct (init_packet_data_inv _ _ _ _ _ _ _ Hinit) as [packet ->].
    exists sock, packet. split; [done|]. split; [done|].
    destruct (sendto_result env) as [n|errno text]; simpl in Hsend.
    + right. by simplify_eq.
    + destruct (decide (errno ≠ EMSGSIZE)); simplify_eq.
      * left. by eexists _, _.
      * by right.
  - destruct (bind_result env) as [v|errno text] eqn:Hbind.
    + right.
      destruct (init_packet_data _ _ _ _ _ _) as [probe1|] eqn:Hinit; [|done].
      destruct (init_packet_data_inv _ _ _ _ _ _ _ Hinit) as [packet ->].
      exists sock, packet. split; [done|]. split; [done|].
      destruct (sendto_result env) as [n|errno text]; simpl in Hsend.
      * right. by simplify_eq.
      * destruct (decide (errno ≠ EMSGSIZE)); simplify_eq.
        -- left. by eexists _, _.
        -- by right.
    + left. simplify_eq. by eexists _, _, _.
Qed.

(** A [send_probe] that returns -1 has cleaned up after itself: the table,
    the multiplexor and the notifier are as before, the callback was
    invoked exactly once, with a FATAL_ERROR record carrying the caller's
    id, and if a socket had been created it is the one descriptor closed;
    if none had, nothing was closed and nothing sent. *)
Theorem send_probe_failure_cleans_up id' probe_type' port sequence' ttl'
    timeout' size detect_mtu pattern pattern_len env m m' :
  send_probe id' probe_type' port sequence' ttl' timeout' size detect_mtu
    pattern pattern_len env m = Some (m', SEND_PROBE_ERROR) →
  probes m' = probes m ∧
  epoll_interest m' = epoll_interest m ∧
  wakeup_counter m' = wakeup_counter m ∧
  (∃ probe, callback_log m' = callback_log m ++ [probe] ∧
            status probe = FATAL_ERROR ∧ id probe = id') ∧
  match socket_result env with
  | Ret sock => closed_fds m' = closed_fds m ++ [sock]
  | Err _ _ => closed_fds m' = closed_fds m ∧ sendto_log m' = sendto_log m
  end.
Proof.
  intros Hsend.
  destruct (send_probe_cases _ _ _ _ _ _ _ _ _ _ _ _ _ _ Hsend)
    as [(errno & text & Hsock & _ & ->)
       |[(sock & errno & text & Hsock & _ & _ & _ & ->)
        |(sock & packet & Hsock & _ &
          [(errno & text & _ & _ & _ & ->)|[Hr _]])]];
    rewrite ?Hsock.
  - split_and!; try done. eexists. by split_and!.
  - split_and!; try done. eexists. by split_and!.
  - split_and!; try done. eexists. by split_and!.
  - by vm_compute in Hr.
Qed.

Lemma send_probe_failure_cleans_up_witness :
  ∃ m',
    send_probe 7 ICMP 0 1 64 1000 13 true [170] 1 send_env_enetunreach
      engine_waiting = Some (m', SEND_PROBE_ERROR) ∧
    probes m' = probes engine_waiting ∧
    closed_fds m' = [5].
Proof.
  eexists. split; [reflexivity|].
  destruct (send_probe_failure_cleans_up 7 ICMP 0 1 64 1000 13 true [170] 1
              send_env_enetunreach engine_waiting _ eq_refl)
    as (Htable & _ & _ & _ & Hclosed).
  split; [exact Htable|exact Hclosed].
Defined.



(** On success the table and the wire agree.  On an engine whose worker is
    in its loop, the record registered under the new descriptor is WAITING,
    stamped with the send time, and holds exactly the payload handed to
    [sendto] on that descriptor; the multiplexor watches the descriptor,
    the worker is woken once, and for a descriptor not yet in the table the
    queue grows by one. *)
Theorem send_probe_success_registers id' probe_type' port sequence' ttl'
    timeout' size detect_mtu pattern pattern_len env m m' :
  worker_in_loop m →
  send_probe id' probe_type' port sequence' ttl' timeout' size detect_mtu
    pattern pattern_len env m = Some (m', SEND_PROBE_SUCCESS) →
  ∃ sock probe,
    socket_result env = Ret sock ∧
    probes m' !! sock = Some probe ∧
    (∀ fd, fd ≠ sock → probes m' !! fd = probes m !! fd) ∧
    status probe = WAITING ∧ id probe = id' ∧ timeout probe = timeout' ∧
    tv_sent probe = gettimeofday_sent env ∧
    (∃ sent, sendto_log m' = sendto_log m ++ [sent] ∧
             sent_fd sent = sock ∧ sent_payload sent = packet_data probe) ∧
    sock ∈ epoll_interest m' ∧
    wakeup_counter m' = wakeup_counter m + 1 ∧
    (probes m !! sock = None → get_queue_size m' = get_queue_size m + 1).
Proof.
  intros _ Hsend.
  destruct (send_probe_cases _ _ _ _ _ _ _ _ _ _ _ _ _ _ Hsend)
    as [(errno & text & _ & [=] & _)
       |[(sock & errno & text & _ & _ & _ & [=] & _)
        |(sock & packet & Hsock & _ &
          [(errno & text & _ & _ & [=] & _)|[_ ->]])]].
  exists sock. eexists. split; [done|]. simpl.
  split; [apply lookup_insert_eq|].
  split; [intros fd Hne; by rewrite lookup_insert_ne|].
  split_and!; [done..| | | |].
  - eexists. by split.
  - apply elem_of_union. left. by apply elem_of_singleton.
  - done.
  - intros Hfresh. unfold get_queue_size. simpl.
    rewrite map_size_insert_None by done. lia.
Qed.

Lemma send_probe_success_registers_witness :
  ∃ m' probe,
    send_probe 7 ICMP 0 1 64 1000 13 false [170; 187; 204] 3 send_env_ok
      engine_example = Some (m', SEND_PROBE_SUCCESS) ∧
    probes m' !! 5 = Some probe ∧
    status probe = WAITING ∧
    sent_payload <$> sendto_log m' = [packet_data probe] ∧
    get_queue_size m' = 1.
Proof.
  assert (Hloop : worker_in_loop engine_example).
  { unfold worker_in_loop. simpl. split_and!; [reflexivity|lia|lia]. }
  eexists _, _. split; [reflexivity|].
  destruct (send_probe_success_registers 7 ICMP 0 1 64 1000 13 false
              [170; 187; 204] 3 send_env_ok engine_example _ Hloop eq_refl)
    as (sock & probe & [= <-] & Hfd & _ & Hst & _).
  split; [reflexivity|]. split; [reflexivity|]. split; reflexivity.
Defined.

(** ** The echo header across a run *)

Lemma fill_pattern_keeps_header pattern packet_size pattern_len : ∀ fuel data i data',
  fill_pattern fuel data i packet_size pattern pattern_len = Some data' →
  0 ≤ pattern_len → 8 ≤ i → (8 ≤ length data)%nat →
  take 8 data' = take 8 data.
Proof.
  induction fuel as [|fuel IH]; intros data i data' Hrun Hlen Hi Hdata;
    simpl in Hrun.
  - destruct (i <? packet_size); by simplify_eq.
  - destruct (i <? packet_size); [|by simplify_eq].
    apply IH in Hrun; [|lia..|].
    + rewrite Hrun. unfold memcpy.
      rewrite take_app_le by (rewrite length_take; lia).
      rewrite take_take. f_equal. lia.
    + unfold memcpy. rewrite length_app, length_take. lia.
Qed.

(** Whatever the pattern and the length given for it, the packet of an
    ICMP probe starts with the echo header. *)
Lemma init_packet_data_header ident' family probe size pattern pattern_len probe' :
  init_packet_data ident' family probe size pattern pattern_len = Some probe' →
  probe_type probe = ICMP →
  take 8 (packet_data probe') =
    [if decide (family = AF_INET) then 8 else 128; 0; 0; 0;
     (ident' mod 65536) / 256; ident' mod 256;
     (sequence probe mod 65536) / 256; sequence probe mod 256].
Proof.
  unfold init_packet_data, ICMP_HEADER_SIZE. intros Hinit Hicmp.
  rewrite !decide_True in Hinit by done.
  set (packet_size := if size <? 8 then 8 else size) in *.
  assert (Hps : 8 ≤ packet_size)
    by (subst packet_size; destruct (Z.ltb_spec size 8); lia).
  destruct (Z.ltb_spec packet_size 0); [lia|].
  set (data := if decide (family = AF_INET) then _ else _) in *.
  assert (Hdata : data =
    [if decide (family = AF_INET) then 8 else 128; 0; 0; 0;
     (ident' mod 65536) / 256; ident' mod 256;
     (sequence probe mod 65536) / 256; sequence probe mod 256]
    ++ replicate (Z.to_nat packet_size - 8) 0).
  { subst data. case_decide; apply write_echo_header_zero; lia. }
  assert (Hhead : take 8 data =
    [if decide (family = AF_INET) then 8 else 128; 0; 0; 0;
     (ident' mod 65536) / 256; ident' mod 256;
     (sequence probe mod 65536) / 256; sequence probe mod 256])
    by (by rewrite Hdata).
  assert (Hlen : (8 ≤ length data)%nat).
  { rewrite Hdata, length_app. simpl. lia. }
  destruct (Z.gtb_spec pattern_len 0) as [Hpos|Hnil].
  - destruct (fill_pattern _ _ _ _ _ _) as [data'|] eqn:Hrun; [|done].
    injection Hinit as <-. simpl.
    rewrite decide_True in Hrun by done.
    assert (Hplen : 0 ≤ pattern_len) by lia.
    by rewrite (fill_pattern_keeps_header _ _ _ _ _ _ _ Hrun Hplen
                  (Z.le_refl 8) Hlen).
  - by injection Hinit as <-.
Qed.

(** In the range [0 ≤ s < 65535] the sequence number is kept as given: a
    successful ICMP [send_probe] registers a record whose sequence is [s]
    and sends a datagram whose header carries the engine's identifier and
    [s], each with the high byte first. *)
Theorem send_probe_sequence_in_range id' port sequence' ttl' timeout' size
    detect_mtu pattern pattern_len env m m' :
  0 ≤ sequence' < 65535 →
  0 ≤ ident m < 65536 →
  send_probe id' ICMP port sequence' ttl' timeout' size detect_mtu
    pattern pattern_len env m = Some (m', SEND_PROBE_SUCCESS) →
  ∃ sock probe sent,
    probes m' !! sock = Some probe ∧ sequence probe = sequence' ∧
    sendto_log m' = sendto_log m ++ [sent] ∧
    sent_payload sent = packet_data probe ∧
    take 8 (sent_payload sent) =
      [if decide (ss_family (remote_addr m) = AF_INET) then 8 else 128;
       0; 0; 0; ident m / 256; ident m mod 256;
       sequence' / 256; sequence' mod 256].
Proof.
  intros Hseq Hident Hsend.
  destruct (send_probe_cases _ _ _ _ _ _ _ _ _ _ _ _ _ _ Hsend)
    as [(errno & text & _ & [=] & _)
       |[(sock & errno & text & _ & _ & _ & [=] & _)
        |(sock & packet & Hsock & Hinit &
          [(errno & text & _ & _ & [=] & _)|[_ ->]])]].
  apply init_packet_data_header in Hinit; [|done]. simpl in Hinit.
  rewrite Z.rem_small in Hinit by lia.
  rewrite (Z.mod_small sequence'), (Z.mod_small (ident m)) in Hinit by lia.
  eexists sock, _, _. simpl.
  split; [apply lookup_insert_eq|]. simpl.
  split; [by apply Z.rem_small|]. split; [reflexivity|]. split; [done|].
  exact Hinit.
Qed.

Lemma send_probe_sequence_in_range_witness :
  ∃ m' probe sent,
    send_probe 7 ICMP 0 65534 64 1000 8 false [] 0 send_env_ok engine_example
      = Some (m', SEND_PROBE_SUCCESS) ∧
    probes m' !! 5 = Some probe ∧ sequence probe = 65534 ∧
    sendto_log m' = [sent] ∧
    sent_payload sent = [8; 0; 0; 0; 18; 52; 255; 254].
Proof.
  destruct (send_probe_sequence_in_range 7 0 65534 64 1000 8 false [] 0
              send_env_ok engine_example
              (default engine_example
                 (fst <$> send_probe 7 ICMP 0 65534 64 1000 8 false [] 0
                            send_env_ok engine_example)))
    as (sock & probe & sent & Hfd & Hseq & Hlog & _ & _);
    [by vm_compute|by vm_compute|reflexivity|].
  eexists _, _, _. split; [reflexivity|].
  split; [reflexivity|]. split; [reflexivity|]. split; reflexivity.
Defined.

Lemma echo_header_ok_request ident' family probe probe' :
  request_fields probe' = request_fields probe →
  echo_header_ok ident' family probe → echo_header_ok ident' family probe'.
Proof.
  unfold echo_header_ok, request_fields. intros [=] Hok Hicmp.
  destruct Hok as [Hnil|Hhead]; [congruence| |]; [left|right]; congruence.
Qed.

Lemma records_inv_step ident' family notifier m m' :
  records_inv ident' family notifier m → engine_step m m' →
  records_inv ident' family notifier m'.
Proof.
  intros (Hid & Hfam & Hnot & Hwatch & Htable & Hlog) Hstep.
  destruct Hstep as
    [id' pt port seq ttl' tmo size mtu pat plen env m m' r Hsend
    | m | m | fd env m Hfd Hnn | tv_now m | m | m | m].
  - assert (Hbuilt : ∀ packet,
      init_packet_data (ident m) (ss_family (remote_addr m))
        (new_probe m id' pt seq ttl' tmo) size pat plen =
        Some (set_packet_data packet (new_probe m id' pt seq ttl' tmo)) →
      echo_header_ok ident' family
        (probe_at_sendto m id' pt seq ttl' tmo packet env)).
    { intros packet Hinit Hicmp. right.
      apply init_packet_data_header in Hinit; [|done].
      by rewrite Hid, Hfam in Hinit. }
    destruct (send_probe_cases _ _ _ _ _ _ _ _ _ _ _ _ _ _ Hsend)
      as [(errno & text & _ & _ & ->)
         |[(sock & errno & text & _ & _ & _ & _ & ->)
          |(sock & packet & _ & Hinit &
            [(errno & text & _ & _ & _ & ->)|[_ ->]])]].
    + split_and!; [done..|].
      intros p [?| ->%list_elem_of_singleton]%elem_of_app; [by apply Hlog|].
      split; [|done]. intros _. by left.
    + split_and!; [done..|].
      intros p [?| ->%list_elem_of_singleton]%elem_of_app; [by apply Hlog|].
      split; [|done]. intros _. by left.
    + split_and!; [done..|].
      intros p [?| ->%list_elem_of_singleton]%elem_of_app; [by apply Hlog|].
      split; [|done]. by apply (Hbuilt packet Hinit).
    + split_and!; [done..| | |done]; simpl.
      * intros fd [->%elem_of_singleton|Hin]%elem_of_union.
        -- right. rewrite lookup_insert_eq. by eexists.
        -- destruct (Hwatch fd Hin) as [?|Hsome]; [by left|right].
           by apply lookup_insert_is_Some'; right.
      * intros fd p [[_ <-]|[_ Hold]]%lookup_insert_Some; [|by eapply Htable].
        by apply (Hbuilt packet Hinit).
  - done.
  - done.
  - destruct (read_data_inv fd env m) as (probe' & -> & Hreq & _).
    split_and!; [done..| | |done]; simpl.
    + intros fd' Hin. destruct (Hwatch fd' Hin) as [?|Hsome]; [by left|right].
      by apply lookup_insert_is_Some'; right.
    + intros fd' p [[_ <-]|[_ Hold]]%lookup_insert_Some; [|by eapply Htable].
      destruct (Hwatch fd Hfd) as [?|[probe Hprobe]]; [congruence|].
      rewrite Hprobe in Hreq. simpl in Hreq.
      eapply echo_header_ok_request; [exact Hreq|by eapply Htable].
  - split_and!; [done..| | |done]; simpl.
    + intros fd Hin. destruct (Hwatch fd Hin) as [?|Hsome]; [by left|right].
      rewrite lookup_fmap. by apply fmap_is_Some.
    + intros fd p. rewrite lookup_fmap.
      destruct (probes m !! fd) as [probe|] eqn:Hprobe; [|done].
      intros [= <-]. specialize (Htable fd probe Hprobe).
      repeat case_decide; try done. by destruct (_ >? _).
  - destruct (send_callbacks_inv m) as (Hp & Hi & Hra & Hwf & Hl).
    assert (Hident : ident (send_callbacks m) = ident m).
    { unfold send_callbacks. generalize (map_to_list (probes m)).*2.
      intros l. generalize m. induction l as [|probe l IH]; intros m0;
        simpl; [done|]. rewrite IH. by case_decide. }
    unfold records_inv. rewrite Hp, Hi, Hra, Hwf, Hl, Hident.
    split_and!; [done..|].
    intros p [?|Hin]%elem_of_app; [by apply Hlog|].
    apply list_elem_of_filter in Hin as [Hdone Hin].
    apply list_elem_of_fmap in Hin as ([fd p'] & -> & Hin).
    apply elem_of_map_to_list in Hin. split; [by eapply Htable|done].
  - split_and!; [done..| | |done]; simpl.
    + intros fd [Hin Hgone]%elem_of_difference.
      destruct (Hwatch fd Hin) as [?|[probe Hprobe]]; [by left|right].
      exists probe. apply map_lookup_filter_Some. split; [done|]. simpl.
      destruct (decide (status probe = WAITING)) as [?|Hdone]; [done|].
      destruct Hgone. apply elem_of_dom. exists probe.
      by apply map_lookup_filter_Some.
    + intros fd p [Hold _]%map_lookup_filter_Some. by eapply Htable.
  - split_and!; [done..| | |done]; simpl.
    + intros fd Hin. destruct (Hwatch fd Hin) as [?|Hsome]; [by left|right].
      rewrite lookup_fmap. by apply fmap_is_Some.
    + intros fd p. rewrite lookup_fmap.
      destruct (probes m !! fd) as [probe|] eqn:Hprobe; [|done].
      intros [= <-]. specialize (Htable fd probe Hprobe).
      by case_decide.
Qed.

Lemma records_inv_run ident' family notifier m m' :
  records_inv ident' family notifier m → rtc engine_step m m' →
  records_inv ident' family notifier m'.
Proof.
  intros Hinv Hrun. induction Hrun as [|m1 m2 m3 Hstep _ IH]; [done|].
  apply IH. by eapply records_inv_step.
Qed.

Lemma records_inv_fresh m :
  fresh_engine m →
  records_inv (ident m) (ss_family (remote_addr m)) (wakeup_fd m) m.
Proof.
  intros (Hempty & Hwatch & Hlog). split_and!; [done..| | |].
  - intros fd Hfd. left. apply Hwatch in Hfd.
    by apply elem_of_singleton in Hfd.
  - intros fd p. by rewrite Hempty, lookup_empty.
  - intros p. rewrite Hlog. by intros ?%elem_of_nil.
Qed.

(** Identifier stability.  In every run of an engine, each ICMP record that
    is in the table or was handed to the callback, once its packet has
    been built, starts with the echo header of the destination's family
    carrying the identifier the engine started with and the record's own
    sequence number. *)
Theorem echo_header_stable m0 m probe :
  fresh_engine m0 →
  rtc engine_step m0 m →
  (∃ fd, probes m !! fd = Some probe) ∨ probe ∈ callback_log m →
  probe_type probe = ICMP →
  packet_data probe ≠ [] →
  ident m = ident m0 ∧
  take 8 (packet_data probe) =
    [if decide (ss_family (remote_addr m0) = AF_INET) then 8 else 128;
     0; 0; 0; (ident m0 mod 65536) / 256; ident m0 mod 256;
     (sequence probe mod 65536) / 256; sequence probe mod 256].
Proof.
  intros Hfresh Hrun Hwhere Hicmp Hbuilt.
  destruct (records_inv_run _ _ _ _ _ (records_inv_fresh m0 Hfresh) Hrun)
    as (Hid & _ & _ & _ & Htable & Hlog).
  split; [done|].
  destruct Hwhere as [[fd Hfd]|Hin].
  - by destruct (Htable fd probe Hfd Hicmp).
  - destruct (Hlog probe Hin) as [Hok _]. by destruct (Hok Hicmp).
Qed.

Lemma echo_header_stable_witness :
  ∃ probe,
    callback_log engine_icmp_delivered = [probe] ∧
    take 8 (packet_data probe) = [8; 0; 0; 0; 18; 52; 0; 1].
Proof.
  eexists. split; [reflexivity|].
  eapply (echo_header_stable engine_example engine_icmp_delivered).
  - split_and!; [reflexivity| |reflexivity]. intros fd Hfd. exact Hfd.
  - eapply rtc_l;
      [apply (step_send_probe 7 ICMP 0 1 64 1000 13 false [170; 187; 204] 3
                send_env_ok engine_example engine_icmp_sent SEND_PROBE_SUCCESS);
       reflexivity|].
    eapply rtc_l; [apply step_check_timeouts|].
    eapply rtc_l; [apply step_send_callbacks|].
    apply rtc_refl.
  - right. left.
  - reflexivity.
  - discriminate.
Defined.

(** The callback is never handed a probe that is still WAITING: in every
    run each record in the callback log is terminal, so the result object
    for the host can always be built. *)
Theorem callbacks_are_terminal m0 m probe :
  fresh_engine m0 →
  rtc engine_step m0 m →
  probe ∈ callback_log m →
  status probe ≠ WAITING ∧ is_Some (make_result probe).
Proof.
  intros Hfresh Hrun Hin.
  destruct (records_inv_run _ _ _ _ _ (records_inv_fresh m0 Hfresh) Hrun)
    as (_ & _ & _ & _ & _ & Hlog).
  destruct (Hlog probe Hin) as [_ Hdone]. split; [done|].
  unfold make_result. destruct (status probe); [done|..];
    repeat case_decide; by eexists.
Qed.

Lemma callbacks_are_terminal_witness :
  ∃ probe,
    callback_log engine_icmp_delivered = [probe] ∧
    status probe ≠ WAITING ∧ is_Some (make_result probe).
Proof.
  eexists. split; [reflexivity|].
  apply (callbacks_are_terminal engine_example engine_icmp_delivered).
  - split_and!; [reflexivity| |reflexivity]. intros fd Hfd. exact Hfd.
  - eapply rtc_l;
      [apply (step_send_probe 7 ICMP 0 1 64 1000 13 false [170; 187; 204] 3
                send_env_ok engine_example engine_icmp_sent SEND_PROBE_SUCCESS);
       reflexivity|].
    eapply rtc_l; [apply step_check_timeouts|].
    eapply rtc_l; [apply step_send_callbacks|].
    apply rtc_refl.
  - left.
Defined.

(** ** Construction and start-up *)

(** What the run properties need of a constructed engine. *)
Lemma ProbeManager_new_initial inet_pton random_ident remote source m :
  ProbeManager_new inet_pton random_ident remote source = Some m →
  probes m = ∅ ∧ callback_log m = [] ∧ epoll_interest m = ∅ ∧
  ident m = random_ident ∧
  (ss_family (remote_addr m) = AF_INET ∨
   ss_family (remote_addr m) = AF_INET6) ∧
  (inet_pton AF_INET source = None → inet_pton AF_INET6 source = None →
   source_ip m = "").
Proof.
  unfold ProbeManager_new, try_init_addr.
  rewrite decide_True by done. rewrite decide_False by done.
  intros Hnew.
  destruct (inet_pton AF_INET remote) as [r4|];
    [|destruct (inet_pton AF_INET6 remote) as [r6|]]; simpl in Hnew;
    [| |done].
  all: destruct (decide (source ≠ "")) as [Hsrc|Hsrc]; simpl in Hnew;
    [destruct (inet_pton AF_INET source) as [s4|];
     [|destruct (inet_pton AF_INET6 source) as [s6|]]; simpl in Hnew|].
  all: injection Hnew as <-; simpl; split_and!; try done; auto.
  all: intros _ _; by destruct (decide (source = "")).
Qed.

Lemma handler_start_value env m m' :
  handler_start env m = (m', start_value) →
  m' = set_running true
         (set_epoll_interest ({[eventfd_ret env]} ∪ epoll_interest m)
            (set_wakeup_fd (eventfd_ret env)
               (set_epoll_fd (epoll_create1_ret env) m))).
Proof.
  unfold handler_start, setup_epoll. simpl.
  destruct (epoll_create1_ret env <? 0) eqn:He; simpl; rewrite ?He; simpl;
    [done|].
  destruct (eventfd_ret env <? 0) eqn:Hw; simpl; rewrite ?He, ?Hw; simpl;
    [done|].
  by intros [= <-].
Qed.

(** How the constructor resolves its addresses.  The destination is taken
    as IPv4 whenever it parses as IPv4 and as IPv6 only otherwise; if it
    parses as neither, construction stops early.  A source that is empty or
    parses as neither leaves the engine without a source ([source_ip]
    empty), and a source that parses is kept with its parsed address.  The
    engine starts with an empty table, nothing watched, not running, with
    the drawn identifier. *)
Theorem ProbeManager_new_resolves inet_pton random_ident remote source :
  match ProbeManager_new inet_pton random_ident remote source with
  | None =>
      inet_pton AF_INET remote = None ∧ inet_pton AF_INET6 remote = None
  | Some m =>
      ((∃ bytes, inet_pton AF_INET remote = Some bytes ∧
                 remote_addr m =
                   {| ss_family := AF_INET; sin_port := 0; sin_addr := bytes |}) ∨
       (∃ bytes, inet_pton AF_INET remote = None ∧
                 inet_pton AF_INET6 remote = Some bytes ∧
                 remote_addr m =
                   {| ss_family := AF_INET6; sin_port := 0; sin_addr := bytes |})) ∧
      (source_ip m = "" ↔
       source = "" ∨
       (inet_pton AF_INET source = None ∧ inet_pton AF_INET6 source = None)) ∧
      (source_ip m ≠ "" →
       source_ip m = source ∧
       ∃ bytes, sin_addr (source_addr m) = bytes ∧
                (inet_pton AF_INET source = Some bytes ∧
                 ss_family (source_addr m) = AF_INET ∨
                 inet_pton AF_INET source = None ∧
                 inet_pton AF_INET6 source = Some bytes ∧
                 ss_family (source_addr m) = AF_INET6)) ∧
      probes m = ∅ ∧ callback_log m = [] ∧ epoll_interest m = ∅ ∧
      running m = false ∧ ident m = random_ident ∧ this_remote_ip m = remote
  end.
Proof.
  unfold ProbeManager_new, try_init_addr.
  rewrite decide_True by done. rewrite decide_False by done.
  destruct (inet_pton AF_INET remote) as [r4|] eqn:Hr4;
    [|destruct (inet_pton AF_INET6 remote) as [r6|] eqn:Hr6]; simpl;
    [| |done].
  all: destruct (decide (source ≠ "")) as [Hsrc|Hsrc]; simpl;
    [destruct (inet_pton AF_INET source) as [s4|] eqn:Hs4;
     [|destruct (inet_pton AF_INET6 source) as [s6|] eqn:Hs6]; simpl|].
  all: split_and!; try done.
  all: try (left; by eexists).
  all: try (right; by eexists).
  all: try (split; [done|intros [?|[? ?]]; done]).
  all: try (split; [intros _; by right|done]).
  all: try (split; [intros _; left; by destruct (decide (source = ""))|done]).
  all: try (intros _; split; [done|]; eexists; split; [done|]; by (left + right)).
  all: try (intros _; split; [done|]; eexists; split; [done|];
            solve [left; done | right; done]).
  all: try (destruct (decide (source = "")); done).
  all: split; [by left|].
  all: intros [?|[? ?]]; [done|].
  all: first [congruence | by destruct (decide (source = ""))].
Qed.

(** The start of the worker.  [handler] signals the starter with a value
    exactly when both the multiplexor and the notifier were created; the
    engine is then running with the notifier on the interest list.  When
    either creation fails it signals an exception and returns with the
    engine not set running.  In no case does it close a descriptor, so a
    multiplexor created before the notifier failed is left open. *)
Theorem handler_start_outcome env m :
  let m' := (handler_start env m).1 in
  let signal := (handler_start env m).2 in
  (signal = start_value ↔ 0 ≤ epoll_create1_ret env ∧ 0 ≤ eventfd_ret env) ∧
  (signal = start_value →
     running m' = true ∧ epoll_fd m' = epoll_create1_ret env ∧
     wakeup_fd m' = eventfd_ret env ∧
     epoll_interest m' = {[eventfd_ret env]} ∪ epoll_interest m) ∧
  (signal = start_exception →
     running m' = running m ∧ epoll_interest m' = epoll_interest m ∧
     handler env [] m = m') ∧
  closed_fds m' = closed_fds m ∧ probes m' = probes m ∧
  callback_log m' = callback_log m.
Proof.
  unfold handler, handler_start, setup_epoll. simpl.
  destruct (epoll_create1_ret env <? 0) eqn:He; simpl; rewrite ?He; simpl.
  - apply Z.ltb_lt in He. split_and!; try done. split; [done|lia].
  - destruct (eventfd_ret env <? 0) eqn:Hw; simpl; rewrite ?He, ?Hw; simpl.
    + apply Z.ltb_lt in Hw. split_and!; try done. split; [done|lia].
    + apply Z.ltb_ge in He, Hw. split_and!; try done.
Qed.

(** Construction and start-up compose: an engine that the constructor
    built and whose worker signalled a value is a fresh engine in the
    sense the run properties start from, running, with the identifier drawn
    at construction and a destination family that is IPv4 or IPv6. *)
Theorem constructed_engine_is_fresh inet_pton random_ident remote source env
    m m' :
  ProbeManager_new inet_pton random_ident remote source = Some m →
  handler_start env m = (m', start_value) →
  fresh_engine m' ∧ running m' = true ∧ ident m' = random_ident ∧
  (ss_family (remote_addr m') = AF_INET ∨
   ss_family (remote_addr m') = AF_INET6).
Proof.
  intros Hnew Hstart.
  destruct (ProbeManager_new_initial _ _ _ _ _ Hnew)
    as (Hempty & Hlog & Hinterest & Hid & Hfam & _).
  apply handler_start_value in Hstart as ->.
  split_and!; [|done..].
  split_and!; [done| |done]. simpl.
  by rewrite Hinterest, union_empty_r_L.
Qed.

Lemma constructed_engine_is_fresh_witness :
  ∃ m m',
    ProbeManager_new inet_pton_example 4660 "192.0.2.1" "" = Some m ∧
    handler_start setup_env_ok m = (m', start_value) ∧
    fresh_engine m' ∧ running m' = true ∧ ident m' = 4660 ∧
    (ss_family (remote_addr m') = AF_INET ∨
     ss_family (remote_addr m') = AF_INET6).
Proof.
  eexists _, _. split; [reflexivity|]. split; [reflexivity|].
  eapply (constructed_engine_is_fresh inet_pton_example 4660 "192.0.2.1" ""
            setup_env_ok); reflexivity.
Defined.

(** An engine built with a source address that does not parse never binds:
    whatever [bind] would answer, [send_probe] does the same. *)
Theorem unparsable_source_never_binds inet_pton random_ident remote source m
    id' probe_type' port sequence' ttl' timeout' size detect_mtu pattern
    pattern_len env bind_result' :
  ProbeManager_new inet_pton random_ident remote source = Some m →
  inet_pton AF_INET source = None →
  inet_pton AF_INET6 source = None →
  send_probe id' probe_type' port sequence' ttl' timeout' size detect_mtu
    pattern pattern_len
    {| socket_result := socket_result env; bind_result := bind_result';
       sendto_result := sendto_result env;
       gettimeofday_sent := gettimeofday_sent env |} m =
  send_probe id' probe_type' port sequence' ttl' timeout' size detect_mtu
    pattern pattern_len env m.
Proof.
  intros Hnew H4 H6.
  destruct (ProbeManager_new_initial _ _ _ _ _ Hnew)
    as (_ & _ & _ & _ & _ & Hsrc).
  assert (Hempty : source_ip m = "") by (by apply Hsrc).
  unfold send_probe. simpl. rewrite Hempty. reflexivity.
Qed.

Lemma unparsable_source_never_binds_witness :
  ∃ m,
    ProbeManager_new inet_pton_example 4660 "192.0.2.1" "not-an-ip" = Some m ∧
    send_probe 7 ICMP 0 1 64 1000 13 false [170] 1
      {| socket_result := Ret 5; bind_result := Err 99 "Cannot assign";
         sendto_result := Ret 13;
         gettimeofday_sent := {| tv_sec := 100; tv_usec := 250000 |} |} m =
    send_probe 7 ICMP 0 1 64 1000 13 false [170] 1 send_env_ok m.
Proof.
  eexists. split; [reflexivity|].
  eapply (unparsable_source_never_binds inet_pton_example 4660 "192.0.2.1"
            "not-an-ip" _ 7 ICMP 0 1 64 1000 13 false [170] 1 send_env_ok);
    reflexivity.
Defined.

(** ** One loop iteration *)

Lemma handle_events_registered w (fds : list Z) : ∀ m,
  (∀ fd, fd ∈ fds → fd = wakeup_fd m ∨ is_Some (probes m !! fd)) →
  dom (probes (foldl (handle_event w) m fds)) = dom (probes m) ∧
  callback_log (foldl (handle_event w) m fds) = callback_log m ∧
  wakeup_fd (foldl (handle_event w) m fds) = wakeup_fd m.
Proof.
  induction fds as [|fd fds IH]; intros m Hreg; simpl; [done|].
  assert (Hstep : dom (probes (handle_event w m fd)) = dom (probes m) ∧
                  callback_log (handle_event w m fd) = callback_log m ∧
                  wakeup_fd (handle_event w m fd) = wakeup_fd m).
  { unfold handle_event. case_decide as Hfd; [done|].
    destruct (Hreg fd) as [?|Hsome]; [by left|done|].
    destruct (read_data_inv fd (answers w fd) m) as (probe' & -> & _).
    simpl. by rewrite dom_insert_lookup_L. }
  destruct Hstep as (Hdom & Hlog & Hwf).
  destruct (IH (handle_event w m fd)) as (-> & -> & ->); [|done].
  intros fd' Hin. rewrite Hwf.
  destruct (Hreg fd') as [?|Hsome]; [by right|by left|right].
  by rewrite <- elem_of_dom, Hdom, elem_of_dom.
Qed.

(** Inside the loop no probe is lost and none is reported twice.  When the
    ready descriptors are the notifier or table keys, as [epoll_wait]
    reports them, one iteration leaves only WAITING probes in the table,
    keeps every earlier callback, hands over only terminal records, and
    makes exactly one callback for each entry that leaves the table: the
    entries plus the callbacks made so far number the same before and
    after. *)
Theorem handler_body_conserves_probes w m :
  (∀ fd, fd ∈ events w → fd = wakeup_fd m ∨ is_Some (probes m !! fd)) →
  let m' := handler_body w m in
  (∀ fd probe, probes m' !! fd = Some probe → status probe = WAITING) ∧
  (size (probes m') + length (callback_log m') =
   size (probes m) + length (callback_log m))%nat ∧
  ∃ delivered,
    callback_log m' = callback_log m ++ delivered ∧
    ∀ probe, probe ∈ delivered → status probe ≠ WAITING.
Proof.
  intros Hreg. unfold handler_body. simpl.
  destruct (handle_events_registered w (events w) m Hreg)
    as (Hdom & Hlog & _).
  set (m1 := foldl (handle_event w) m (events w)) in *.
  set (m2 := check_timeouts (sweep_time w) m1).
  assert (Hsize : size (probes m2) = size (probes m)).
  { subst m2. simpl. by rewrite map_size_fmap, <- !size_dom, Hdom. }
  assert (Hlog2 : callback_log m2 = callback_log m) by done.
  destruct (sweep_delivers_then_reaps m2) as [Hdelivered Htable].
  pose proof (sweep_counts m2) as Hcount. simpl in *.
  split_and!.
  - intros fd probe Hfd. by apply Htable in Hfd as [_ ?].
  - rewrite <- Hsize, <- Hlog2. exact Hcount.
  - eexists. split; [by rewrite Hdelivered, Hlog2|].
    by intros probe [? _]%list_elem_of_filter.
Qed.

Lemma handler_body_conserves_probes_witness :
  let w := {| events := [4; 5]; answers := λ _, read_env_time_exceeded;
              sweep_time := {| tv_sec := 100; tv_usec := 310000 |} |} in
  (∀ fd probe, probes (handler_body w engine_waiting) !! fd = Some probe →
               status probe = WAITING) ∧
  (size (probes (handler_body w engine_waiting)) +
   length (callback_log (handler_body w engine_waiting)) = 1)%nat ∧
  ∃ delivered,
    callback_log (handler_body w engine_waiting) = [] ++ delivered ∧
    ∀ probe, probe ∈ delivered → status probe ≠ WAITING.
Proof.
  intros w. apply (handler_body_conserves_probes w engine_waiting).
  intros fd Hfd. simpl in Hfd.
  apply elem_of_cons in Hfd as [->|Hfd]; [by left|].
  apply list_elem_of_singleton in Hfd as ->. right. by eexists.
Defined.

(** ** Errors as the host sees them *)

Lemma handle_cmsgs_remote_ip stamp cmsgs : ∀ probe,
  remote_ip (foldl (handle_cmsg stamp) probe cmsgs) = remote_ip probe.
Proof.
  induction cmsgs as [|cmsg cmsgs IH]; intros probe; simpl; [done|].
  rewrite IH. unfold handle_cmsg. repeat case_decide; by destruct stamp.
Qed.

Lemma recv_pass_remote_ip flag answer stamp probe :
  remote_ip (recv_pass flag answer stamp probe) = remote_ip probe.
Proof.
  destruct answer as [msg|]; simpl; [|done].
  case_decide; destruct stamp; simpl; by rewrite handle_cmsgs_remote_ip.
Qed.

Lemma read_data_remote_ip fd env m probe :
  probes (read_data fd env m) !! fd = Some probe →
  remote_ip probe = remote_ip (default ProbeContext_zero (probes m !! fd)).
Proof.
  rewrite read_data_unfold. simpl. rewrite lookup_insert_eq.
  intros [= <-]. simpl.
  case_decide; by rewrite !recv_pass_remote_ip.
Qed.

(** The result built for an ICMP error.  When the receiver's error-queue
    pass ends with an extended error, the host is handed
    [ConnectionRefused], [HostUnreachable] or [NetUnreachable] for the
    errnos of those names and [NetError] with the errno, code, origin and
    info for any other, in each case with the offender's address and the
    probe's own sequence number, destination, packet size and overhead.
    The errno and the info are [unsigned int] in the record and reach the
    host as [jint]: a value from 2^31 on arrives negative. *)
Theorem read_data_error_result fd env m msg before cmsg after old :
  probes m !! fd = Some old →
  recvmsg_errqueue env = Some msg →
  msg_control msg = before ++ cmsg :: after →
  is_recverr cmsg →
  (∀ c, c ∈ after → ¬ is_recverr c) →
  ∃ probe,
    probes (read_data fd env m) !! fd = Some probe ∧
    let sent_size := to_int (Z.of_nat (length (packet_data old))) in
    let rtt_us := to_int (TIMEVAL_TO_USEC (tv_diff probe)) in
    make_result probe =
      Some (if decide (ee_errno cmsg = ECONNREFUSED) then
              ConnectionRefused (sequence old) (remote_ip old) sent_size
                (overhead old) (ee_offender cmsg) rtt_us
            else if decide (ee_errno cmsg = EHOSTUNREACH) then
              HostUnreachable (sequence old) (remote_ip old) sent_size
                (overhead old) (ee_offender cmsg) rtt_us
            else if decide (ee_errno cmsg = ENETUNREACH) then
              NetUnreachable (sequence old) (remote_ip old) sent_size
                (overhead old) (ee_offender cmsg) rtt_us
            else
              NetError (sequence old) (remote_ip old) sent_size
                (overhead old) (ee_offender cmsg) (to_int (ee_errno cmsg))
                (ee_code cmsg) (ee_origin cmsg) (to_int (ee_info cmsg))).
Proof.
  intros Hold Hq Hsplit Herr Hafter.
  destruct (read_data_error_record fd env m msg before cmsg after
              Hq Hsplit Herr Hafter)
    as (probe & Hfd & Hst & Hno & Hcode & Htype & Hinfo & Hoff).
  pose proof (read_data_remote_ip fd env m probe Hfd) as Hip.
  destruct (read_data_inv fd env m) as (probe' & Heq & Hreq & _).
  assert (probe' = probe) as ->.
  { rewrite Heq in Hfd. simpl in Hfd. rewrite lookup_insert_eq in Hfd.
    by injection Hfd. }
  rewrite Hold in Hreq, Hip. simpl in Hreq, Hip.
  unfold request_fields in Hreq. injection Hreq as _ _ Hov Hseq _ Hpkt _.
  exists probe. split; [done|].
  unfold make_result.
  rewrite Hst, Hno, Hcode, Htype, Hinfo, Hoff, Hip, Hov, Hseq, Hpkt.
  repeat case_decide; reflexivity.
Qed.

Lemma read_data_error_result_witness :
  ∃ probe,
    probes (read_data 5 read_env_net_error engine_waiting) !! 5
      = Some probe ∧
    make_result probe =
      Some (NetError 1 "192.0.2.1" 13 20 "198.51.100.1" 90 4 2 (-1)).
Proof.
  apply (read_data_error_result 5 read_env_net_error engine_waiting
           msg_net_error [] cmsg_net_error_example [] probe_waiting_example).
  - reflexivity.
  - reflexivity.
  - reflexivity.
  - left. split; reflexivity.
  - intros c Hc. by apply elem_of_nil in Hc.
Defined.

(** ** The hop limit of a reply *)

Lemma handle_cmsg_reply_ttl stamp probe cmsg :
  reply_ttl (handle_cmsg stamp probe cmsg) =
    if decide (is_ttl cmsg) then cmsg_int cmsg else reply_ttl probe.
Proof.
  unfold handle_cmsg.
  destruct (decide (is_ttl cmsg)) as [Ht|Ht].
  - assert (Hr : ¬ is_recverr cmsg).
    { unfold is_ttl, is_recverr, SOL_IP, SOL_IPV6, IP_RECVERR, IPV6_RECVERR,
        IP_TTL, IPV6_HOPLIMIT in *. lia. }
    rewrite decide_False by exact Hr. by rewrite decide_True by exact Ht.
  - case_decide; [by destruct stamp|]. by rewrite decide_False by exact Ht.
Qed.

Lemma handle_cmsgs_reply_ttl_none stamp cmsgs : ∀ probe,
  (∀ c, c ∈ cmsgs → ¬ is_ttl c) →
  reply_ttl (foldl (handle_cmsg stamp) probe cmsgs) = reply_ttl probe.
Proof.
  induction cmsgs as [|cmsg cmsgs IH]; intros probe Hno; simpl; [done|].
  rewrite IH by (intros c Hc; apply Hno; by right).
  rewrite handle_cmsg_reply_ttl, decide_False; [done|].
  apply Hno. by left.
Qed.

Lemma recv_pass_reply_ttl flag msg stamp probe :
  (∀ before cmsg after,
     msg_control msg = before ++ cmsg :: after → is_ttl cmsg →
     (∀ c, c ∈ after → ¬ is_ttl c) →
     reply_ttl (recv_pass flag (Some msg) stamp probe) = cmsg_int cmsg) ∧
  ((∀ c, c ∈ msg_control msg → ¬ is_ttl c) →
   reply_ttl (recv_pass flag (Some msg) stamp probe) = reply_ttl probe).
Proof.
  simpl.
  match goal with
  | |- context [foldl _ ?p _] => set (probe' := p)
  end.
  assert (Hpass : ∀ probe'',
    reply_ttl (if decide (flag = 0)
               then set_reply_data
                      (resize (length (take (length (reply_data probe))
                                            (msg_data msg))) 0
                         (reply_data
                            (ioctl_SIOCGSTAMP stamp
                               (set_status SUCCESS probe''))))
                      (ioctl_SIOCGSTAMP stamp (set_status SUCCESS probe''))
               else probe'') = reply_ttl probe'').
  { intros probe''. case_decide; by destruct stamp. }
  rewrite Hpass. split.
  - intros before cmsg after -> Httl Hafter.
    rewrite foldl_app. simpl.
    rewrite handle_cmsgs_reply_ttl_none by done.
    by rewrite handle_cmsg_reply_ttl, decide_True.
  - intros Hno. by rewrite handle_cmsgs_reply_ttl_none.
Qed.

(** The hop limit reported with a reply.  When the error queue gave no
    extended error and a datagram was received, the record is a SUCCESS
    whose [reply_ttl] is the value of the last hop-limit control message
    that came with the datagram; when neither message carried one,
    [reply_ttl] is what it was before the receiver ran, which for a probe
    registered by [send_probe] is 0. *)
Theorem read_data_reply_ttl fd env m msg :
  ¬ errqueue_has_error env →
  recvmsg_data env = Some msg →
  ∃ probe,
    probes (read_data fd env m) !! fd = Some probe ∧
    status probe = SUCCESS ∧
    (∀ before cmsg after,
       msg_control msg = before ++ cmsg :: after → is_ttl cmsg →
       (∀ c, c ∈ after → ¬ is_ttl c) →
       reply_ttl probe = cmsg_int cmsg) ∧
    ((∀ c, c ∈ msg_control msg → ¬ is_ttl c) →
     (∀ emsg c, recvmsg_errqueue env = Some emsg →
                c ∈ msg_control emsg → ¬ is_ttl c) →
     reply_ttl probe =
       reply_ttl (default ProbeContext_zero (probes m !! fd))).
Proof.
  intros Hno Hmsg.
  rewrite read_data_unfold. simpl.
  set (probe1 := set_reply_data _ _).
  destruct (recv_pass_errqueue_status (recvmsg_errqueue env) (siocgstamp env)
              probe1) as [_ Hnone]; [done|].
  fold (errqueue_has_error env) in Hnone.
  destruct (Hnone Hno) as [Hsame _].
  set (probe2 := recv_pass MSG_ERRQUEUE _ _ probe1) in *.
  eexists. split; [apply lookup_insert_eq|]. simpl.
  rewrite decide_False by (by rewrite Hsame).
  rewrite Hmsg.
  destruct (recv_pass_data (Some msg) (siocgstamp env) probe2) as [_ [Hst _]].
  destruct (recv_pass_reply_ttl 0 msg (siocgstamp env) probe2)
    as [Hlast Hkeep].
  split_and!; [done|done|].
  intros Hnone_data Hnone_err. rewrite Hkeep by done.
  subst probe2. destruct (recvmsg_errqueue env) as [emsg|] eqn:Hq; [|done].
  destruct (recv_pass_reply_ttl MSG_ERRQUEUE emsg (siocgstamp env) probe1)
    as [_ Hkeep'].
  rewrite Hkeep'; [done|]. intros c Hc. by apply (Hnone_err emsg).
Qed.

Lemma read_data_reply_ttl_witness :
  ∃ probe,
    probes (read_data 5 read_env_echo_reply engine_waiting) !! 5
      = Some probe ∧
    status probe = SUCCESS ∧ reply_ttl probe = 57.
Proof.
  destruct (read_data_reply_ttl 5 read_env_echo_reply engine_waiting
              msg_echo_reply) as (probe & Hfd & Hst & Hlast & _).
  - intros (emsg & c & Hq & _). discriminate Hq.
  - reflexivity.
  - exists probe. split; [exact Hfd|]. split; [exact Hst|].
    apply (Hlast [] cmsg_ttl_example []).
    + reflexivity.
    + left. split; reflexivity.
    + intros c Hc. by apply elem_of_nil in Hc.
Defined.

(** ** A wake-up with nothing to read *)

(** C5 (what the code does instead).  A probe is WAITING and its timeout
    has not run out; its descriptor is reported ready and both receives
    find nothing.  The timeout sweep on its own leaves the probe WAITING at
    that instant.  The loop iteration does not: [read_data] has set the
    status to TIMEOUT before receiving, so the same iteration hands the
    probe to the callback as a [Timeout], erases it and closes its socket,
    however much of the timeout was left. *)
Theorem spurious_wakeup_times_out_early w m fd probe :
  probes m !! fd = Some probe →
  status probe = WAITING →
  fd ≠ wakeup_fd m →
  events w = [fd] →
  recvmsg_errqueue (answers w fd) = None →
  recvmsg_data (answers w fd) = None →
  elapsed_ms (sweep_time w) probe ≤ timeout probe →
  probes (check_timeouts (sweep_time w) m) !! fd = Some probe ∧
  ∃ delivered,
    probes (read_data fd (answers w fd) m) !! fd = Some delivered ∧
    delivered ∈ callback_log (handler_body w m) ∧
    status delivered = TIMEOUT ∧
    request_fields delivered = request_fields probe ∧
    make_result delivered =
      Some (Timeout (sequence probe) (remote_ip probe)
              (to_int (Z.of_nat (length (packet_data probe))))
              (overhead probe)) ∧
    probes (handler_body w m) !! fd = None ∧
    fd ∈ closed_fds (handler_body w m).
Proof.
  intros Hfd Hwait Hnn Hev Hq Hd Hearly. split.
  - unfold check_timeouts. simpl. rewrite lookup_fmap, Hfd. simpl.
    rewrite decide_True by done. unfold elapsed_ms in Hearly.
    by destruct (Z.gtb_spec (TIMEVAL_TO_MS (timersub (sweep_time w)
                                              (tv_sent probe)))
                            (timeout probe)); [lia|].
  - unfold handler_body. rewrite Hev. simpl foldl.
    unfold handle_event. rewrite decide_False by done.
    destruct (read_data_inv fd (answers w fd) m)
      as (probe' & Heq & Hreq & _ & _ & _ & Hto).
    specialize (Hto Hq Hd).
    assert (Hnew : probes (read_data fd (answers w fd) m) !! fd = Some probe').
    { rewrite Heq. simpl. apply lookup_insert_eq. }
    pose proof (read_data_remote_ip _ _ _ _ Hnew) as Hip.
    rewrite Hfd in Hreq, Hip. simpl in Hreq, Hip.
    set (m1 := read_data fd (answers w fd) m) in *. clearbody m1.
    assert (Hswept : probes (check_timeouts (sweep_time w) m1) !! fd
                     = Some probe').
    { unfold check_timeouts. simpl. rewrite lookup_fmap, Hnew. simpl.
      rewrite decide_False; [done|]. by rewrite Hto. }
    set (m2 := check_timeouts (sweep_time w) m1) in *. clearbody m2.
    pose proof (sweep_delivers_then_reaps m2) as Hsweep.
    cbv zeta in Hsweep. destruct Hsweep as [Hlog Htable].
    exists probe'. split_and!.
    + done.
    + rewrite Hlog. apply elem_of_app. right.
      apply list_elem_of_filter. split; [by rewrite Hto|].
      apply list_elem_of_fmap. exists (fd, probe'). split; [done|].
      by apply elem_of_map_to_list.
    + done.
    + done.
    + unfold request_fields in Hreq.
      injection Hreq as _ _ Hov Hseq _ Hpkt _.
      unfold make_result. by rewrite Hto, Hip, Hov, Hseq, Hpkt.
    + destruct (probes (clean_probes (send_callbacks m2)) !! fd)
        as [p|] eqn:Hp; [|done].
      apply Htable in Hp as [Hp Hw]. rewrite Hswept in Hp.
      injection Hp as <-. by rewrite Hto in Hw.
    + unfold clean_probes. simpl. apply elem_of_app. right.
      apply list_elem_of_fmap. exists (fd, probe'). split; [done|].
      apply elem_of_map_to_list, map_lookup_filter_Some.
      destruct (send_callbacks_inv m2) as (Hsame & _).
      rewrite Hsame. split; [done|]. simpl. by rewrite Hto.
Qed.

Lemma spurious_wakeup_times_out_early_witness :
  timeout probe_waiting_example = 1000 ∧
  elapsed_ms (sweep_time wake_spurious) probe_waiting_example = 50 ∧
  get_min_wait_time (sweep_time wake_spurious) engine_waiting = 950 ∧
  probes (check_timeouts (sweep_time wake_spurious) engine_waiting) !! 5
    = Some probe_waiting_example ∧
  ∃ delivered,
    probes (read_data 5 read_env_nothing engine_waiting) !! 5
      = Some delivered ∧
    delivered ∈ callback_log (handler_body wake_spurious engine_waiting) ∧
    status delivered = TIMEOUT ∧
    make_result delivered = Some (Timeout 1 "192.0.2.1" 13 20) ∧
    probes (handler_body wake_spurious engine_waiting) !! 5 = None ∧
    5 ∈ closed_fds (handler_body wake_spurious engine_waiting).
Proof.
  split; [reflexivity|]. split; [reflexivity|]. split; [reflexivity|].
  destruct (spurious_wakeup_times_out_early wake_spurious engine_waiting 5
              probe_waiting_example)
    as (Hsweep & delivered & Hread & Hin & Hst & _ & Hres & Hgone & Hclosed).
  - reflexivity.
  - reflexivity.
  - simpl. lia.
  - reflexivity.
  - reflexivity.
  - reflexivity.
  - vm_compute. discriminate.
  - split; [exact Hsweep|]. exists delivered. split; [exact Hread|].
    split; [exact Hin|]. split; [exact Hst|]. split; [exact Hres|].
    split; [exact Hgone|exact Hclosed].
Defined.

(** ** Reply buffers across a run *)








